(** * SceneManager.cpp: texture registry, material list, shader dispatch and
      the fixed scene script

    A shallow embedding of [OpenGL_FinalScene/Source/SceneManager.cpp].
    Every member function of the C++ class becomes a computation in a small
    monad that threads the [SceneManager] object and the chronological log of
    the calls made to the external collaborators (OpenGL, stb_image, the
    shader manager, the mesh provider, std::cout).  Undefined behaviour of
    the C++ program (a call through a NULL pointer, an access outside the
    sixteen-entry texture array) is an explicit outcome. *)

From Stdlib Require Import ZArith List String QArith Lia Bool.
Import ListNotations.
Local Open Scope string_scope.
Local Open Scope list_scope.
Local Open Scope Z_scope.

(* ------------------------------------------------------------------------- *)
(** ** Scalars and vectors *)

(** The C++ [float].  The file does no arithmetic on floats of its own: it
    only forwards literals to glm and to the shader manager, so the type is
    kept abstract.  [flt q] is the value of the literal [q] written with the
    [f] suffix, [dbl q] the value of a [double] literal narrowed to [float],
    [int_to_float z] the value of an [int] literal converted to [float]. *)
Class Scalar : Type := {
  float : Type;
  flt : Q -> float;
  dbl : Q -> float;
  int_to_float : Z -> float
}.

(** glm::vec2, glm::vec3, glm::vec4 *)
Record vec2 {S : Scalar} : Type := glm_vec2 { v2_x : float; v2_y : float }.
Record vec3 {S : Scalar} : Type :=
  glm_vec3 { v3_x : float; v3_y : float; v3_z : float }.
Record vec4 {S : Scalar} : Type :=
  glm_vec4 { v4_r : float; v4_g : float; v4_b : float; v4_a : float }.

Arguments glm_vec2 {S}.
Arguments glm_vec3 {S}.
Arguments glm_vec4 {S}.

(** OBJECT_MATERIAL (declared in SceneManager.h); these are the members the
    source file reads and writes. *)
Record OBJECT_MATERIAL {S : Scalar} : Type := Build_OBJECT_MATERIAL {
  diffuseColor : vec3;
  specularColor : vec3;
  shininess : float;
  material_tag : string
}.

Arguments Build_OBJECT_MATERIAL {S}.

(** The part of glm the file uses: 4x4 matrices with their product
    ([operator*]), [glm::scale], [glm::rotate], [glm::translate] and
    [glm::radians]. *)
Class Glm {S : Scalar} : Type := {
  mat4 : Type;
  mat4_mul : mat4 -> mat4 -> mat4;
  glm_scale : vec3 -> mat4;
  glm_rotate : float -> vec3 -> mat4;
  glm_translate : vec3 -> mat4;
  glm_radians : float -> float
}.

Declare Scope mat4_scope.
Delimit Scope mat4_scope with mat4.
(** C++ [a * b * c] associates to the left. *)
Infix "*" := mat4_mul (at level 40, left associativity) : mat4_scope.

(* ------------------------------------------------------------------------- *)
(** ** The texture registry entry *)

(** TEXTURE_INFO (declared in SceneManager.h).  [ID] is a 32-bit unsigned
    integer: [DestroyGLTextures] passes its address where a [GLuint*] is
    expected. *)
Record TEXTURE_INFO : Type := { tag : string; ID : Z }.

Definition UINT32_MOD : Z := 2 ^ 32.

(** Conversion of an [int] to a 32-bit unsigned integer ([ID = -1]). *)
Definition to_uint32 (z : Z) : Z := z mod UINT32_MOD.

(** Conversion of a 32-bit unsigned integer to [int]
    ([textureID = m_textureIDs[index].ID]). *)
Definition to_int (u : Z) : Z :=
  if u mod UINT32_MOD <? 2 ^ 31 then u mod UINT32_MOD
  else u mod UINT32_MOD - UINT32_MOD.

(** The image stb_image decodes: [stbi_load] hands back the pixel buffer
    and writes width, height and channel count through its out-parameters. *)
Record Image : Type := {
  width : Z;
  height : Z;
  colorChannels : Z;
  pixels : list Z
}.

(* ------------------------------------------------------------------------- *)
(** ** Calls to the external collaborators *)

Inductive GLenum : Type :=
| GL_TEXTURE_2D | GL_TEXTURE_WRAP_S | GL_TEXTURE_WRAP_T | GL_REPEAT
| GL_TEXTURE_MIN_FILTER | GL_TEXTURE_MAG_FILTER | GL_LINEAR
| GL_RGB8 | GL_RGB | GL_RGBA8 | GL_RGBA | GL_UNSIGNED_BYTE.

(** [GL_TEXTURE0], the enumerant of texture unit 0; unit [i] is
    [GL_TEXTURE0 + i]. *)
Definition GL_TEXTURE0 : Z := 33984.

(** OpenGL entry points.  [glGenTextures n name] records the name the
    driver handed out; [glDeleteTextures] is the entry point that releases
    a texture name. *)
Inductive GLCall : Type :=
| glGenTextures (n : Z) (name : Z)
| glDeleteTextures (n : Z) (name : Z)
| glBindTexture (target : GLenum) (texture : Z)
| glTexParameteri (target pname param : GLenum)
| glTexImage2D (target : GLenum) (level : Z) (internalformat : GLenum)
               (w h border : Z) (format type : GLenum) (image : Image)
| glGenerateMipmap (target : GLenum)
| glActiveTexture (texture : Z).

Inductive StbiCall : Type :=
| stbi_set_flip_vertically_on_load (flag : bool)
| stbi_load_file (filename : string)
| stbi_image_free (image : Image).

(** The lines written to std::cout. *)
Inductive CoutLine : Type :=
| cout_loaded (filename : string) (w h channels : Z)
| cout_not_implemented (channels : Z)
| cout_could_not_load (filename : string).

(** ShapeMeshes: its load and draw member functions, and the [new] and
    [delete] of the object itself. *)
Inductive MeshCall : Type :=
| LoadPlaneMesh | LoadCylinderMesh | LoadTaperedCylinderMesh
| LoadTorusMesh | LoadSphereMesh | LoadBoxMesh
| DrawPlaneMesh | DrawBoxMesh | DrawCylinderMesh | DrawTaperedCylinderMesh
| DrawTorusMesh | DrawSphereMesh | DrawHalfSphereMesh
| new_ShapeMeshes | delete_ShapeMeshes.

(** The member functions of ShaderManager the file calls: the shader
    parameter sink. *)
Inductive ShaderCall {S : Scalar} {G : Glm} : Type :=
| setMat4Value (name : string) (m : mat4)
| setVec4Value (name : string) (v : vec4)
| setVec3Value (name : string) (v : vec3)
| setVec3Value_xyz (name : string) (x y z : float)
| setVec2Value (name : string) (v : vec2)
| setFloatValue (name : string) (f : float)
| setIntValue (name : string) (i : Z)
| setBoolValue (name : string) (b : bool)
| setSampler2DValue (name : string) (slot : Z).

Inductive Call {S : Scalar} {G : Glm} : Type :=
| Shader (c : ShaderCall)
| Mesh (c : MeshCall)
| GL (c : GLCall)
| Stbi (c : StbiCall)
| Cout (l : CoutLine).

(** The calls that allocate, and the calls that release, a texture name. *)
Definition is_glGenTextures {S : Scalar} {G : Glm} (c : Call) : bool :=
  match c with GL (glGenTextures _ _) => true | _ => false end.

Definition is_glDeleteTextures {S : Scalar} {G : Glm} (c : Call) : bool :=
  match c with GL (glDeleteTextures _ _) => true | _ => false end.

(** What the surroundings decide: which files stb_image can decode, which
    texture name the OpenGL driver hands out next, and the indeterminate
    contents of an [OBJECT_MATERIAL] automatic variable that has not been
    assigned.  The last two may differ from one call to the next: they are
    functions of the calls made so far. *)
Class Environment {S : Scalar} {G : Glm} : Type := {
  stbi_load : string -> option Image;
  next_texture_name : list Call -> Z;
  uninitialized_material : list Call -> OBJECT_MATERIAL
}.

(* ------------------------------------------------------------------------- *)
(** ** The SceneManager object *)

(** A pointer to the one object of its class: NULL, or the live object. *)
Inductive pointer : Type := NULL | object.

(** The data members of the class.  [m_textureIDs] is the array
    [TEXTURE_INFO m_textureIDs[16]], [m_loadedTextures] an [int],
    [m_objectMaterials] a [std::vector<OBJECT_MATERIAL>].  The [int]s of the
    file ([m_loadedTextures] and the loop indices) are only ever
    incremented: a loop index stays below its bound, and
    [m_loadedTextures] is incremented right after it has indexed the
    array, so that no increment overflows in a run that is still defined;
    they are integers here. *)
Record SceneManager {S : Scalar} : Type := Build_SceneManager {
  m_pShaderManager : pointer;
  m_basicMeshes : pointer;
  m_textureIDs : list TEXTURE_INFO;
  m_loadedTextures : Z;
  m_objectMaterials : list OBJECT_MATERIAL
}.

Arguments Build_SceneManager {S}.

(** The number of elements of [m_textureIDs]. *)
Definition TEXTURE_SLOTS : Z := 16.

(* ------------------------------------------------------------------------- *)
(** ** The monad of member functions *)

Inductive UB : Type :=
| NullPointerDereference
| ArrayIndexOutOfBounds.

(** A run ends normally with a value, in undefined behaviour, or (for the
    [while] loops, which are given a bound) without fuel. *)
Inductive Outcome (A : Type) : Type :=
| Ok (a : A)
| Undefined (u : UB)
| OutOfFuel.

Arguments Ok {A}.
Arguments Undefined {A}.
Arguments OutOfFuel {A}.

Section Monad.
Context {S : Scalar} {G : Glm}.

Definition M (A : Type) : Type :=
  SceneManager -> list Call -> Outcome (A * SceneManager * list Call).

Definition ret {A} (a : A) : M A := fun this log => Ok (a, this, log).

Definition bind {A B} (c : M A) (k : A -> M B) : M B :=
  fun this log =>
    match c this log with
    | Ok (a, this', log') => k a this' log'
    | Undefined u => Undefined u
    | OutOfFuel => OutOfFuel
    end.

(** Read and replace the object. *)
Definition get_this : M SceneManager := fun this log => Ok (this, this, log).
Definition set_this (this' : SceneManager) : M unit :=
  fun _ log => Ok (tt, this', log).

(** The calls made so far. *)
Definition get_log : M (list Call) := fun this log => Ok (log, this, log).

(** A call to a free function of a collaborator. *)
Definition call (c : Call) : M unit := fun this log => Ok (tt, this, log ++ [c]).

Definition undefined {A} (u : UB) : M A := fun _ _ => Undefined u.
End Monad.

Declare Scope scene_scope.
Delimit Scope scene_scope with scene.
Notation "x <- c1 ;; c2" := (bind c1 (fun x => c2))
  (at level 61, c1 at next level, right associativity) : scene_scope.
Notation "' pat <- c1 ;; c2" := (bind c1 (fun x => match x with pat => c2 end))
  (at level 61, pat pattern, c1 at next level, right associativity) : scene_scope.
Notation "c1 ;; c2" := (bind c1 (fun _ => c2))
  (at level 61, right associativity) : scene_scope.
Local Open Scope scene_scope.

Section Control.
Context {S : Scalar} {G : Glm}.

(** [while (cond) body] over the loop's local variables [St]; the
    condition may read the object.  [fuel] bounds the number of times the
    condition is evaluated. *)
Fixpoint while_ {St : Type} (fuel : nat) (cond : St -> SceneManager -> bool)
         (body : St -> M St) (st : St) : M St :=
  match fuel with
  | O => fun _ _ => OutOfFuel
  | Datatypes.S fuel' =>
      this <- get_this ;;
      if cond st this then st' <- body st ;; while_ fuel' cond body st'
      else ret st
  end.

(** [for (int i = lo; i < hi; i++) body], for a body that assigns neither
    [i] nor the bound. *)
Fixpoint for_from (count : nat) (i : Z) (body : Z -> M unit) : M unit :=
  match count with
  | O => ret tt
  | Datatypes.S count' => body i ;; for_from count' (i + 1) body
  end.

Definition for_ (lo hi : Z) (body : Z -> M unit) : M unit :=
  for_from (Z.to_nat (hi - lo)) lo body.

(** [m_pShaderManager->f(...)]: a member call through the pointer. *)
Definition shader (c : ShaderCall) : M unit :=
  this <- get_this ;;
  match m_pShaderManager this with
  | NULL => undefined NullPointerDereference
  | object => call (Shader c)
  end.

(** [m_basicMeshes->f()] *)
Definition meshes (c : MeshCall) : M unit :=
  this <- get_this ;;
  match m_basicMeshes this with
  | NULL => undefined NullPointerDereference
  | object => call (Mesh c)
  end.

(** Replace element [n] of a list (no change beyond its end). *)
Fixpoint list_set {A} (n : nat) (a : A) (l : list A) : list A :=
  match l, n with
  | [], _ => []
  | _ :: l', O => a :: l'
  | b :: l', Datatypes.S n' => b :: list_set n' a l'
  end.

Definition in_array (i : Z) : bool := (0 <=? i) && (i <? TEXTURE_SLOTS).

Definition blank_TEXTURE_INFO : TEXTURE_INFO := {| tag := ""; ID := 0 |}.

(** [m_textureIDs[i]] read: outside the array the behaviour is undefined. *)
Definition texture_at (i : Z) : M TEXTURE_INFO :=
  this <- get_this ;;
  if in_array i
  then ret (nth (Z.to_nat i) (m_textureIDs this) blank_TEXTURE_INFO)
  else undefined ArrayIndexOutOfBounds.

Definition with_textureIDs (this : SceneManager) (a : list TEXTURE_INFO)
  : SceneManager :=
  Build_SceneManager (m_pShaderManager this) (m_basicMeshes this) a
                     (m_loadedTextures this) (m_objectMaterials this).

(** [m_textureIDs[i] = e] *)
Definition set_texture_at (i : Z) (e : TEXTURE_INFO) : M unit :=
  this <- get_this ;;
  if in_array i
  then set_this (with_textureIDs this (list_set (Z.to_nat i) e (m_textureIDs this)))
  else undefined ArrayIndexOutOfBounds.

(** [m_textureIDs[i].ID = id] and [m_textureIDs[i].tag = t] *)
Definition set_texture_ID (i : Z) (id : Z) : M unit :=
  e <- texture_at i ;; set_texture_at i {| tag := tag e; ID := id |}.

Definition set_texture_tag (i : Z) (t : string) : M unit :=
  e <- texture_at i ;; set_texture_at i {| tag := t; ID := ID e |}.

Definition set_loadedTextures (n : Z) : M unit :=
  this <- get_this ;;
  set_this (Build_SceneManager (m_pShaderManager this) (m_basicMeshes this)
              (m_textureIDs this) n (m_objectMaterials this)).

(** [m_objectMaterials[i]] *)
Definition material_at (i : Z) : M OBJECT_MATERIAL :=
  this <- get_this ;;
  match (if 0 <=? i then nth_error (m_objectMaterials this) (Z.to_nat i)
         else None) with
  | Some m => ret m
  | None => undefined ArrayIndexOutOfBounds
  end.

(** [m_objectMaterials.push_back(m)] *)
Definition push_back_material (m : OBJECT_MATERIAL) : M unit :=
  this <- get_this ;;
  set_this (Build_SceneManager (m_pShaderManager this) (m_basicMeshes this)
              (m_textureIDs this) (m_loadedTextures this)
              (m_objectMaterials this ++ [m])).
End Control.

(* ------------------------------------------------------------------------- *)
(** ** The member functions *)

(** The globals of the anonymous namespace. *)
Definition g_ModelName : string := "model".
Definition g_ColorValueName : string := "objectColor".
Definition g_TextureValueName : string := "objectTexture".
Definition g_UseTextureName : string := "bUseTexture".
Definition g_UseLightingName : string := "bUseLighting".

(** A [bool] passed where an [int] is expected. *)
Definition int_of_bool (b : bool) : Z := if b then 1 else 0.

Section Members.
Context {S : Scalar} {G : Glm} {E : Environment}.

(** [stbi_load(filename, &width, &height, &colorChannels, 0)] *)
Definition stbi_load_ (filename : string) : M (option Image) :=
  call (Stbi (stbi_load_file filename)) ;; ret (stbi_load filename).

(** [glGenTextures(1, &name)]: the driver picks the name, a [GLuint]. *)
Definition glGenTextures_1 : M Z :=
  log <- get_log ;;
  let name := to_uint32 (next_texture_name log) in
  call (GL (glGenTextures 1 name)) ;; ret name.

(** The object before the constructor body runs: the string and vector
    members are default-constructed, the others are assigned by the body
    before anything reads them. *)
Definition raw_SceneManager : SceneManager :=
  Build_SceneManager NULL NULL
    (repeat blank_TEXTURE_INFO (Z.to_nat TEXTURE_SLOTS)) 0 [].

(** SceneManager::SceneManager(ShaderManager *pShaderManager) *)
Definition SceneManager_ctor (pShaderManager : pointer) : M unit :=
  this <- get_this ;;
  set_this (Build_SceneManager pShaderManager (m_basicMeshes this)
              (m_textureIDs this) (m_loadedTextures this)
              (m_objectMaterials this)) ;;
  call (Mesh new_ShapeMeshes) ;;
  this <- get_this ;;
  set_this (Build_SceneManager (m_pShaderManager this) object
              (m_textureIDs this) (m_loadedTextures this)
              (m_objectMaterials this)) ;;
  for_ 0 16 (fun i =>
    set_texture_tag i "/0" ;;
    set_texture_ID i (to_uint32 (-1))) ;;
  set_loadedTextures 0.

(** bool SceneManager::CreateGLTexture(const char* filename, std::string tag) *)
Definition CreateGLTexture (filename : string) (tag : string) : M bool :=
  call (Stbi (stbi_set_flip_vertically_on_load true)) ;;
  image <- stbi_load_ filename ;;
  match image with
  | Some image =>
      let width := width image in
      let height := height image in
      let colorChannels := colorChannels image in
      call (Cout (cout_loaded filename width height colorChannels)) ;;
      textureID <- glGenTextures_1 ;;
      call (GL (glBindTexture GL_TEXTURE_2D textureID)) ;;
      call (GL (glTexParameteri GL_TEXTURE_2D GL_TEXTURE_WRAP_S GL_REPEAT)) ;;
      call (GL (glTexParameteri GL_TEXTURE_2D GL_TEXTURE_WRAP_T GL_REPEAT)) ;;
      call (GL (glTexParameteri GL_TEXTURE_2D GL_TEXTURE_MIN_FILTER GL_LINEAR)) ;;
      call (GL (glTexParameteri GL_TEXTURE_2D GL_TEXTURE_MAG_FILTER GL_LINEAR)) ;;
      (* the statements after the if / else if / else *)
      let register :=
        call (GL (glGenerateMipmap GL_TEXTURE_2D)) ;;
        call (Stbi (stbi_image_free image)) ;;
        call (GL (glBindTexture GL_TEXTURE_2D 0)) ;;
        this <- get_this ;;
        set_texture_ID (m_loadedTextures this) textureID ;;
        this <- get_this ;;
        set_texture_tag (m_loadedTextures this) tag ;;
        this <- get_this ;;
        set_loadedTextures (m_loadedTextures this + 1) ;;
        ret true in
      if colorChannels =? 3 then
        call (GL (glTexImage2D GL_TEXTURE_2D 0 GL_RGB8 width height 0
                               GL_RGB GL_UNSIGNED_BYTE image)) ;;
        register
      else if colorChannels =? 4 then
        call (GL (glTexImage2D GL_TEXTURE_2D 0 GL_RGBA8 width height 0
                               GL_RGBA GL_UNSIGNED_BYTE image)) ;;
        register
      else
        call (Cout (cout_not_implemented colorChannels)) ;;
        ret false
  | None =>
      call (Cout (cout_could_not_load filename)) ;;
      ret false
  end.

(** void SceneManager::BindGLTextures() *)
Definition BindGLTextures : M unit :=
  this <- get_this ;;
  for_ 0 (m_loadedTextures this) (fun i =>
    call (GL (glActiveTexture (GL_TEXTURE0 + i))) ;;
    e <- texture_at i ;;
    call (GL (glBindTexture GL_TEXTURE_2D (ID e)))).

(** void SceneManager::DestroyGLTextures() *)
Definition DestroyGLTextures : M unit :=
  this <- get_this ;;
  for_ 0 (m_loadedTextures this) (fun i =>
    name <- glGenTextures_1 ;;
    set_texture_ID i name).

(** SceneManager::~SceneManager() *)
Definition SceneManager_dtor : M unit :=
  this <- get_this ;;
  set_this (Build_SceneManager NULL (m_basicMeshes this)
              (m_textureIDs this) (m_loadedTextures this)
              (m_objectMaterials this)) ;;
  call (Mesh delete_ShapeMeshes) ;;
  this <- get_this ;;
  set_this (Build_SceneManager (m_pShaderManager this) NULL
              (m_textureIDs this) (m_loadedTextures this)
              (m_objectMaterials this)) ;;
  DestroyGLTextures.

(** The loop of [FindTextureID] and [FindTextureSlot] evaluates its
    condition at most [m_loadedTextures + 1] times: each turn either
    advances [index] or sets [bFound]. *)
Definition texture_scan_fuel (this : SceneManager) : nat :=
  Datatypes.S (Datatypes.S (Z.to_nat (m_loadedTextures this))).

(** int SceneManager::FindTextureID(std::string tag) *)
Definition FindTextureID (tag_ : string) : M Z :=
  let textureID := -1 in
  let index := 0 in
  let bFound := false in
  this <- get_this ;;
  '(textureID, index, bFound) <-
    while_ (texture_scan_fuel this)
      (fun '(textureID, index, bFound) this =>
         (index <? m_loadedTextures this) && Bool.eqb bFound false)
      (fun '(textureID, index, bFound) =>
         e <- texture_at index ;;
         if (tag e =? tag_)%string
         then ret (to_int (ID e), index, true)
         else ret (textureID, index + 1, bFound))
      (textureID, index, bFound) ;;
  ret textureID.

(** int SceneManager::FindTextureSlot(std::string tag) *)
Definition FindTextureSlot (tag_ : string) : M Z :=
  let textureSlot := -1 in
  let index := 0 in
  let bFound := false in
  this <- get_this ;;
  '(textureSlot, index, bFound) <-
    while_ (texture_scan_fuel this)
      (fun '(textureSlot, index, bFound) this =>
         (index <? m_loadedTextures this) && Bool.eqb bFound false)
      (fun '(textureSlot, index, bFound) =>
         e <- texture_at index ;;
         if (tag e =? tag_)%string
         then ret (index, index, true)
         else ret (textureSlot, index + 1, bFound))
      (textureSlot, index, bFound) ;;
  ret textureSlot.

(** [m_objectMaterials.size()] *)
Definition materials_size (this : SceneManager) : Z :=
  Z.of_nat (List.length (m_objectMaterials this)).

(** bool SceneManager::FindMaterial(std::string tag, OBJECT_MATERIAL& material);
    the reference parameter is returned next to the result. *)
Definition FindMaterial (tag_ : string) (material : OBJECT_MATERIAL)
  : M (bool * OBJECT_MATERIAL) :=
  this <- get_this ;;
  if materials_size this =? 0 then ret (false, material)
  else
    let index := 0 in
    let bFound := false in
    '(index, bFound, material) <-
      while_ (Datatypes.S (Datatypes.S (List.length (m_objectMaterials this))))
        (fun '(index, bFound, material) this =>
           (index <? materials_size this) && Bool.eqb bFound false)
        (fun '(index, bFound, material) =>
           m <- material_at index ;;
           if (material_tag m =? tag_)%string
           then ret (index, true,
                     Build_OBJECT_MATERIAL (diffuseColor m) (specularColor m)
                                           (shininess m) (material_tag material))
           else ret (index + 1, bFound, material))
        (index, bFound, material) ;;
    ret (true, material).

(** void SceneManager::SetTransformations(glm::vec3 scaleXYZ,
      float XrotationDegrees, float YrotationDegrees,
      float ZrotationDegrees, glm::vec3 positionXYZ) *)
Definition SetTransformations (scaleXYZ : vec3)
           (XrotationDegrees YrotationDegrees ZrotationDegrees : float)
           (positionXYZ : vec3) : M unit :=
  let scale := glm_scale scaleXYZ in
  let rotationX :=
    glm_rotate (glm_radians XrotationDegrees)
               (glm_vec3 (flt 1.0) (flt 0.0) (flt 0.0)) in
  let rotationY :=
    glm_rotate (glm_radians YrotationDegrees)
               (glm_vec3 (flt 0.0) (flt 1.0) (flt 0.0)) in
  let rotationZ :=
    glm_rotate (glm_radians ZrotationDegrees)
               (glm_vec3 (flt 0.0) (flt 0.0) (flt 1.0)) in
  let translation := glm_translate positionXYZ in
  let modelView :=
    (translation * rotationZ * rotationY * rotationX * scale)%mat4 in
  this <- get_this ;;
  match m_pShaderManager this with
  | object => shader (setMat4Value g_ModelName modelView)
  | NULL => ret tt
  end.

(** void SceneManager::SetShaderColor(float redColorValue,
      float greenColorValue, float blueColorValue, float alphaValue) *)
Definition SetShaderColor
           (redColorValue greenColorValue blueColorValue alphaValue : float)
  : M unit :=
  let currentColor :=
    glm_vec4 redColorValue greenColorValue blueColorValue alphaValue in
  this <- get_this ;;
  match m_pShaderManager this with
  | object =>
      shader (setIntValue g_UseTextureName (int_of_bool false)) ;;
      shader (setVec4Value g_ColorValueName currentColor)
  | NULL => ret tt
  end.

(** void SceneManager::SetShaderTexture(std::string textureTag) *)
Definition SetShaderTexture (textureTag : string) : M unit :=
  this <- get_this ;;
  match m_pShaderManager this with
  | object =>
      shader (setIntValue g_UseTextureName (int_of_bool true)) ;;
      let textureID := -1 in
      textureID <- FindTextureSlot textureTag ;;
      shader (setSampler2DValue g_TextureValueName textureID)
  | NULL => ret tt
  end.

(** void SceneManager::SetTextureUVScale(float u, float v) *)
Definition SetTextureUVScale (u v : float) : M unit :=
  this <- get_this ;;
  match m_pShaderManager this with
  | object => shader (setVec2Value "UVscale" (glm_vec2 u v))
  | NULL => ret tt
  end.

(** void SceneManager::SetShaderMaterial(std::string materialTag) *)
Definition SetShaderMaterial (materialTag : string) : M unit :=
  this <- get_this ;;
  if materials_size this >? 0 then
    log <- get_log ;;
    let material := uninitialized_material log in
    let bReturn := false in
    '(bReturn, material) <- FindMaterial materialTag material ;;
    if Bool.eqb bReturn true then
      shader (setVec3Value "material.diffuseColor" (diffuseColor material)) ;;
      shader (setVec3Value "material.specularColor" (specularColor material)) ;;
      shader (setFloatValue "material.shininess" (shininess material))
    else ret tt
  else ret tt.
End Members.

(* ------------------------------------------------------------------------- *)
(** ** Scene preparation and the scene script *)

Section Scene.
Context {S : Scalar} {G : Glm} {E : Environment}.

(** void SceneManager::LoadSceneTextures() *)
Definition LoadSceneTextures : M unit :=
  let bReturn := false in
  bReturn <- CreateGLTexture "textures/cork.jpg" "bottle-cork" ;;
  bReturn <- CreateGLTexture "textures/draught-living-death.jpg" "draught-potion" ;;
  bReturn <- CreateGLTexture "textures/twine-black.png" "black-twine" ;;
  bReturn <- CreateGLTexture "textures/wood-seamless.jpg" "table" ;;
  bReturn <- CreateGLTexture "textures/twine-brown.png" "brown-twine" ;;
  bReturn <- CreateGLTexture "textures/wall.jpg" "background" ;;
  bReturn <- CreateGLTexture "textures/amortentia.jpg" "love-potion" ;;
  bReturn <- CreateGLTexture "textures/felix.jpg" "lucky-potion" ;;
  bReturn <- CreateGLTexture "textures/thunderbrew.jpg" "stun-potion" ;;
  BindGLTextures.

(** void SceneManager::DefineObjectMaterials() *)
Definition DefineObjectMaterials : M unit :=
  let woodMaterial :=
    Build_OBJECT_MATERIAL (glm_vec3 (flt 0.2) (flt 0.2) (flt 0.3))
                          (glm_vec3 (flt 0.0) (flt 0.0) (flt 0.0))
                          (dbl 0.1) "wood" in
  push_back_material woodMaterial ;;
  let glassMaterial :=
    Build_OBJECT_MATERIAL (glm_vec3 (flt 0.478) (flt 0.478) (flt 0.478))
                          (glm_vec3 (flt 1.0) (flt 1.0) (flt 1.0))
                          (dbl 98.0) "glass" in
  push_back_material glassMaterial ;;
  let wallMaterial :=
    Build_OBJECT_MATERIAL (glm_vec3 (flt 0.8) (flt 0.8) (flt 0.9))
                          (glm_vec3 (flt 0.0) (flt 0.0) (flt 0.0))
                          (dbl 2.0) "wall" in
  push_back_material wallMaterial ;;
  let twineMaterial :=
    Build_OBJECT_MATERIAL (glm_vec3 (flt 0.1) (flt 0.1) (flt 0.1))
                          (glm_vec3 (flt 0.1) (flt 0.1) (flt 0.1))
                          (dbl 0.2) "twine" in
  push_back_material twineMaterial ;;
  let liquidMaterial :=
    Build_OBJECT_MATERIAL (glm_vec3 (flt 0.329) (flt 0.212) (flt 0.4))
                          (glm_vec3 (flt 0.1) (flt 0.05) (flt 0.1))
                          (dbl 0.50) "liquid" in
  push_back_material liquidMaterial ;;
  let GlowingFMaterial :=
    Build_OBJECT_MATERIAL (glm_vec3 (flt 0.929) (flt 0.961) (flt 0.424))
                          (glm_vec3 (flt 0.1) (flt 0.1) (flt 0.1))
                          (dbl 0.70) "felixGlow" in
  push_back_material GlowingFMaterial ;;
  let GlowingLMaterial :=
    Build_OBJECT_MATERIAL (glm_vec3 (flt 0.922) (flt 0.435) (flt 0.773))
                          (glm_vec3 (flt 0.1) (flt 0.1) (flt 0.1))
                          (dbl 0.70) "loveGlow" in
  push_back_material GlowingLMaterial.

(** void SceneManager::SetupSceneLights() *)
Definition SetupSceneLights : M unit :=
  shader (setBoolValue g_UseLightingName true) ;;
  shader (setVec3Value_xyz "directionalLight.direction" (flt (-0.05)) (flt (-0.3)) (flt (-0.1))) ;;
  shader (setVec3Value_xyz "directionalLight.ambient" (flt 0.05) (flt 0.05) (flt 0.05)) ;;
  shader (setVec3Value_xyz "directionalLight.diffuse" (flt 0.6) (flt 0.6) (flt 0.6)) ;;
  shader (setVec3Value_xyz "directionalLight.specular" (flt 0.0) (flt 0.0) (flt 0.0)) ;;
  shader (setBoolValue "directionalLight.bActive" true) ;;
  shader (setVec3Value_xyz "pointLights[0].position" (flt (-4.0)) (flt 8.0) (flt 0.0)) ;;
  shader (setVec3Value_xyz "pointLights[0].ambient" (flt 0.05) (flt 0.05) (flt 0.05)) ;;
  shader (setVec3Value_xyz "pointLights[0].diffuse" (flt 0.3) (flt 0.3) (flt 0.3)) ;;
  shader (setVec3Value_xyz "pointLights[0].specular" (flt 0.1) (flt 0.1) (flt 0.1)) ;;
  shader (setBoolValue "pointLights[0].bActive" true) ;;
  shader (setVec3Value_xyz "pointLights[1].position" (flt 4.0) (flt 8.0) (flt 0.0)) ;;
  shader (setVec3Value_xyz "pointLights[1].ambient" (flt 0.05) (flt 0.05) (flt 0.05)) ;;
  shader (setVec3Value_xyz "pointLights[1].diffuse" (flt 0.3) (flt 0.3) (flt 0.3)) ;;
  shader (setVec3Value_xyz "pointLights[1].specular" (flt 0.1) (flt 0.1) (flt 0.1)) ;;
  shader (setBoolValue "pointLights[1].bActive" true) ;;
  shader (setVec3Value_xyz "pointLights[2].position" (flt 3.8) (flt 5.5) (flt 4.0)) ;;
  shader (setVec3Value_xyz "pointLights[2].ambient" (flt 0.05) (flt 0.05) (flt 0.05)) ;;
  shader (setVec3Value_xyz "pointLights[2].diffuse" (flt 0.2) (flt 0.2) (flt 0.2)) ;;
  shader (setVec3Value_xyz "pointLights[2].specular" (flt 0.8) (flt 0.8) (flt 0.8)) ;;
  shader (setBoolValue "pointLights[2].bActive" true) ;;
  shader (setVec3Value_xyz "pointLights[3].position" (flt 5.0) (flt 6.5) (flt 6.0)) ;;
  shader (setVec3Value_xyz "pointLights[3].ambient" (flt 0.05) (flt 0.05) (flt 0.05)) ;;
  shader (setVec3Value_xyz "pointLights[3].diffuse" (flt 0.2) (flt 0.2) (flt 0.2)) ;;
  shader (setVec3Value_xyz "pointLights[3].specular" (flt 0.8) (flt 0.8) (flt 0.8)) ;;
  shader (setBoolValue "pointLights[3].bActive" true).

(** void SceneManager::PrepareScene() *)
Definition PrepareScene : M unit :=
  LoadSceneTextures ;;
  DefineObjectMaterials ;;
  SetupSceneLights ;;
  meshes LoadPlaneMesh ;;
  meshes LoadCylinderMesh ;;
  meshes LoadTaperedCylinderMesh ;;
  meshes LoadTorusMesh ;;
  meshes LoadSphereMesh ;;
  meshes LoadBoxMesh.

(** void SceneManager::RenderBackground() *)
Definition RenderBackground : M unit :=
  let XrotationDegrees := flt 0.0 in
  let YrotationDegrees := flt 0.0 in
  let ZrotationDegrees := flt 0.0 in
  let scaleXYZ := glm_vec3 (flt 20.0) (flt 0.5) (flt (-10.0)) in
  let XrotationDegrees := flt 90.0 in
  let YrotationDegrees := flt 0.0 in
  let ZrotationDegrees := flt 0.0 in
  let positionXYZ := glm_vec3 (flt 0.0) (flt 0.0) (flt (-9.1)) in
  SetTransformations scaleXYZ XrotationDegrees YrotationDegrees ZrotationDegrees positionXYZ ;;
  SetShaderColor (dbl 0.929) (dbl 0.835) (dbl 0.784) (int_to_float 1) ;;
  SetShaderTexture "background" ;;
  SetTextureUVScale (flt 5.0) (flt 5.0) ;;
  SetShaderMaterial "wall" ;;
  meshes DrawPlaneMesh.

(** void SceneManager::RenderTable() *)
Definition RenderTable : M unit :=
  let XrotationDegrees := flt 0.0 in
  let YrotationDegrees := flt 0.0 in
  let ZrotationDegrees := flt 0.0 in
  let scaleXYZ := glm_vec3 (flt 20.0) (flt 0.6) (flt 8.0) in
  let XrotationDegrees := flt 0.0 in
  let YrotationDegrees := flt 0.0 in
  let ZrotationDegrees := flt 0.0 in
  let positionXYZ := glm_vec3 (flt 0.0) (flt (-0.3)) (flt (-5.0)) in
  SetTransformations scaleXYZ XrotationDegrees YrotationDegrees ZrotationDegrees positionXYZ ;;
  SetShaderTexture "table" ;;
  SetTextureUVScale (flt 1.0) (flt 1.0) ;;
  SetShaderMaterial "wood" ;;
  meshes DrawBoxMesh.

(** void SceneManager::RenderDraughtLivingDeath() *)
Definition RenderDraughtLivingDeath : M unit :=
  let XrotationDegrees := flt 0.0 in
  let YrotationDegrees := flt 0.0 in
  let ZrotationDegrees := flt 0.0 in
  let scaleXYZ := glm_vec3 (flt 0.8) (flt 3.0) (flt 0.7) in
  let XrotationDegrees := flt 0.0 in
  let YrotationDegrees := flt 0.0 in
  let ZrotationDegrees := flt 0.0 in
  let positionXYZ := glm_vec3 (flt 0.0) (flt 0.0) (flt (-7.0)) in
  SetTransformations scaleXYZ XrotationDegrees YrotationDegrees ZrotationDegrees positionXYZ ;;
  SetShaderTexture "draught-potion" ;;
  SetTextureUVScale (flt 1.0) (flt 1.0) ;;
  SetShaderMaterial "liquid" ;;
  meshes DrawCylinderMesh ;;
  let scaleXYZ := glm_vec3 (flt 0.8) (flt 0.5) (flt 0.7) in
  let XrotationDegrees := flt 0.0 in
  let YrotationDegrees := flt 0.0 in
  let ZrotationDegrees := flt 0.0 in
  let positionXYZ := glm_vec3 (flt 0.0) (flt 3.0) (flt (-7.0)) in
  SetTransformations scaleXYZ XrotationDegrees YrotationDegrees ZrotationDegrees positionXYZ ;;
  SetShaderColor (dbl 0.827) (dbl 0.824) (dbl 0.902) (dbl 0.8) ;;
  SetShaderMaterial "glass" ;;
  meshes DrawTaperedCylinderMesh ;;
  let scaleXYZ := glm_vec3 (flt 0.4) (flt 1.2) (flt 0.4) in
  let XrotationDegrees := flt 0.0 in
  let YrotationDegrees := flt 0.0 in
  let ZrotationDegrees := flt 0.0 in
  let positionXYZ := glm_vec3 (flt 0.0) (flt 3.0) (flt (-7.0)) in
  SetTransformations scaleXYZ XrotationDegrees YrotationDegrees ZrotationDegrees positionXYZ ;;
  SetShaderColor (dbl 0.827) (dbl 0.824) (dbl 0.902) (dbl 0.8) ;;
  SetShaderMaterial "glass" ;;
  meshes DrawCylinderMesh ;;
  let scaleXYZ := glm_vec3 (flt 0.4) (flt 0.5) (flt 0.5) in
  let XrotationDegrees := flt 90.0 in
  let YrotationDegrees := flt 0.0 in
  let ZrotationDegrees := flt 0.0 in
  let positionXYZ := glm_vec3 (flt 0.0) (flt 4.2) (flt (-7.0)) in
  SetTransformations scaleXYZ XrotationDegrees YrotationDegrees ZrotationDegrees positionXYZ ;;
  SetShaderColor (dbl 0.827) (dbl 0.824) (dbl 0.902) (dbl 0.8) ;;
  SetShaderMaterial "glass" ;;
  meshes DrawTorusMesh ;;
  let scaleXYZ := glm_vec3 (flt 0.4) (flt 0.5) (flt 0.2) in
  let XrotationDegrees := flt 90.0 in
  let YrotationDegrees := flt 0.0 in
  let ZrotationDegrees := flt 0.0 in
  let positionXYZ := glm_vec3 (flt 0.0) (flt 4.0) (flt (-7.0)) in
  SetTransformations scaleXYZ XrotationDegrees YrotationDegrees ZrotationDegrees positionXYZ ;;
  SetShaderTexture "black-twine" ;;
  SetTextureUVScale (flt 1.0) (flt 1.0) ;;
  SetShaderMaterial "twine" ;;
  meshes DrawTorusMesh ;;
  let scaleXYZ := glm_vec3 (flt 0.4) (flt 0.5) (flt 0.2) in
  let XrotationDegrees := flt (-92.0) in
  let YrotationDegrees := flt 0.0 in
  let ZrotationDegrees := flt 0.0 in
  let positionXYZ := glm_vec3 (flt 0.0) (flt 3.9) (flt (-7.0)) in
  SetTransformations scaleXYZ XrotationDegrees YrotationDegrees ZrotationDegrees positionXYZ ;;
  SetShaderTexture "black-twine" ;;
  SetTextureUVScale (flt 1.0) (flt 1.0) ;;
  SetShaderMaterial "twine" ;;
  meshes DrawTorusMesh ;;
  let scaleXYZ := glm_vec3 (flt 0.4) (flt 0.5) (flt 0.2) in
  let XrotationDegrees := flt 89.0 in
  let YrotationDegrees := flt 0.0 in
  let ZrotationDegrees := flt 0.0 in
  let positionXYZ := glm_vec3 (flt 0.0) (flt 3.8) (flt (-7.0)) in
  SetTransformations scaleXYZ XrotationDegrees YrotationDegrees ZrotationDegrees positionXYZ ;;
  SetShaderTexture "black-twine" ;;
  SetTextureUVScale (flt 1.0) (flt 1.0) ;;
  SetShaderMaterial "twine" ;;
  meshes DrawTorusMesh ;;
  let scaleXYZ := glm_vec3 (flt 0.4) (flt 0.5) (flt 0.2) in
  let XrotationDegrees := flt (-95.0) in
  let YrotationDegrees := flt 0.0 in
  let ZrotationDegrees := flt 0.0 in
  let positionXYZ := glm_vec3 (flt 0.0) (flt 3.7) (flt (-7.0)) in
  SetTransformations scaleXYZ XrotationDegrees YrotationDegrees ZrotationDegrees positionXYZ ;;
  SetShaderTexture "black-twine" ;;
  SetTextureUVScale (flt 1.0) (flt 1.0) ;;
  SetShaderMaterial "twine" ;;
  meshes DrawTorusMesh ;;
  let scaleXYZ := glm_vec3 (flt 0.4) (flt 0.5) (flt 0.2) in
  let XrotationDegrees := flt 90.0 in
  let YrotationDegrees := flt 0.0 in
  let ZrotationDegrees := flt 0.0 in
  let positionXYZ := glm_vec3 (flt 0.0) (flt 3.6) (flt (-7.0)) in
  SetTransformations scaleXYZ XrotationDegrees YrotationDegrees ZrotationDegrees positionXYZ ;;
  SetShaderTexture "black-twine" ;;
  SetTextureUVScale (flt 1.0) (flt 1.0) ;;
  SetShaderMaterial "twine" ;;
  meshes DrawTorusMesh ;;
  let scaleXYZ := glm_vec3 (flt 0.3) (flt 0.4) (flt 0.4) in
  let XrotationDegrees := flt 0.0 in
  let YrotationDegrees := flt 0.0 in
  let ZrotationDegrees := flt 0.0 in
  let positionXYZ := glm_vec3 (flt 0.0) (flt 4.0) (flt (-7.0)) in
  SetTransformations scaleXYZ XrotationDegrees YrotationDegrees ZrotationDegrees positionXYZ ;;
  SetShaderTexture "bottle-cork" ;;
  SetTextureUVScale (flt 1.0) (flt 1.0) ;;
  SetShaderMaterial "twine" ;;
  meshes DrawCylinderMesh.

(** void SceneManager::RenderAmortentia() *)
Definition RenderAmortentia : M unit :=
  let XrotationDegrees := flt 0.0 in
  let YrotationDegrees := flt 0.0 in
  let ZrotationDegrees := flt 0.0 in
  let scaleXYZ := glm_vec3 (flt 0.8) (flt 1.8) (flt 1.0) in
  let XrotationDegrees := flt 0.0 in
  let YrotationDegrees := flt (-5.0) in
  let ZrotationDegrees := flt 0.0 in
  let positionXYZ := glm_vec3 (flt 1.6) (flt 0.0) (flt (-6.5)) in
  SetTransformations scaleXYZ XrotationDegrees YrotationDegrees ZrotationDegrees positionXYZ ;;
  SetShaderTexture "love-potion" ;;
  SetTextureUVScale (flt 1.0) (flt 1.0) ;;
  SetShaderMaterial "loveGlow" ;;
  meshes DrawCylinderMesh ;;
  let scaleXYZ := glm_vec3 (flt 0.8) (flt 0.5) (flt 1.0) in
  let XrotationDegrees := flt 0.0 in
  let YrotationDegrees := flt 0.0 in
  let ZrotationDegrees := flt 0.0 in
  let positionXYZ := glm_vec3 (flt 1.6) (flt 1.8) (flt (-6.5)) in
  SetTransformations scaleXYZ XrotationDegrees YrotationDegrees ZrotationDegrees positionXYZ ;;
  SetShaderColor (dbl 0.827) (dbl 0.824) (dbl 0.902) (dbl 0.8) ;;
  SetShaderMaterial "glass" ;;
  meshes DrawTaperedCylinderMesh ;;
  let scaleXYZ := glm_vec3 (flt 0.4) (flt 0.8) (flt 0.5) in
  let XrotationDegrees := flt 0.0 in
  let YrotationDegrees := flt 0.0 in
  let ZrotationDegrees := flt 0.0 in
  let positionXYZ := glm_vec3 (flt 1.6) (flt 2.0) (flt (-6.5)) in
  SetTransformations scaleXYZ XrotationDegrees YrotationDegrees ZrotationDegrees positionXYZ ;;
  SetShaderColor (dbl 0.827) (dbl 0.824) (dbl 0.902) (dbl 0.8) ;;
  SetShaderMaterial "glass" ;;
  meshes DrawCylinderMesh ;;
  let scaleXYZ := glm_vec3 (flt 0.4) (flt 0.5) (flt 0.5) in
  let XrotationDegrees := flt 90.0 in
  let YrotationDegrees := flt 0.0 in
  let ZrotationDegrees := flt 0.0 in
  let positionXYZ := glm_vec3 (flt 1.6) (flt 2.8) (flt (-6.5)) in
  SetTransformations scaleXYZ XrotationDegrees YrotationDegrees ZrotationDegrees positionXYZ ;;
  SetShaderColor (dbl 0.827) (dbl 0.824) (dbl 0.902) (dbl 0.8) ;;
  SetShaderMaterial "glass" ;;
  meshes DrawTorusMesh ;;
  let scaleXYZ := glm_vec3 (flt 0.3) (flt 0.2) (flt 0.4) in
  let XrotationDegrees := flt 0.0 in
  let YrotationDegrees := flt 0.0 in
  let ZrotationDegrees := flt 0.0 in
  let positionXYZ := glm_vec3 (flt 1.6) (flt 2.8) (flt (-6.5)) in
  SetTransformations scaleXYZ XrotationDegrees YrotationDegrees ZrotationDegrees positionXYZ ;;
  SetShaderTexture "bottle-cork" ;;
  SetShaderMaterial "twine" ;;
  meshes DrawCylinderMesh ;;
  let scaleXYZ := glm_vec3 (flt 0.4) (flt 0.5) (flt 0.3) in
  let XrotationDegrees := flt 90.0 in
  let YrotationDegrees := flt 0.0 in
  let ZrotationDegrees := flt 0.0 in
  let positionXYZ := glm_vec3 (flt 1.6) (flt 2.4) (flt (-6.5)) in
  SetTransformations scaleXYZ XrotationDegrees YrotationDegrees ZrotationDegrees positionXYZ ;;
  SetShaderTexture "brown-twine" ;;
  SetTextureUVScale (flt 1.0) (flt 1.0) ;;
  SetShaderMaterial "twine" ;;
  meshes DrawTorusMesh ;;
  let scaleXYZ := glm_vec3 (flt 0.4) (flt 0.5) (flt 0.3) in
  let XrotationDegrees := flt 93.0 in
  let YrotationDegrees := flt 0.0 in
  let ZrotationDegrees := flt 0.0 in
  let positionXYZ := glm_vec3 (flt 1.6) (flt 2.3) (flt (-6.5)) in
  SetTransformations scaleXYZ XrotationDegrees YrotationDegrees ZrotationDegrees positionXYZ ;;
  SetShaderTexture "brown-twine" ;;
  SetTextureUVScale (flt 1.0) (flt 1.0) ;;
  SetShaderMaterial "twine" ;;
  meshes DrawTorusMesh ;;
  let scaleXYZ := glm_vec3 (flt 0.4) (flt 0.5) (flt 0.3) in
  let XrotationDegrees := flt (-94.0) in
  let YrotationDegrees := flt 0.0 in
  let ZrotationDegrees := flt 0.0 in
  let positionXYZ := glm_vec3 (flt 1.6) (flt 2.5) (flt (-6.5)) in
  SetTransformations scaleXYZ XrotationDegrees YrotationDegrees ZrotationDegrees positionXYZ ;;
  SetShaderTexture "brown-twine" ;;
  SetTextureUVScale (flt 1.0) (flt 1.0) ;;
  SetShaderMaterial "twine" ;;
  meshes DrawTorusMesh ;;
  let scaleXYZ := glm_vec3 (flt 0.4) (flt 0.5) (flt 0.3) in
  let XrotationDegrees := flt (-91.0) in
  let YrotationDegrees := flt 0.0 in
  let ZrotationDegrees := flt 0.0 in
  let positionXYZ := glm_vec3 (flt 1.6) (flt 2.6) (flt (-6.5)) in
  SetTransformations scaleXYZ XrotationDegrees YrotationDegrees ZrotationDegrees positionXYZ ;;
  SetShaderTexture "brown-twine" ;;
  SetTextureUVScale (flt 1.0) (flt 1.0) ;;
  SetShaderMaterial "twine" ;;
  meshes DrawTorusMesh.

(** void SceneManager::RenderThunderbrew() *)
Definition RenderThunderbrew : M unit :=
  let XrotationDegrees := flt 0.0 in
  let YrotationDegrees := flt 0.0 in
  let ZrotationDegrees := flt 0.0 in
  let scaleXYZ := glm_vec3 (flt 0.8) (flt 2.5) (flt 0.7) in
  let XrotationDegrees := flt 0.0 in
  let YrotationDegrees := flt 0.0 in
  let ZrotationDegrees := flt 0.0 in
  let positionXYZ := glm_vec3 (flt 3.2) (flt 0.0) (flt (-6.0)) in
  SetTransformations scaleXYZ XrotationDegrees YrotationDegrees ZrotationDegrees positionXYZ ;;
  SetShaderTexture "stun-potion" ;;
  SetTextureUVScale (flt 1.0) (flt 1.0) ;;
  SetShaderMaterial "liquid" ;;
  meshes DrawCylinderMesh ;;
  let scaleXYZ := glm_vec3 (flt 0.8) (flt 0.5) (flt 0.7) in
  let XrotationDegrees := flt 0.0 in
  let YrotationDegrees := flt 0.0 in
  let ZrotationDegrees := flt 0.0 in
  let positionXYZ := glm_vec3 (flt 3.2) (flt 2.5) (flt (-6.0)) in
  SetTransformations scaleXYZ XrotationDegrees YrotationDegrees ZrotationDegrees positionXYZ ;;
  SetShaderColor (dbl 0.827) (dbl 0.824) (dbl 0.902) (dbl 0.8) ;;
  SetShaderMaterial "glass" ;;
  meshes DrawTaperedCylinderMesh ;;
  let scaleXYZ := glm_vec3 (flt 0.4) (flt 1.0) (flt 0.4) in
  let XrotationDegrees := flt 0.0 in
  let YrotationDegrees := flt 0.0 in
  let ZrotationDegrees := flt 0.0 in
  let positionXYZ := glm_vec3 (flt 3.2) (flt 2.5) (flt (-6.0)) in
  SetTransformations scaleXYZ XrotationDegrees YrotationDegrees ZrotationDegrees positionXYZ ;;
  SetShaderColor (dbl 0.827) (dbl 0.824) (dbl 0.902) (dbl 0.8) ;;
  SetShaderMaterial "glass" ;;
  meshes DrawCylinderMesh ;;
  let scaleXYZ := glm_vec3 (flt 0.4) (flt 0.5) (flt 0.5) in
  let XrotationDegrees := flt 90.0 in
  let YrotationDegrees := flt 0.0 in
  let ZrotationDegrees := flt 0.0 in
  let positionXYZ := glm_vec3 (flt 3.2) (flt 3.5) (flt (-6.0)) in
  SetTransformations scaleXYZ XrotationDegrees YrotationDegrees ZrotationDegrees positionXYZ ;;
  SetShaderColor (dbl 0.827) (dbl 0.824) (dbl 0.902) (dbl 0.8) ;;
  SetShaderMaterial "glass" ;;
  meshes DrawTorusMesh ;;
  let scaleXYZ := glm_vec3 (flt 0.4) (flt 0.5) (flt 0.2) in
  let XrotationDegrees := flt 90.0 in
  let YrotationDegrees := flt 0.0 in
  let ZrotationDegrees := flt 0.0 in
  let positionXYZ := glm_vec3 (flt 3.2) (flt 3.0) (flt (-6.0)) in
  SetTransformations scaleXYZ XrotationDegrees YrotationDegrees ZrotationDegrees positionXYZ ;;
  SetShaderTexture "brown-twine" ;;
  SetTextureUVScale (flt 1.0) (flt 1.0) ;;
  SetShaderMaterial "twine" ;;
  meshes DrawTorusMesh ;;
  let scaleXYZ := glm_vec3 (flt 0.4) (flt 0.5) (flt 0.2) in
  let XrotationDegrees := flt (-92.0) in
  let YrotationDegrees := flt 0.0 in
  let ZrotationDegrees := flt 0.0 in
  let positionXYZ := glm_vec3 (flt 3.2) (flt 3.3) (flt (-6.0)) in
  SetTransformations scaleXYZ XrotationDegrees YrotationDegrees ZrotationDegrees positionXYZ ;;
  SetShaderTexture "brown-twine" ;;
  SetTextureUVScale (flt 1.0) (flt 1.0) ;;
  SetShaderMaterial "twine" ;;
  meshes DrawTorusMesh ;;
  let scaleXYZ := glm_vec3 (flt 0.4) (flt 0.5) (flt 0.2) in
  let XrotationDegrees := flt 89.0 in
  let YrotationDegrees := flt 0.0 in
  let ZrotationDegrees := flt 0.0 in
  let positionXYZ := glm_vec3 (flt 3.2) (flt 3.1) (flt (-6.0)) in
  SetTransformations scaleXYZ XrotationDegrees YrotationDegrees ZrotationDegrees positionXYZ ;;
  SetShaderTexture "brown-twine" ;;
  SetTextureUVScale (flt 1.0) (flt 1.0) ;;
  SetShaderMaterial "twine" ;;
  meshes DrawTorusMesh ;;
  let scaleXYZ := glm_vec3 (flt 0.4) (flt 0.5) (flt 0.2) in
  let XrotationDegrees := flt (-95.0) in
  let YrotationDegrees := flt 0.0 in
  let ZrotationDegrees := flt 0.0 in
  let positionXYZ := glm_vec3 (flt 3.2) (flt 3.2) (flt (-6.0)) in
  SetTransformations scaleXYZ XrotationDegrees YrotationDegrees ZrotationDegrees positionXYZ ;;
  SetShaderTexture "brown-twine" ;;
  SetTextureUVScale (flt 1.0) (flt 1.0) ;;
  SetShaderMaterial "twine" ;;
  meshes DrawTorusMesh ;;
  let scaleXYZ := glm_vec3 (flt 0.3) (flt 0.4) (flt 0.4) in
  let XrotationDegrees := flt 0.0 in
  let YrotationDegrees := flt 0.0 in
  let ZrotationDegrees := flt 0.0 in
  let positionXYZ := glm_vec3 (flt 3.2) (flt 3.3) (flt (-6.0)) in
  SetTransformations scaleXYZ XrotationDegrees YrotationDegrees ZrotationDegrees positionXYZ ;;
  SetShaderTexture "bottle-cork" ;;
  SetShaderMaterial "twine" ;;
  meshes DrawCylinderMesh.

(** void SceneManager::RenderFelix() *)
Definition RenderFelix : M unit :=
  let XrotationDegrees := flt 0.0 in
  let YrotationDegrees := flt 0.0 in
  let ZrotationDegrees := flt 0.0 in
  let scaleXYZ := glm_vec3 (flt 1.3) (flt 1.4) (flt 1.3) in
  let XrotationDegrees := flt 0.0 in
  let YrotationDegrees := flt 0.0 in
  let ZrotationDegrees := flt 0.0 in
  let positionXYZ := glm_vec3 (flt (-2.7)) (flt 1.0) (flt (-6.0)) in
  SetTransformations scaleXYZ XrotationDegrees YrotationDegrees ZrotationDegrees positionXYZ ;;
  SetShaderTexture "lucky-potion" ;;
  SetTextureUVScale (flt 1.0) (flt 1.0) ;;
  SetShaderMaterial "felixGlow" ;;
  meshes DrawSphereMesh ;;
  let scaleXYZ := glm_vec3 (flt 0.8) (flt 1.3) (flt 0.8) in
  let XrotationDegrees := flt 0.0 in
  let YrotationDegrees := flt 0.0 in
  let ZrotationDegrees := flt 0.0 in
  let positionXYZ := glm_vec3 (flt (-2.7)) (flt 1.5) (flt (-6.0)) in
  SetTransformations scaleXYZ XrotationDegrees YrotationDegrees ZrotationDegrees positionXYZ ;;
  SetShaderTexture "lucky-potion" ;;
  SetTextureUVScale (flt 1.0) (flt 1.0) ;;
  SetShaderMaterial "felixGlow" ;;
  meshes DrawTaperedCylinderMesh ;;
  let scaleXYZ := glm_vec3 (flt 0.4) (flt 1.0) (flt 0.4) in
  let XrotationDegrees := flt 0.0 in
  let YrotationDegrees := flt 0.0 in
  let ZrotationDegrees := flt 0.0 in
  let positionXYZ := glm_vec3 (flt (-2.7)) (flt 2.6) (flt (-6.0)) in
  SetTransformations scaleXYZ XrotationDegrees YrotationDegrees ZrotationDegrees positionXYZ ;;
  SetShaderColor (dbl 0.827) (dbl 0.824) (dbl 0.902) (dbl 0.8) ;;
  SetShaderMaterial "glass" ;;
  meshes DrawCylinderMesh ;;
  let scaleXYZ := glm_vec3 (flt 0.5) (flt 0.4) (flt 0.5) in
  let XrotationDegrees := flt 90.0 in
  let YrotationDegrees := flt 0.0 in
  let ZrotationDegrees := flt 0.0 in
  let positionXYZ := glm_vec3 (flt (-2.7)) (flt 3.6) (flt (-6.0)) in
  SetTransformations scaleXYZ XrotationDegrees YrotationDegrees ZrotationDegrees positionXYZ ;;
  SetShaderColor (dbl 0.827) (dbl 0.824) (dbl 0.902) (dbl 0.8) ;;
  SetShaderMaterial "glass" ;;
  meshes DrawTorusMesh ;;
  let scaleXYZ := glm_vec3 (flt 0.3) (flt 0.4) (flt 0.4) in
  let XrotationDegrees := flt 0.0 in
  let YrotationDegrees := flt 0.0 in
  let ZrotationDegrees := flt 0.0 in
  let positionXYZ := glm_vec3 (flt (-2.7)) (flt 3.5) (flt (-6.0)) in
  SetTransformations scaleXYZ XrotationDegrees YrotationDegrees ZrotationDegrees positionXYZ ;;
  SetShaderTexture "bottle-cork" ;;
  SetShaderMaterial "twine" ;;
  meshes DrawCylinderMesh ;;
  let scaleXYZ := glm_vec3 (flt 0.5) (flt 0.5) (flt 1.0) in
  let XrotationDegrees := flt 0.0 in
  let YrotationDegrees := flt 0.0 in
  let ZrotationDegrees := flt 0.0 in
  let positionXYZ := glm_vec3 (flt (-3.2)) (flt 3.0) (flt (-6.0)) in
  SetTransformations scaleXYZ XrotationDegrees YrotationDegrees ZrotationDegrees positionXYZ ;;
  SetShaderColor (dbl 0.827) (dbl 0.824) (dbl 0.902) (dbl 0.8) ;;
  SetShaderMaterial "glass" ;;
  meshes DrawTorusMesh ;;
  let scaleXYZ := glm_vec3 (flt 0.4) (flt 0.4) (flt 0.2) in
  let XrotationDegrees := flt 90.0 in
  let YrotationDegrees := flt 0.0 in
  let ZrotationDegrees := flt 0.0 in
  let positionXYZ := glm_vec3 (flt (-2.7)) (flt 3.3) (flt (-6.0)) in
  SetTransformations scaleXYZ XrotationDegrees YrotationDegrees ZrotationDegrees positionXYZ ;;
  SetShaderTexture "brown-twine" ;;
  SetTextureUVScale (flt 1.0) (flt 1.0) ;;
  SetShaderMaterial "twine" ;;
  meshes DrawTorusMesh ;;
  let scaleXYZ := glm_vec3 (flt 0.4) (flt 0.4) (flt 0.2) in
  let XrotationDegrees := flt 90.0 in
  let YrotationDegrees := flt 0.0 in
  let ZrotationDegrees := flt 0.0 in
  let positionXYZ := glm_vec3 (flt (-2.7)) (flt 3.4) (flt (-6.0)) in
  SetTransformations scaleXYZ XrotationDegrees YrotationDegrees ZrotationDegrees positionXYZ ;;
  SetShaderTexture "brown-twine" ;;
  SetTextureUVScale (flt 1.0) (flt 1.0) ;;
  SetShaderMaterial "twine" ;;
  meshes DrawTorusMesh ;;
  let scaleXYZ := glm_vec3 (flt 0.4) (flt 0.4) (flt 0.2) in
  let XrotationDegrees := flt 90.0 in
  let YrotationDegrees := flt 0.0 in
  let ZrotationDegrees := flt 0.0 in
  let positionXYZ := glm_vec3 (flt (-2.7)) (flt 3.45) (flt (-6.0)) in
  SetTransformations scaleXYZ XrotationDegrees YrotationDegrees ZrotationDegrees positionXYZ ;;
  SetShaderTexture "brown-twine" ;;
  SetTextureUVScale (flt 1.0) (flt 1.0) ;;
  SetShaderMaterial "twine" ;;
  meshes DrawTorusMesh ;;
  let scaleXYZ := glm_vec3 (flt 0.4) (flt 0.4) (flt 0.2) in
  let XrotationDegrees := flt 90.0 in
  let YrotationDegrees := flt 0.0 in
  let ZrotationDegrees := flt 0.0 in
  let positionXYZ := glm_vec3 (flt (-2.7)) (flt 3.5) (flt (-6.0)) in
  SetTransformations scaleXYZ XrotationDegrees YrotationDegrees ZrotationDegrees positionXYZ ;;
  SetShaderTexture "brown-twine" ;;
  SetTextureUVScale (flt 1.0) (flt 1.0) ;;
  SetShaderMaterial "twine" ;;
  meshes DrawTorusMesh.

(** void SceneManager::RenderFlooPowder() *)
Definition RenderFlooPowder : M unit :=
  let XrotationDegrees := flt 0.0 in
  let YrotationDegrees := flt 0.0 in
  let ZrotationDegrees := flt 0.0 in
  let scaleXYZ := glm_vec3 (flt 1.2) (flt 1.8) (flt 1.2) in
  let XrotationDegrees := flt 0.0 in
  let YrotationDegrees := flt 0.0 in
  let ZrotationDegrees := flt 0.0 in
  let positionXYZ := glm_vec3 (flt (-1.5)) (flt 0.0) (flt (-3.8)) in
  SetTransformations scaleXYZ XrotationDegrees YrotationDegrees ZrotationDegrees positionXYZ ;;
  SetShaderColor (dbl 0.827) (dbl 0.824) (dbl 0.902) (dbl 0.8) ;;
  SetShaderMaterial "glass" ;;
  meshes DrawCylinderMesh ;;
  let scaleXYZ := glm_vec3 (flt 1.2) (flt 0.5) (flt 1.2) in
  let XrotationDegrees := flt 0.0 in
  let YrotationDegrees := flt 0.0 in
  let ZrotationDegrees := flt 0.0 in
  let positionXYZ := glm_vec3 (flt (-1.5)) (flt 1.8) (flt (-3.8)) in
  SetTransformations scaleXYZ XrotationDegrees YrotationDegrees ZrotationDegrees positionXYZ ;;
  SetShaderColor (dbl 0.827) (dbl 0.824) (dbl 0.902) (dbl 0.8) ;;
  SetShaderMaterial "glass" ;;
  meshes DrawHalfSphereMesh ;;
  let scaleXYZ := glm_vec3 (flt 1.1) (flt 1.1) (flt 0.3) in
  let XrotationDegrees := flt 90.0 in
  let YrotationDegrees := flt 0.0 in
  let ZrotationDegrees := flt 0.0 in
  let positionXYZ := glm_vec3 (flt (-1.5)) (flt 1.8) (flt (-3.8)) in
  SetTransformations scaleXYZ XrotationDegrees YrotationDegrees ZrotationDegrees positionXYZ ;;
  SetShaderColor (dbl 0.827) (dbl 0.824) (dbl 0.902) (dbl 0.8) ;;
  SetShaderMaterial "glass" ;;
  meshes DrawTorusMesh ;;
  let scaleXYZ := glm_vec3 (flt 0.4) (flt 0.6) (flt 0.4) in
  let XrotationDegrees := flt 0.0 in
  let YrotationDegrees := flt 0.0 in
  let ZrotationDegrees := flt 0.0 in
  let positionXYZ := glm_vec3 (flt (-1.5)) (flt 2.0) (flt (-3.8)) in
  SetTransformations scaleXYZ XrotationDegrees YrotationDegrees ZrotationDegrees positionXYZ ;;
  SetShaderColor (dbl 0.827) (dbl 0.824) (dbl 0.902) (dbl 0.8) ;;
  SetShaderMaterial "glass" ;;
  meshes DrawCylinderMesh.

(** void SceneManager::RenderScene() *)
Definition RenderScene : M unit :=
  RenderBackground ;;
  RenderTable ;;
  RenderDraughtLivingDeath ;;
  RenderAmortentia ;;
  RenderThunderbrew ;;
  RenderFelix ;;
  RenderFlooPowder.
End Scene.

(* ------------------------------------------------------------------------- *)
(** ** Vocabulary of the properties *)

Section Vocabulary.
Context {S : Scalar} {G : Glm} {E : Environment}.

(** [m_textureIDs[i]] as a value. *)
Definition entry (this : SceneManager) (i : Z) : TEXTURE_INFO :=
  nth (Z.to_nat i) (m_textureIDs this) blank_TEXTURE_INFO.

(** The occupied slots are the first [m_loadedTextures] ones. *)
Definition occupied (this : SceneManager) : list TEXTURE_INFO :=
  firstn (Z.to_nat (m_loadedTextures this)) (m_textureIDs this).

(** The array has its sixteen elements and the count lies within it. *)
Definition array_ok (this : SceneManager) : Prop :=
  List.length (m_textureIDs this) = Z.to_nat TEXTURE_SLOTS /\
  0 <= m_loadedTextures this <= TEXTURE_SLOTS.

(** The invariant of the texture registry: tags unique among the occupied
    slots, occupied count at most the capacity. *)
Definition registry_invariant (this : SceneManager) : Prop :=
  array_ok this /\ NoDup (map tag (occupied this)).

(** Some occupied slot carries the tag. *)
Definition registered (this : SceneManager) (t : string) : Prop :=
  exists i, 0 <= i < m_loadedTextures this /\ tag (entry this i) = t.

(** Slot [i] is the first occupied slot that carries the tag. *)
Definition first_registered_at (this : SceneManager) (t : string) (i : Z)
  : Prop :=
  0 <= i < m_loadedTextures this /\ tag (entry this i) = t /\
  forall j, 0 <= j < i -> tag (entry this j) <> t.

(** The first of the [d] slots from [k] on that carries the tag. *)
Fixpoint scan (this : SceneManager) (t : string) (d : nat) (k : Z)
  : option Z :=
  match d with
  | O => None
  | Datatypes.S d' =>
      if (tag (entry this k) =? t)%string then Some k
      else scan this t d' (k + 1)
  end.

(** The first material of a list that carries the tag. *)
Fixpoint first_material (t : string) (l : list OBJECT_MATERIAL)
  : option OBJECT_MATERIAL :=
  match l with
  | [] => None
  | m :: l' =>
      if (material_tag m =? t)%string then Some m else first_material t l'
  end.

(** What [FindMaterial] copies out of a list entry: everything but the
    tag. *)
Definition copy_material (m material : OBJECT_MATERIAL) : OBJECT_MATERIAL :=
  Build_OBJECT_MATERIAL (diffuseColor m) (specularColor m) (shininess m)
                        (material_tag material).

(** The three uniforms of a material, as [SetShaderMaterial] pushes them. *)
Definition material_uniforms (m : OBJECT_MATERIAL) : list Call :=
  [ Shader (setVec3Value "material.diffuseColor" (diffuseColor m));
    Shader (setVec3Value "material.specularColor" (specularColor m));
    Shader (setFloatValue "material.shininess" (shininess m)) ].

(** The [n] consecutive integers from [lo] on, and the indices
    [0 .. n-1]. *)
Fixpoint consecutive (lo : Z) (n : nat) : list Z :=
  match n with
  | O => []
  | Datatypes.S n' => lo :: consecutive (lo + 1) n'
  end.

Definition indices (n : Z) : list Z := consecutive 0 (Z.to_nat n).

(** The object once the texture [e] is registered in the next free
    slot. *)
Definition with_new_texture (this : SceneManager) (e : TEXTURE_INFO)
  : SceneManager :=
  Build_SceneManager (m_pShaderManager this) (m_basicMeshes this)
    (list_set (Z.to_nat (m_loadedTextures this)) e (m_textureIDs this))
    (m_loadedTextures this + 1) (m_objectMaterials this).

(** Two objects that differ at most in the texture handles they store. *)
Definition same_but_handles (this this' : SceneManager) : Prop :=
  m_pShaderManager this' = m_pShaderManager this /\
  m_basicMeshes this' = m_basicMeshes this /\
  m_loadedTextures this' = m_loadedTextures this /\
  m_objectMaterials this' = m_objectMaterials this /\
  map tag (m_textureIDs this') = map tag (m_textureIDs this).

(** Texture [i] bound to texture unit [i]. *)
Definition bind_to_unit (this : SceneManager) (i : Z) : list Call :=
  [ GL (glActiveTexture (GL_TEXTURE0 + i));
    GL (glBindTexture GL_TEXTURE_2D (ID (entry this i))) ].

(** The material tags the scene script asks for. *)
Definition script_material_tags : list string :=
  [ "wall"; "wood"; "liquid"; "glass"; "twine"; "felixGlow"; "loveGlow" ].

(** A state in which the scene can be rendered: both collaborators are
    there, the registry is within its array, and the material list holds
    the materials of the script. *)
Definition prepared (this : SceneManager) : Prop :=
  m_pShaderManager this = object /\ m_basicMeshes this = object /\
  array_ok this /\
  forall t, In t script_material_tags ->
            first_material t (m_objectMaterials this) <> None.

(** The composition the specification describes, T . Rz . Ry . Rx . S,
    with the angles in degrees. *)
Definition compose (scale : vec3) (rotX rotY rotZ : float) (translate : vec3)
  : mat4 :=
  let T := glm_translate translate in
  let Rz := glm_rotate (glm_radians rotZ) (glm_vec3 (flt 0.0) (flt 0.0) (flt 1.0)) in
  let Ry := glm_rotate (glm_radians rotY) (glm_vec3 (flt 0.0) (flt 1.0) (flt 0.0)) in
  let Rx := glm_rotate (glm_radians rotX) (glm_vec3 (flt 1.0) (flt 0.0) (flt 0.0)) in
  let Sc := glm_scale scale in
  (T * Rz * Ry * Rx * Sc)%mat4.

(** A file the registry accepts: it decodes, with three or four
    channels. *)
Definition loads (filename : string) : bool :=
  match stbi_load filename with
  | Some image => (colorChannels image =? 3) || (colorChannels image =? 4)
  | None => false
  end.

(** The files and tags of [LoadSceneTextures], in the order of its calls. *)
Definition scene_textures : list (string * string) :=
  [ ("textures/cork.jpg", "bottle-cork");
    ("textures/draught-living-death.jpg", "draught-potion");
    ("textures/twine-black.png", "black-twine");
    ("textures/wood-seamless.jpg", "table");
    ("textures/twine-brown.png", "brown-twine");
    ("textures/wall.jpg", "background");
    ("textures/amortentia.jpg", "love-potion");
    ("textures/felix.jpg", "lucky-potion");
    ("textures/thunderbrew.jpg", "stun-potion") ].

(** [CreateGLTexture] on each pair of a table, results dropped. *)
Fixpoint load_all (table : list (string * string)) : M unit :=
  match table with
  | [] => ret tt
  | (filename, t) :: table' => CreateGLTexture filename t ;; load_all table'
  end.

(** The tags of a table whose files the registry accepts. *)
Definition loaded_tags (table : list (string * string)) : list string :=
  flat_map (fun entry => if loads (fst entry) then [snd entry] else []) table.

(** The materials [DefineObjectMaterials] appends. *)
Definition scene_materials : list OBJECT_MATERIAL :=
  match DefineObjectMaterials raw_SceneManager [] with
  | Ok (_, this, _) => m_objectMaterials this
  | _ => []
  end.

(** The position of the first of the tags [tags] equal to [t], counted
    from [k]. *)
Fixpoint index_of (t : string) (tags : list string) (k : Z) : option Z :=
  match tags with
  | [] => None
  | t' :: tags' => if (t' =? t)%string then Some k else index_of t tags' (k + 1)
  end.

(** A computation that leaves the object alone and makes the calls [cs],
    whatever was logged before. *)
Definition emits (c : M unit) (this : SceneManager) (cs : list Call) : Prop :=
  forall log, c this log = Ok (tt, this, log ++ cs).

(** A computation that leaves the object alone and makes calls that do
    not depend on the log. *)
Definition quiet (c : M unit) (this : SceneManager) : Prop :=
  exists cs, emits c this cs.

(** The texture tags the scene script asks for. *)
Definition script_texture_tags : list string :=
  [ "background"; "table"; "draught-potion"; "bottle-cork"; "black-twine";
    "love-potion"; "brown-twine"; "stun-potion"; "lucky-potion" ].

(** The shading mode in force after the calls [log]: the value of the last
    "bUseTexture" sent to the sink (0 for a flat colour, 1 for a sampled
    texture), if any was sent. *)
Fixpoint shading_mode (log : list Call) : option Z :=
  match log with
  | [] => None
  | c :: log' =>
      match shading_mode log' with
      | Some mode => Some mode
      | None =>
          match c with
          | Shader (setIntValue name i) =>
              if (name =? g_UseTextureName)%string then Some i else None
          | _ => None
          end
      end
  end.

(** A call to the shader sink or to the mesh provider; a sampler is given
    the index of an occupied slot. *)
Definition sink_or_mesh_call (this : SceneManager) (c : Call) : bool :=
  match c with
  | Shader (setSampler2DValue _ slot) =>
      (0 <=? slot) && (slot <? m_loadedTextures this)
  | Shader _ => true
  | Mesh _ => true
  | _ => false
  end.

(** A computation that leaves the object alone and makes only calls that
    satisfy [allowed]. *)
Definition emits_only (allowed : Call -> bool) (c : M unit)
           (this : SceneManager) : Prop :=
  exists cs, emits c this cs /\ forallb allowed cs = true.


(** An OpenGL call. *)
Definition is_GL (c : Call) : bool :=
  match c with GL _ => true | _ => false end.

(** The calls of [CreateGLTexture] before the pixel format is looked at:
    the image is decoded, a texture name generated, bound and configured. *)
Definition upload_prefix (filename : string) (image : Image) (id : Z)
  : list Call :=
  [ Stbi (stbi_set_flip_vertically_on_load true);
    Stbi (stbi_load_file filename);
    Cout (cout_loaded filename (width image) (height image)
                      (colorChannels image));
    GL (glGenTextures 1 id);
    GL (glBindTexture GL_TEXTURE_2D id);
    GL (glTexParameteri GL_TEXTURE_2D GL_TEXTURE_WRAP_S GL_REPEAT);
    GL (glTexParameteri GL_TEXTURE_2D GL_TEXTURE_WRAP_T GL_REPEAT);
    GL (glTexParameteri GL_TEXTURE_2D GL_TEXTURE_MIN_FILTER GL_LINEAR);
    GL (glTexParameteri GL_TEXTURE_2D GL_TEXTURE_MAG_FILTER GL_LINEAR) ].

(** The name the driver hands out to a [CreateGLTexture] that starts after
    the calls [log]. *)
Definition generated_name (filename : string) (image : Image)
           (log : list Call) : Z :=
  to_uint32
    (next_texture_name
       (log ++ [ Stbi (stbi_set_flip_vertically_on_load true);
                 Stbi (stbi_load_file filename);
                 Cout (cout_loaded filename (width image) (height image)
                                   (colorChannels image)) ])).
End Vocabulary.

(* ------------------------------------------------------------------------- *)
(** ** A concrete instance, to run the definitions on *)

Module Demo.
(** Floats as the rationals their literals denote. *)
#[global] Instance scalar : Scalar :=
  {| float := Q; flt := fun q => q; dbl := fun q => q;
     int_to_float := inject_Z |}.

(** Matrices as the expressions that build them. *)
Inductive matrix : Type :=
| Scale (v : vec3)
| Rotate (angle : Q) (axis : vec3)
| Translate (v : vec3)
| Product (a b : matrix).

#[global] Instance glm : Glm :=
  {| mat4 := matrix; mat4_mul := Product; glm_scale := Scale;
     glm_rotate := Rotate; glm_translate := Translate;
     glm_radians := fun degrees =>
                      Qmult degrees 0.01745329251994329576923690768489 |}.

Fixpoint lookup_file (files : list (string * Image)) (filename : string)
  : option Image :=
  match files with
  | [] => None
  | (f, image) :: files' =>
      if (f =? filename)%string then Some image
      else lookup_file files' filename
  end.

Definition leftover : Q := 7.5.

(** A file system given as a table, a driver that numbers its texture
    names 1, 2, 3, ..., and left-over bytes on the stack that change with
    every call. *)
Definition environment (files : list (string * Image)) : Environment :=
  {| stbi_load := lookup_file files;
     next_texture_name := fun log =>
       1 + Z.of_nat (List.length (filter is_glGenTextures log));
     uninitialized_material := fun log =>
       Build_OBJECT_MATERIAL (glm_vec3 leftover leftover leftover)
                             (glm_vec3 leftover leftover leftover)
                             (inject_Z (Z.of_nat (List.length log))) "" |}.

Definition rgb : Image :=
  {| width := 2; height := 2; colorChannels := 3; pixels := [] |}.
Definition rgba : Image :=
  {| width := 2; height := 2; colorChannels := 4; pixels := [] |}.
Definition grayscale : Image :=
  {| width := 2; height := 2; colorChannels := 1; pixels := [] |}.

(** All nine scene textures are on disk. *)
Definition all_files : list (string * Image) :=
  [ ("textures/cork.jpg", rgb);
    ("textures/draught-living-death.jpg", rgb);
    ("textures/twine-black.png", rgba);
    ("textures/wood-seamless.jpg", rgb);
    ("textures/twine-brown.png", rgba);
    ("textures/wall.jpg", rgb);
    ("textures/amortentia.jpg", rgb);
    ("textures/felix.jpg", rgb);
    ("textures/thunderbrew.jpg", rgb) ].

(** Only three of them are, and one is a grayscale image. *)
Definition few_files : list (string * Image) :=
  [ ("textures/cork.jpg", rgb);
    ("textures/twine-black.png", rgba);
    ("textures/wall.jpg", grayscale);
    ("textures/felix.jpg", rgb) ].

(** The object and the log a run ends with (the raw object and no log
    for a run that does not end normally). *)
Definition final {A} (o : Outcome (A * SceneManager * list Call))
  : SceneManager * list Call :=
  match o with
  | Ok (_, this, log) => (this, log)
  | _ => (raw_SceneManager, [])
  end.

Definition run_from {A} (c : M A) (start : SceneManager * list Call)
  : Outcome (A * SceneManager * list Call) :=
  c (fst start) (snd start).

(** The object the constructor builds around a live shader manager, and
    around none. *)
Definition constructed : SceneManager * list Call :=
  Eval vm_compute in
    final (SceneManager_ctor object raw_SceneManager []).

Definition constructed_without_shader : SceneManager * list Call :=
  Eval vm_compute in
    final (SceneManager_ctor NULL raw_SceneManager []).

(** "wood" defined twice, with different values. *)
Definition wood : OBJECT_MATERIAL :=
  Build_OBJECT_MATERIAL (glm_vec3 0.2 0.2 0.3)%Q (glm_vec3 0.0 0.0 0.0)%Q
                        0.1%Q "wood".
Definition glass : OBJECT_MATERIAL :=
  Build_OBJECT_MATERIAL (glm_vec3 0.478 0.478 0.478)%Q (glm_vec3 1.0 1.0 1.0)%Q
                        98.0%Q "glass".
Definition later_wood : OBJECT_MATERIAL :=
  Build_OBJECT_MATERIAL (glm_vec3 0.9 0.9 0.9)%Q (glm_vec3 0.5 0.5 0.5)%Q
                        64.0%Q "wood".

Definition with_materials (this : SceneManager) (l : list OBJECT_MATERIAL)
  : SceneManager :=
  Build_SceneManager (m_pShaderManager this) (m_basicMeshes this)
                     (m_textureIDs this) (m_loadedTextures this) l.

(** Two textures registered, on the disk of [few_files]. *)
Definition two_textures : SceneManager * list Call :=
  Eval vm_compute in
    final (run_from
             (CreateGLTexture (E := environment few_files)
                              "textures/cork.jpg" "bottle-cork" ;;
              CreateGLTexture (E := environment few_files)
                              "textures/twine-black.png" "black-twine")
             constructed).

(** The scene prepared once, all nine textures on disk. *)
Definition prepared_scene : SceneManager * list Call :=
  Eval vm_compute in
    final (run_from (PrepareScene (E := environment all_files)) constructed).

(** A registry with all sixteen slots occupied, under sixteen different
    tags. *)
Definition sixteen_tags : list string :=
  [ "bottle-cork"; "draught-potion"; "black-twine"; "table"; "brown-twine";
    "background"; "love-potion"; "lucky-potion"; "stun-potion"; "marble";
    "brick"; "rust"; "sand"; "moss"; "slate"; "linen" ].

Definition full_registry : SceneManager :=
  Build_SceneManager object object
    (map (fun entry => {| tag := fst entry; ID := snd entry |})
         (combine sixteen_tags (consecutive 1 16)))
    16 [].

(** The scene prepared once, and once more, three textures on disk. *)
Definition prepared_once : SceneManager * list Call :=
  Eval vm_compute in
    final (run_from (PrepareScene (E := environment few_files)) constructed).

Definition prepared_twice : SceneManager * list Call :=
  Eval vm_compute in
    final (run_from (PrepareScene (E := environment few_files)) prepared_once).

(** A driver whose next texture name is the largest [GLuint]. *)
Definition last_name_environment (files : list (string * Image))
  : Environment :=
  {| stbi_load := lookup_file files;
     next_texture_name := fun _ => 4294967295;
     uninitialized_material := fun log =>
       Build_OBJECT_MATERIAL (glm_vec3 leftover leftover leftover)
                             (glm_vec3 leftover leftover leftover)
                             (inject_Z (Z.of_nat (List.length log))) "" |}.

(** One texture registered by that driver. *)
Definition last_name_registered : SceneManager * list Call :=
  Eval vm_compute in
    final (run_from
             (CreateGLTexture (E := last_name_environment few_files)
                              "textures/cork.jpg" "bottle-cork")
             constructed).

(** The elementary transformations a matrix applies, last applied
    first: an action of the matrices on such lists. *)
Fixpoint act (m : matrix) (applied : list matrix) : list matrix :=
  match m with
  | Product a b => act a (act b applied)
  | _ => m :: applied
  end.
End Demo.

(* ------------------------------------------------------------------------- *)
(** ** The monad and the loops *)

Section MonadFacts.
Context {S : Scalar} {G : Glm}.

Lemma bind_ok {A B} (c : M A) (k : A -> M B) this log a this' log' :
  c this log = Ok (a, this', log') ->
  bind c k this log = k a this' log'.
Proof. unfold bind. intros ->. reflexivity. Qed.

Lemma bind_inv {A B} (c : M A) (k : A -> M B) this log r :
  bind c k this log = Ok r ->
  exists a this' log', c this log = Ok (a, this', log') /\ k a this' log' = Ok r.
Proof.
  unfold bind. destruct (c this log) as [[[a this'] log'] | u | ]; try discriminate.
  intros H. exists a, this', log'. split; [reflexivity | exact H].
Qed.

Lemma emits_ret this : emits (ret tt) this [].
Proof. intros log. unfold ret. rewrite app_nil_r. reflexivity. Qed.

Lemma emits_bind (c1 c2 : M unit) this cs1 cs2 :
  emits c1 this cs1 -> emits c2 this cs2 ->
  emits (c1 ;; c2) this (cs1 ++ cs2).
Proof.
  intros H1 H2 log. rewrite (bind_ok _ _ _ _ _ _ _ (H1 log)).
  rewrite H2, app_assoc. reflexivity.
Qed.

Lemma emits_call this c : emits (call c) this [c].
Proof. intros log. reflexivity. Qed.

Lemma emits_shader this c :
  m_pShaderManager this = object -> emits (shader c) this [Shader c].
Proof.
  intros H log. unfold shader, bind, get_this. rewrite H. reflexivity.
Qed.

Lemma emits_meshes this c :
  m_basicMeshes this = object -> emits (meshes c) this [Mesh c].
Proof.
  intros H log. unfold meshes, bind, get_this. rewrite H. reflexivity.
Qed.

Lemma while_unfold {St} fuel cond (body : St -> M St) st this log :
  while_ (Datatypes.S fuel) cond body st this log =
  if cond st this
  then (st' <- body st ;; while_ fuel cond body st') this log
  else Ok (st, this, log).
Proof.
  simpl. unfold bind at 1. unfold get_this.
  destruct (cond st this); reflexivity.
Qed.

Lemma in_array_true i : 0 <= i < TEXTURE_SLOTS -> in_array i = true.
Proof.
  intros H. unfold in_array.
  apply andb_true_intro. split; [apply Z.leb_le | apply Z.ltb_lt]; lia.
Qed.

Lemma texture_at_ok this log i :
  0 <= i < TEXTURE_SLOTS ->
  texture_at i this log = Ok (entry this i, this, log).
Proof.
  intros H. unfold texture_at, bind, get_this.
  rewrite (in_array_true i H). reflexivity.
Qed.
End MonadFacts.

(* ------------------------------------------------------------------------- *)
(** ** The texture registry: lookups *)

Section TextureLookup.
Context {S : Scalar} {G : Glm} {E : Environment}.

(** The loop shared by [FindTextureID] and [FindTextureSlot], which differ
    in the value [v] they keep on a match: started at slot [k] with [d]
    slots to go, it ends on the first match, or at the end of the occupied
    slots with its result variable untouched. *)
Lemma texture_scan_loop (v : TEXTURE_INFO -> Z -> Z) t this log :
  m_loadedTextures this <= TEXTURE_SLOTS ->
  forall d k fuel r,
    0 <= k -> k + Z.of_nat d = m_loadedTextures this ->
    (d + 2 <= fuel)%nat ->
    while_ fuel
      (fun '(_, index, bFound) this =>
         (index <? m_loadedTextures this) && Bool.eqb bFound false)
      (fun '(r, index, bFound) =>
         e <- texture_at index ;;
         if (tag e =? t)%string
         then ret (v e index, index, true)
         else ret (r, index + 1, bFound))
      (r, k, false) this log
    = Ok (match scan this t d k with
          | Some i => (v (entry this i) i, i, true)
          | None => (r, m_loadedTextures this, false)
          end, this, log).
Proof.
  intros Hcap. induction d as [| d IH]; intros k fuel r Hk Hd Hfuel.
  - destruct fuel as [| fuel]; [lia |]. rewrite while_unfold. cbv beta iota.
    replace (k <? m_loadedTextures this) with false
      by (symmetry; apply Z.ltb_ge; lia).
    simpl. repeat f_equal. lia.
  - destruct fuel as [| fuel]; [lia |]. rewrite while_unfold. cbv beta iota.
    replace (k <? m_loadedTextures this) with true
      by (symmetry; apply Z.ltb_lt; lia).
    simpl andb. cbv iota.
    unfold bind at 1. unfold bind at 1.
    rewrite texture_at_ok by (unfold TEXTURE_SLOTS in *; lia).
    simpl scan.
    destruct (tag (entry this k) =? t)%string.
    + unfold ret at 1.
      destruct fuel as [| fuel]; [lia |]. rewrite while_unfold. cbv beta iota.
      rewrite andb_false_r. reflexivity.
    + unfold ret at 1. apply IH; lia.
Qed.

Lemma scan_some this t d k i :
  scan this t d k = Some i ->
  k <= i < k + Z.of_nat d /\ tag (entry this i) = t /\
  forall j, k <= j < i -> tag (entry this j) <> t.
Proof.
  revert k. induction d as [| d IH]; intros k; simpl; [discriminate |].
  destruct (tag (entry this k) =? t)%string eqn:Hk.
  - intros [= <-]. apply String.eqb_eq in Hk.
    repeat split; try lia. assumption.
  - intros H. apply IH in H. destruct H as (Hi & Ht & Hj).
    apply String.eqb_neq in Hk.
    repeat split; try lia; [assumption |].
    intros j Hrange. destruct (Z.eq_dec j k) as [-> | Hne]; [assumption |].
    apply Hj. lia.
Qed.

Lemma scan_none this t d k :
  scan this t d k = None ->
  forall j, k <= j < k + Z.of_nat d -> tag (entry this j) <> t.
Proof.
  revert k. induction d as [| d IH]; intros k; simpl.
  - intros _ j Hj. lia.
  - destruct (tag (entry this k) =? t)%string eqn:Hk; [discriminate |].
    intros H j Hj. apply String.eqb_neq in Hk.
    destruct (Z.eq_dec j k) as [-> | Hne]; [assumption |].
    apply (IH _ H). lia.
Qed.

Lemma scan_first this t i :
  first_registered_at this t i ->
  scan this t (Z.to_nat (m_loadedTextures this)) 0 = Some i.
Proof.
  intros (Hi & Ht & Hfirst).
  destruct (scan this t (Z.to_nat (m_loadedTextures this)) 0) as [i' |] eqn:Hs.
  - apply scan_some in Hs. destruct Hs as (Hi' & Ht' & Hfirst').
    f_equal. destruct (Z.lt_trichotomy i' i) as [Hlt | [Heq | Hgt]].
    + exfalso. apply (Hfirst i'); [lia | assumption].
    + assumption.
    + exfalso. apply (Hfirst' i); [lia | assumption].
  - exfalso. apply (scan_none _ _ _ _ Hs i); [lia | assumption].
Qed.

Lemma scan_unregistered this t :
  ~ registered this t ->
  scan this t (Z.to_nat (m_loadedTextures this)) 0 = None.
Proof.
  intros Hno.
  destruct (scan this t (Z.to_nat (m_loadedTextures this)) 0) as [i |] eqn:Hs;
    [| reflexivity].
  exfalso. apply Hno. apply scan_some in Hs. destruct Hs as (Hi & Ht & _).
  exists i. split; [lia | assumption].
Qed.

(** [FindTextureSlot] returns, leaves the object and the log alone, and
    yields the first matching slot or -1. *)
Lemma FindTextureSlot_scan this log t :
  0 <= m_loadedTextures this <= TEXTURE_SLOTS ->
  FindTextureSlot t this log =
  Ok (match scan this t (Z.to_nat (m_loadedTextures this)) 0 with
      | Some i => i
      | None => -1
      end, this, log).
Proof.
  intros Hc. unfold FindTextureSlot.
  unfold bind at 1. unfold get_this at 1.
  unfold bind at 1.
  rewrite (texture_scan_loop (fun _ i => i) t this log)
    with (d := Z.to_nat (m_loadedTextures this));
    try (unfold texture_scan_fuel; lia).
  destruct (scan this t (Z.to_nat (m_loadedTextures this)) 0); reflexivity.
Qed.

Lemma FindTextureID_scan this log t :
  0 <= m_loadedTextures this <= TEXTURE_SLOTS ->
  FindTextureID t this log =
  Ok (match scan this t (Z.to_nat (m_loadedTextures this)) 0 with
      | Some i => to_int (ID (entry this i))
      | None => -1
      end, this, log).
Proof.
  intros Hc. unfold FindTextureID.
  unfold bind at 1. unfold get_this at 1.
  unfold bind at 1.
  rewrite (texture_scan_loop (fun e _ => to_int (ID e)) t this log)
    with (d := Z.to_nat (m_loadedTextures this));
    try (unfold texture_scan_fuel; lia).
  destruct (scan this t (Z.to_nat (m_loadedTextures this)) 0); reflexivity.
Qed.
End TextureLookup.

(* ------------------------------------------------------------------------- *)
(** ** The texture registry: registration, binding, teardown *)

Section TextureRegistry.
Context {S : Scalar} {G : Glm} {E : Environment}.

Lemma length_list_set {A} n (a : A) l :
  List.length (list_set n a l) = List.length l.
Proof.
  revert n. induction l as [| b l IH]; intros [| n]; simpl; auto.
Qed.

Lemma nth_list_set_eq {A} n (a d : A) l :
  (n < List.length l)%nat -> nth n (list_set n a l) d = a.
Proof.
  revert n. induction l as [| b l IH]; intros [| n]; simpl; intros H;
    try lia; auto. apply IH. lia.
Qed.


Lemma list_set_twice {A} n (a b : A) l :
  list_set n a (list_set n b l) = list_set n a l.
Proof.
  revert n. induction l as [| c l IH]; intros [| n]; simpl; auto.
  f_equal. apply IH.
Qed.

Lemma firstn_list_set {A} n k (a : A) l :
  (k <= n)%nat -> firstn k (list_set n a l) = firstn k l.
Proof.
  revert n k. induction l as [| b l IH]; intros [| n] [| k] H; simpl;
    try reflexivity; try lia. f_equal. apply IH. lia.
Qed.

Lemma firstn_succ_list_set {A} n (a : A) l :
  (n < List.length l)%nat ->
  firstn (Datatypes.S n) (list_set n a l) = firstn n l ++ [a].
Proof.
  revert n. induction l as [| b l IH]; intros [| n] H; simpl in *;
    try lia; try reflexivity. f_equal. apply IH. lia.
Qed.

Lemma map_tag_list_set n e l :
  tag e = tag (nth n l blank_TEXTURE_INFO) ->
  map tag (list_set n e l) = map tag l.
Proof.
  revert n. induction l as [| b l IH]; intros [| n] H; simpl in *;
    try reflexivity; f_equal; auto.
Qed.

Lemma set_texture_at_ok this log i e :
  0 <= i < TEXTURE_SLOTS ->
  set_texture_at i e this log =
  Ok (tt, with_textureIDs this (list_set (Z.to_nat i) e (m_textureIDs this)), log).
Proof.
  intros H. unfold set_texture_at, bind, get_this.
  rewrite (in_array_true i H). reflexivity.
Qed.

Lemma set_texture_ID_ok this log i id :
  0 <= i < TEXTURE_SLOTS ->
  set_texture_ID i id this log =
  Ok (tt, with_textureIDs this
            (list_set (Z.to_nat i) {| tag := tag (entry this i); ID := id |}
                      (m_textureIDs this)), log).
Proof.
  intros H. unfold set_texture_ID.
  rewrite (bind_ok _ _ _ _ _ _ _ (texture_at_ok this log i H)).
  apply set_texture_at_ok. exact H.
Qed.

Lemma set_texture_tag_ok this log i t :
  0 <= i < TEXTURE_SLOTS ->
  set_texture_tag i t this log =
  Ok (tt, with_textureIDs this
            (list_set (Z.to_nat i) {| tag := t; ID := ID (entry this i) |}
                      (m_textureIDs this)), log).
Proof.
  intros H. unfold set_texture_tag.
  rewrite (bind_ok _ _ _ _ _ _ _ (texture_at_ok this log i H)).
  apply set_texture_at_ok. exact H.
Qed.

(** The three assignments that register a texture. *)
Lemma register_ok this log id t :
  array_ok this -> m_loadedTextures this < TEXTURE_SLOTS ->
  (this0 <- get_this ;;
   set_texture_ID (m_loadedTextures this0) id ;;
   this1 <- get_this ;;
   set_texture_tag (m_loadedTextures this1) t ;;
   this2 <- get_this ;;
   set_loadedTextures (m_loadedTextures this2 + 1) ;;
   ret true) this log
  = Ok (true, with_new_texture this {| tag := t; ID := id |}, log).
Proof.
  intros [Hlen Hcount] Hfree.
  unfold bind at 1. unfold get_this at 1.
  rewrite (bind_ok _ _ _ _ _ _ _
             (set_texture_ID_ok this log (m_loadedTextures this) id
                                (conj (proj1 Hcount) Hfree))).
  unfold bind at 1. unfold get_this at 1.
  cbn [m_loadedTextures with_textureIDs].
  erewrite bind_ok by (apply set_texture_tag_ok;
                       cbn [m_loadedTextures with_textureIDs]; lia).
  unfold bind, get_this, set_loadedTextures, set_this, ret.
  unfold with_new_texture, with_textureIDs, entry.
  cbn [m_loadedTextures m_textureIDs m_pShaderManager m_basicMeshes
       m_objectMaterials].
  rewrite list_set_twice.
  rewrite nth_list_set_eq by (unfold TEXTURE_SLOTS in *; lia).
  reflexivity.
Qed.

Lemma register_overflow this log id t :
  ~ (0 <= m_loadedTextures this < TEXTURE_SLOTS) ->
  (this0 <- get_this ;;
   set_texture_ID (m_loadedTextures this0) id ;;
   this1 <- get_this ;;
   set_texture_tag (m_loadedTextures this1) t ;;
   this2 <- get_this ;;
   set_loadedTextures (m_loadedTextures this2 + 1) ;;
   ret true) this log
  = Undefined ArrayIndexOutOfBounds.
Proof.
  intros H. unfold bind, get_this, set_texture_ID, texture_at.
  replace (in_array (m_loadedTextures this)) with false; [reflexivity |].
  symmetry. unfold in_array. apply andb_false_iff.
  rewrite Z.leb_gt, Z.ltb_ge. lia.
Qed.

Lemma CreateGLTexture_failure f t this log :
  loads f = false ->
  exists log', CreateGLTexture f t this log = Ok (false, this, log').
Proof.
  unfold loads, CreateGLTexture. intros H.
  cbv [bind call ret get_log stbi_load_ glGenTextures_1].
  destruct (stbi_load f) as [image |]; [| eexists; reflexivity].
  apply orb_false_elim in H. destruct H as [H3 H4].
  cbv zeta. rewrite H3, H4. eexists. reflexivity.
Qed.

Lemma CreateGLTexture_success f t this log :
  loads f = true -> array_ok this -> m_loadedTextures this < TEXTURE_SLOTS ->
  exists id log',
    CreateGLTexture f t this log =
    Ok (true, with_new_texture this {| tag := t; ID := id |}, log').
Proof.
  unfold loads, CreateGLTexture. intros H Hok Hfree.
  cbv [bind call ret get_log stbi_load_ glGenTextures_1].
  destruct (stbi_load f) as [image |]; [| discriminate].
  cbv zeta.
  destruct (colorChannels image =? 3).
  - eexists. eexists. refine (register_ok _ _ _ _ Hok Hfree).
  - simpl in H. rewrite H.
    eexists. eexists. refine (register_ok _ _ _ _ Hok Hfree).
Qed.

Lemma CreateGLTexture_overflow f t this log :
  loads f = true -> ~ (0 <= m_loadedTextures this < TEXTURE_SLOTS) ->
  CreateGLTexture f t this log = Undefined ArrayIndexOutOfBounds.
Proof.
  unfold loads, CreateGLTexture. intros H Hfull.
  cbv [bind call ret get_log stbi_load_ glGenTextures_1].
  destruct (stbi_load f) as [image |]; [| discriminate].
  cbv zeta.
  destruct (colorChannels image =? 3).
  - refine (register_overflow _ _ _ _ Hfull).
  - simpl in H. rewrite H. refine (register_overflow _ _ _ _ Hfull).
Qed.

(** Whatever [CreateGLTexture] returns normally, it returns whether the
    file loads; a failed call leaves the object alone, a successful one
    registers the tag in the next free slot. *)
Lemma CreateGLTexture_cases f t this log b this' log' :
  array_ok this ->
  CreateGLTexture f t this log = Ok (b, this', log') ->
  b = loads f /\
  (b = false -> this' = this) /\
  (b = true -> m_loadedTextures this < TEXTURE_SLOTS /\
               exists id, this' = with_new_texture this {| tag := t; ID := id |}).
Proof.
  intros Hok Hrun. destruct (loads f) eqn:Hl.
  - destruct (Z_lt_dec (m_loadedTextures this) TEXTURE_SLOTS) as [Hfree | Hfull].
    + destruct (CreateGLTexture_success f t this log Hl Hok Hfree)
        as (id & log1 & Heq).
      rewrite Heq in Hrun. injection Hrun as <- <- <-.
      repeat split; try discriminate; try assumption.
      exists id. reflexivity.
    + rewrite CreateGLTexture_overflow in Hrun by (assumption || lia).
      discriminate.
  - destruct (CreateGLTexture_failure f t this log Hl) as (log1 & Heq).
    rewrite Heq in Hrun. injection Hrun as <- <- <-.
    repeat split; try discriminate; reflexivity.
Qed.

Lemma occupied_with_new_texture this e :
  array_ok this -> m_loadedTextures this < TEXTURE_SLOTS ->
  occupied (with_new_texture this e) = occupied this ++ [e].
Proof.
  intros [Hlen Hcount] Hfree. unfold occupied, with_new_texture.
  cbn [m_loadedTextures m_textureIDs].
  replace (Z.to_nat (m_loadedTextures this + 1))
    with (Datatypes.S (Z.to_nat (m_loadedTextures this))) by lia.
  apply firstn_succ_list_set. unfold TEXTURE_SLOTS in *. lia.
Qed.

Lemma array_ok_with_new_texture this e :
  array_ok this -> m_loadedTextures this < TEXTURE_SLOTS ->
  array_ok (with_new_texture this e).
Proof.
  intros [Hlen Hcount] Hfree. unfold array_ok, with_new_texture.
  cbn [m_loadedTextures m_textureIDs]. rewrite length_list_set.
  split; [assumption | lia].
Qed.

Lemma entry_occupied this i :
  array_ok this -> 0 <= i < m_loadedTextures this ->
  nth (Z.to_nat i) (occupied this) blank_TEXTURE_INFO = entry this i.
Proof.
  intros [Hlen Hcount] Hi. unfold occupied, entry.
  rewrite <- (firstn_skipn (Z.to_nat (m_loadedTextures this)) (m_textureIDs this))
    at 2.
  rewrite app_nth1; [reflexivity |].
  rewrite length_firstn. unfold TEXTURE_SLOTS in *. lia.
Qed.

Lemma in_occupied this e :
  array_ok this -> In e (occupied this) ->
  exists i, 0 <= i < m_loadedTextures this /\ entry this i = e.
Proof.
  intros Hok Hin. destruct (In_nth _ _ blank_TEXTURE_INFO Hin) as (n & Hn & He).
  assert (Hlen : List.length (occupied this) = Z.to_nat (m_loadedTextures this)).
  { unfold occupied. rewrite length_firstn.
    destruct Hok as [Hl Hc]. unfold TEXTURE_SLOTS in *. lia. }
  exists (Z.of_nat n). split; [lia |].
  rewrite <- entry_occupied by (assumption || lia).
  rewrite Nat2Z.id. assumption.
Qed.

(** Registering a tag that no occupied slot carries keeps the invariant. *)
Lemma registry_invariant_with_new_texture this e :
  registry_invariant this -> m_loadedTextures this < TEXTURE_SLOTS ->
  ~ registered this (tag e) ->
  registry_invariant (with_new_texture this e).
Proof.
  intros [Hok Hdup] Hfree Hfresh. split.
  - apply array_ok_with_new_texture; assumption.
  - rewrite occupied_with_new_texture by assumption.
    rewrite map_app. simpl.
    apply NoDup_app; [assumption | repeat constructor; intros [] |].
    intros t Hin [Ht | []]. subst t.
    apply in_map_iff in Hin. destruct Hin as (e' & He' & Hin).
    apply Hfresh. destruct (in_occupied this e' Hok Hin) as (i & Hi & Hentry).
    exists i. split; [assumption | congruence].
Qed.
End TextureRegistry.

Section TextureLoops.
Context {S : Scalar} {G : Glm} {E : Environment}.

(** A [for] loop whose body leaves the object alone makes the calls of
    its turns, in order. *)
Lemma for_from_emits (body : Z -> M unit) (f : Z -> list Call) this :
  forall n lo,
    (forall i, lo <= i < lo + Z.of_nat n -> emits (body i) this (f i)) ->
    emits (for_from n lo body) this (flat_map f (consecutive lo n)).
Proof.
  induction n as [| n IH]; intros lo Hbody; simpl.
  - apply emits_ret.
  - apply emits_bind.
    + apply Hbody. lia.
    + apply IH. intros i Hi. apply Hbody. lia.
Qed.

Lemma BindGLTextures_emits this :
  array_ok this ->
  emits BindGLTextures this
        (flat_map (bind_to_unit this) (indices (m_loadedTextures this))).
Proof.
  intros [Hlen Hcount] log. unfold BindGLTextures.
  unfold bind at 1. unfold get_this at 1.
  unfold for_, indices. rewrite Z.sub_0_r.
  apply for_from_emits. intros i Hi log0.
  unfold bind at 1. unfold call at 1.
  unfold bind at 1. rewrite texture_at_ok by lia.
  unfold call, bind_to_unit. rewrite <- app_assoc. reflexivity.
Qed.


Lemma same_but_handles_trans a b c :
  same_but_handles a b -> same_but_handles b c -> same_but_handles a c.
Proof.
  unfold same_but_handles. intros (H1 & H2 & H3 & H4 & H5) (K1 & K2 & K3 & K4 & K5).
  repeat split; congruence.
Qed.

(** The loop of [DestroyGLTextures]: every turn asks the driver for a new
    texture name and stores it over the registered handle. *)
Lemma destroy_loop :
  forall n lo this log,
    0 <= lo -> lo + Z.of_nat n <= TEXTURE_SLOTS ->
    exists this' names,
      for_from n lo (fun i => name <- glGenTextures_1 ;; set_texture_ID i name)
               this log
      = Ok (tt, this', log ++ map (fun name => GL (glGenTextures 1 name)) names)
      /\ List.length names = n /\ same_but_handles this this'.
Proof.
  induction n as [| n IH]; intros lo this log Hlo Hhi; simpl.
  - exists this, []. simpl. rewrite app_nil_r.
    repeat split.
  - unfold bind at 1. unfold bind at 1.
    unfold glGenTextures_1 at 1. unfold bind at 1. unfold get_log at 1.
    unfold bind at 1. unfold call at 1. unfold ret at 1.
    rewrite set_texture_ID_ok by lia.
    match goal with
    | |- context [for_from n (lo + 1) _ ?t ?l] =>
        destruct (IH (lo + 1) t l) as (this' & names & Hrun & Hlen & Hsame);
        [lia | lia |]
    end.
    rewrite Hrun.
    eexists. eexists (_ :: names). split; [| split].
    + simpl. rewrite <- app_assoc. reflexivity.
    + simpl. congruence.
    + eapply same_but_handles_trans; [| exact Hsame].
      unfold same_but_handles, with_textureIDs.
      cbn [m_pShaderManager m_basicMeshes m_loadedTextures m_objectMaterials
           m_textureIDs].
      repeat split. apply map_tag_list_set. reflexivity.
Qed.

Lemma DestroyGLTextures_spec this log :
  array_ok this ->
  exists this' names,
    DestroyGLTextures this log =
    Ok (tt, this', log ++ map (fun name => GL (glGenTextures 1 name)) names)
    /\ List.length names = Z.to_nat (m_loadedTextures this)
    /\ same_but_handles this this'.
Proof.
  intros [Hlen Hcount]. unfold DestroyGLTextures.
  unfold bind at 1. unfold get_this at 1. unfold for_.
  rewrite Z.sub_0_r. apply destroy_loop; lia.
Qed.

Lemma registry_invariant_same_but_handles this this' :
  same_but_handles this this' ->
  registry_invariant this -> registry_invariant this'.
Proof.
  intros (_ & _ & Hcount & _ & Htags) [[Hlen Hc] Hdup].
  unfold registry_invariant, array_ok, occupied in *.
  rewrite Hcount. repeat split; try assumption.
  - rewrite <- Hlen. rewrite <- (length_map tag), Htags. apply length_map.
  - lia.
  - lia.
  - rewrite <- firstn_map, Htags, firstn_map. assumption.
Qed.
End TextureLoops.

(* ------------------------------------------------------------------------- *)
(** ** The material list *)

Section Materials.
Context {S : Scalar} {G : Glm} {E : Environment}.

Lemma material_at_ok this log l1 m l2 :
  m_objectMaterials this = l1 ++ m :: l2 ->
  material_at (Z.of_nat (List.length l1)) this log = Ok (m, this, log).
Proof.
  intros H. unfold material_at, bind, get_this.
  replace (0 <=? Z.of_nat (List.length l1)) with true
    by (symmetry; apply Z.leb_le; lia).
  rewrite Nat2Z.id, H, nth_error_app2 by lia.
  rewrite Nat.sub_diag. reflexivity.
Qed.

(** The loop of [FindMaterial], started behind the entries [l1] with the
    entries [l2] to go: it copies the first match of [l2] into
    [material], or leaves [material] as it was. *)
Lemma material_scan_loop t this log :
  forall l2 l1 fuel material,
    m_objectMaterials this = l1 ++ l2 ->
    (List.length l2 + 2 <= fuel)%nat ->
    exists index bFound,
      while_ fuel
        (fun '(index, bFound, _) this =>
           (index <? materials_size this) && Bool.eqb bFound false)
        (fun '(index, bFound, material) =>
           m <- material_at index ;;
           if (material_tag m =? t)%string
           then ret (index, true,
                     Build_OBJECT_MATERIAL (diffuseColor m) (specularColor m)
                                           (shininess m) (material_tag material))
           else ret (index + 1, bFound, material))
        (Z.of_nat (List.length l1), false, material) this log
      = Ok ((index, bFound,
             match first_material t l2 with
             | Some m => copy_material m material
             | None => material
             end), this, log).
Proof.
  induction l2 as [| m l2 IH]; intros l1 fuel material Hl Hfuel.
  - destruct fuel as [| fuel]; [simpl in Hfuel; lia |].
    rewrite while_unfold. cbv beta iota.
    replace (Z.of_nat (List.length l1) <? materials_size this) with false.
    + simpl. eexists. eexists. reflexivity.
    + symmetry. apply Z.ltb_ge. unfold materials_size.
      rewrite Hl, app_nil_r. lia.
  - destruct fuel as [| fuel]; [simpl in Hfuel; lia |].
    rewrite while_unfold. cbv beta iota.
    replace (Z.of_nat (List.length l1) <? materials_size this) with true.
    + simpl andb. cbv iota.
      unfold bind at 1. unfold bind at 1.
      rewrite (material_at_ok this log l1 m l2 Hl).
      simpl first_material.
      destruct (material_tag m =? t)%string.
      * unfold ret at 1.
        destruct fuel as [| fuel]; [simpl in Hfuel; lia |].
        rewrite while_unfold. cbv beta iota. rewrite andb_false_r.
        eexists. eexists. reflexivity.
      * unfold ret at 1.
        replace (Z.of_nat (List.length l1) + 1)
          with (Z.of_nat (List.length (l1 ++ [m])))
          by (rewrite length_app; simpl; lia).
        apply IH; [rewrite <- app_assoc; exact Hl | simpl in Hfuel; lia].
    + symmetry. apply Z.ltb_lt. unfold materials_size.
      rewrite Hl, length_app. simpl. lia.
Qed.

(** [FindMaterial] returns, leaves the object and the log alone, reports
    [true] whenever the list is not empty, and copies the first match. *)
Lemma FindMaterial_spec t material this log :
  FindMaterial t material this log =
  Ok (match m_objectMaterials this with
      | [] => (false, material)
      | _ :: _ =>
          (true, match first_material t (m_objectMaterials this) with
                 | Some m => copy_material m material
                 | None => material
                 end)
      end, this, log).
Proof.
  unfold FindMaterial. unfold bind at 1. unfold get_this at 1.
  destruct (m_objectMaterials this) as [| m0 l0] eqn:Hl.
  - unfold materials_size. rewrite Hl. reflexivity.
  - replace (materials_size this =? 0) with false
      by (symmetry; apply Z.eqb_neq; unfold materials_size; rewrite Hl;
          simpl; lia).
    destruct (material_scan_loop t this log (m0 :: l0) []
                (Datatypes.S (Datatypes.S (List.length (m0 :: l0)))) material)
      as (index & bFound & Hrun); [exact Hl | lia |].
    change (Z.of_nat (List.length (@nil OBJECT_MATERIAL))) with 0 in Hrun.
    unfold bind at 1. rewrite Hrun. reflexivity.
Qed.

Lemma first_material_app_left t l1 l2 m :
  first_material t l1 = Some m -> first_material t (l1 ++ l2) = Some m.
Proof.
  induction l1 as [| a l1 IH]; simpl; [discriminate |].
  destruct (material_tag a =? t)%string; auto.
Qed.

Lemma first_material_app_right t l1 l2 :
  first_material t l1 = None ->
  first_material t (l1 ++ l2) = first_material t l2.
Proof.
  induction l1 as [| a l1 IH]; simpl; [reflexivity |].
  destruct (material_tag a =? t)%string; [discriminate | auto].
Qed.

Lemma first_material_first t l1 m l2 :
  (forall m', In m' l1 -> material_tag m' <> t) -> material_tag m = t ->
  first_material t (l1 ++ m :: l2) = Some m.
Proof.
  intros Hl1 Hm. rewrite first_material_app_right.
  - simpl. apply String.eqb_eq in Hm. rewrite Hm. reflexivity.
  - clear Hm. induction l1 as [| a l1 IH]; simpl; [reflexivity |].
    assert (Ha : material_tag a <> t) by (apply Hl1; left; reflexivity).
    apply String.eqb_neq in Ha. rewrite Ha.
    apply IH. intros m' H. apply Hl1. right. assumption.
Qed.

Lemma first_material_none t l :
  (forall m, In m l -> material_tag m <> t) <-> first_material t l = None.
Proof.
  induction l as [| a l IH]; simpl.
  - split; [reflexivity | intros _ m []].
  - destruct (material_tag a =? t)%string eqn:Ha.
    + split; [| discriminate]. intros H. exfalso.
      apply String.eqb_eq in Ha. apply (H a); [left; reflexivity | exact Ha].
    + apply String.eqb_neq in Ha. rewrite <- IH. split.
      * intros H m Hm. apply H. right. assumption.
      * intros H m [<- | Hm]; [assumption | apply H; assumption].
Qed.

(** A list repeated answers every lookup as the list itself does. *)
Lemma first_material_twice t l :
  first_material t (l ++ l) = first_material t l.
Proof.
  destruct (first_material t l) as [m |] eqn:H.
  - apply first_material_app_left. assumption.
  - rewrite first_material_app_right by assumption. assumption.
Qed.

(** What [SetShaderMaterial] does, case by case. *)
Lemma SetShaderMaterial_spec t this log :
  SetShaderMaterial t this log =
  match m_objectMaterials this with
  | [] => Ok (tt, this, log)
  | _ :: _ =>
      match m_pShaderManager this with
      | NULL => Undefined NullPointerDereference
      | object =>
          Ok (tt, this,
              log ++ material_uniforms
                       match first_material t (m_objectMaterials this) with
                       | Some m => copy_material m (uninitialized_material log)
                       | None => uninitialized_material log
                       end)
      end
  end.
Proof.
  unfold SetShaderMaterial. unfold bind at 1. unfold get_this at 1.
  destruct (m_objectMaterials this) as [| m0 l0] eqn:Hl.
  - unfold materials_size. rewrite Hl. reflexivity.
  - replace (materials_size this >? 0) with true
      by (symmetry; apply Z.gtb_lt; unfold materials_size; rewrite Hl;
          simpl; lia).
    unfold bind at 1. unfold get_log at 1.
    unfold bind at 1. rewrite FindMaterial_spec, Hl.
    cbv beta iota. change (Bool.eqb true true) with true. cbv iota.
    destruct (m_pShaderManager this) eqn:Hp.
    + unfold shader, bind, get_this. rewrite Hp. reflexivity.
    + apply (emits_bind _ _ _ [_] [_; _]);
        [apply emits_shader; assumption |].
      apply (emits_bind _ _ _ [_] [_]); apply emits_shader; assumption.
Qed.
End Materials.

(* ------------------------------------------------------------------------- *)
(** ** Shading state dispatch *)

Section Dispatch.
Context {S : Scalar} {G : Glm} {E : Environment}.

Lemma SetTransformations_emits sc rx ry rz pos this :
  emits (SetTransformations sc rx ry rz pos) this
        match m_pShaderManager this with
        | object => [Shader (setMat4Value g_ModelName (compose sc rx ry rz pos))]
        | NULL => []
        end.
Proof.
  intros log. unfold SetTransformations. cbv zeta.
  unfold bind at 1. unfold get_this at 1.
  destruct (m_pShaderManager this) eqn:Hp.
  - apply emits_ret.
  - apply emits_shader. assumption.
Qed.

Lemma SetShaderColor_emits r g b a this :
  emits (SetShaderColor r g b a) this
        match m_pShaderManager this with
        | object => [Shader (setIntValue g_UseTextureName 0);
                     Shader (setVec4Value g_ColorValueName (glm_vec4 r g b a))]
        | NULL => []
        end.
Proof.
  intros log. unfold SetShaderColor. cbv zeta.
  unfold bind at 1. unfold get_this at 1.
  destruct (m_pShaderManager this) eqn:Hp.
  - apply emits_ret.
  - apply (emits_bind _ _ _ [_] [_]); apply emits_shader; assumption.
Qed.

Lemma SetTextureUVScale_emits u v this :
  emits (SetTextureUVScale u v) this
        match m_pShaderManager this with
        | object => [Shader (setVec2Value "UVscale" (glm_vec2 u v))]
        | NULL => []
        end.
Proof.
  intros log. unfold SetTextureUVScale.
  unfold bind at 1. unfold get_this at 1.
  destruct (m_pShaderManager this) eqn:Hp.
  - apply emits_ret.
  - apply emits_shader. assumption.
Qed.

Lemma SetShaderTexture_emits t this :
  0 <= m_loadedTextures this <= TEXTURE_SLOTS ->
  emits (SetShaderTexture t) this
        match m_pShaderManager this with
        | object =>
            [Shader (setIntValue g_UseTextureName 1);
             Shader (setSampler2DValue g_TextureValueName
                       match scan this t (Z.to_nat (m_loadedTextures this)) 0 with
                       | Some i => i
                       | None => -1
                       end)]
        | NULL => []
        end.
Proof.
  intros Hc log. unfold SetShaderTexture.
  unfold bind at 1. unfold get_this at 1.
  destruct (m_pShaderManager this) eqn:Hp.
  - apply emits_ret.
  - apply (emits_bind _ _ _ [_] [_]); [apply emits_shader; assumption |].
    cbv zeta. intros log0.
    rewrite (bind_ok _ _ _ _ _ _ _ (FindTextureSlot_scan this log0 t Hc)).
    apply emits_shader. assumption.
Qed.

Lemma SetShaderMaterial_emits t this :
  m_pShaderManager this = object ->
  first_material t (m_objectMaterials this) <> None ->
  emits (SetShaderMaterial t) this
        match first_material t (m_objectMaterials this) with
        | Some m => material_uniforms m
        | None => []
        end.
Proof.
  intros Hp Hfound log. rewrite SetShaderMaterial_spec, Hp.
  destruct (m_objectMaterials this) as [| m0 l0];
    [exfalso; apply Hfound; reflexivity |].
  destruct (first_material t (m0 :: l0));
    [reflexivity | exfalso; apply Hfound; reflexivity].
Qed.

(** C6. For every scale vector, rotation angles in degrees and translation
    vector, [SetTransformations] sends to the shader sink, under the name
    "model", the matrix T * Rz * Ry * Rx * S - the product the source
    writes, taken left to right, of [glm::translate], the three
    [glm::rotate] about the z, y and x axes by the angles converted with
    [glm::radians], and [glm::scale].  Under every action of the matrices
    that turns the product into composition, that matrix applies the
    scale first, then the rotations about x, y and z, and the translation
    last. *)
Theorem SetTransformations_sends_T_Rz_Ry_Rx_S
        scaleXYZ Xdeg Ydeg Zdeg positionXYZ this log :
  m_pShaderManager this = object ->
  let T := glm_translate positionXYZ in
  let Rz := glm_rotate (glm_radians Zdeg) (glm_vec3 (flt 0.0) (flt 0.0) (flt 1.0)) in
  let Ry := glm_rotate (glm_radians Ydeg) (glm_vec3 (flt 0.0) (flt 1.0) (flt 0.0)) in
  let Rx := glm_rotate (glm_radians Xdeg) (glm_vec3 (flt 1.0) (flt 0.0) (flt 0.0)) in
  let Sc := glm_scale scaleXYZ in
  SetTransformations scaleXYZ Xdeg Ydeg Zdeg positionXYZ this log
  = Ok (tt, this,
        log ++ [Shader (setMat4Value "model"
                          (compose scaleXYZ Xdeg Ydeg Zdeg positionXYZ))])
  /\ compose scaleXYZ Xdeg Ydeg Zdeg positionXYZ
     = mat4_mul (mat4_mul (mat4_mul (mat4_mul T Rz) Ry) Rx) Sc
  /\ forall (V : Type) (apply : mat4 -> V -> V),
      (forall a b v, apply (mat4_mul a b) v = apply a (apply b v)) ->
      forall v,
        apply (compose scaleXYZ Xdeg Ydeg Zdeg positionXYZ) v
        = apply T (apply Rz (apply Ry (apply Rx (apply Sc v)))).
Proof.
  intros Hp T Rz Ry Rx Sc. split; [| split].
  - pose proof (SetTransformations_emits scaleXYZ Xdeg Ydeg Zdeg positionXYZ
                  this log) as H.
    rewrite Hp in H. exact H.
  - reflexivity.
  - intros V apply Hact v. unfold compose. cbv zeta.
    rewrite !Hact. reflexivity.
Qed.

(** C10. With a NULL shader manager, [SetTransformations],
    [SetShaderColor], [SetShaderTexture] and [SetTextureUVScale] make no
    call and leave the object unchanged; [SetShaderMaterial] has no guard
    and goes through the NULL pointer whenever the material list is not
    empty and holds the tag. *)
Theorem NULL_shader_manager_guards this log :
  m_pShaderManager this = NULL ->
  (forall sc rx ry rz pos,
      SetTransformations sc rx ry rz pos this log = Ok (tt, this, log)) /\
  (forall r g b a, SetShaderColor r g b a this log = Ok (tt, this, log)) /\
  (forall t, SetShaderTexture t this log = Ok (tt, this, log)) /\
  (forall u v, SetTextureUVScale u v this log = Ok (tt, this, log)) /\
  (forall t m,
      In m (m_objectMaterials this) -> material_tag m = t ->
      SetShaderMaterial t this log = Undefined NullPointerDereference).
Proof.
  intros Hp. repeat split.
  - intros. unfold SetTransformations, bind, get_this. cbv zeta.
    rewrite Hp. reflexivity.
  - intros. unfold SetShaderColor, bind, get_this. cbv zeta.
    rewrite Hp. reflexivity.
  - intros. unfold SetShaderTexture. unfold bind at 1. unfold get_this at 1.
    rewrite Hp. reflexivity.
  - intros. unfold SetTextureUVScale, bind, get_this.
    rewrite Hp. reflexivity.
  - intros t m Hin _. rewrite SetShaderMaterial_spec, Hp.
    destruct (m_objectMaterials this); [destruct Hin | reflexivity].
Qed.

(** C7. Material lookup is first match wins: when the list holds an entry
    with the tag and no earlier entry carries that tag, [FindMaterial]
    returns the diffuse, specular and shininess values of that entry,
    whatever follows it - in particular a later entry with the same
    tag. *)
Theorem FindMaterial_first_match_wins t l1 m1 l2 material this log :
  m_objectMaterials this = l1 ++ m1 :: l2 ->
  (forall m, In m l1 -> material_tag m <> t) ->
  material_tag m1 = t ->
  exists found,
    FindMaterial t material this log = Ok ((true, found), this, log) /\
    diffuseColor found = diffuseColor m1 /\
    specularColor found = specularColor m1 /\
    shininess found = shininess m1.
Proof.
  intros Hl Hl1 Hm1. exists (copy_material m1 material).
  rewrite FindMaterial_spec, Hl.
  rewrite (first_material_first t l1 m1 l2 Hl1 Hm1).
  destruct l1; simpl; repeat split; reflexivity.
Qed.
End Dispatch.

Lemma SetTransformations_sends_T_Rz_Ry_Rx_S_witness :
  let this := fst Demo.constructed in
  let scaleXYZ := (glm_vec3 2 1 1)%Q in
  let positionXYZ := (glm_vec3 0 5 0)%Q in
  m_pShaderManager this = object /\
  SetTransformations scaleXYZ 0%Q 90%Q 0%Q positionXYZ this []
  = Ok (tt, this,
        [Shader (setMat4Value "model"
                   (compose scaleXYZ 0%Q 90%Q 0%Q positionXYZ))]) /\
  (forall v,
      Demo.act (compose scaleXYZ 0%Q 90%Q 0%Q positionXYZ) v
      = Demo.Translate positionXYZ
          :: Demo.Rotate (glm_radians 0%Q) (glm_vec3 0.0 0.0 1.0)%Q
          :: Demo.Rotate (glm_radians 90%Q) (glm_vec3 0.0 1.0 0.0)%Q
          :: Demo.Rotate (glm_radians 0%Q) (glm_vec3 1.0 0.0 0.0)%Q
          :: Demo.Scale scaleXYZ :: v).
Proof.
  split; [reflexivity | split].
  - exact (proj1 (SetTransformations_sends_T_Rz_Ry_Rx_S
                    (S := Demo.scalar) (G := Demo.glm)
                    (glm_vec3 2 1 1)%Q 0%Q 90%Q 0%Q (glm_vec3 0 5 0)%Q
                    (fst Demo.constructed) [] eq_refl)).
  - intros v.
    exact (proj2 (proj2 (SetTransformations_sends_T_Rz_Ry_Rx_S
                           (S := Demo.scalar) (G := Demo.glm)
                           (glm_vec3 2 1 1)%Q 0%Q 90%Q 0%Q (glm_vec3 0 5 0)%Q
                           (fst Demo.constructed) [] eq_refl))
                 (list Demo.matrix) Demo.act (fun a b w => eq_refl) v).
Defined.

Lemma NULL_shader_manager_guards_witness :
  let E := Demo.environment Demo.all_files in
  let this := Demo.with_materials (fst Demo.constructed_without_shader)
                                  [Demo.wood; Demo.glass] in
  m_pShaderManager this = NULL /\
  SetTransformations (glm_vec3 2 1 1)%Q 0%Q 90%Q 0%Q (glm_vec3 0 5 0)%Q this []
  = Ok (tt, this, []) /\
  SetShaderColor 1%Q 1%Q 1%Q 1%Q this [] = Ok (tt, this, []) /\
  SetShaderTexture "table" this [] = Ok (tt, this, []) /\
  SetTextureUVScale 1%Q 1%Q this [] = Ok (tt, this, []) /\
  SetShaderMaterial "glass" this [] = Undefined NullPointerDereference.
Proof.
  intros E this.
  pose proof (NULL_shader_manager_guards (E := E) this [] eq_refl)
    as (H1 & H2 & H3 & H4 & H5).
  split; [reflexivity |].
  split; [apply H1 |].
  split; [apply H2 |].
  split; [apply H3 |].
  split; [apply H4 |].
  apply (H5 "glass" Demo.glass); [right; left; reflexivity | reflexivity].
Defined.

Lemma FindMaterial_first_match_wins_witness :
  let E := Demo.environment Demo.all_files in
  let this := Demo.with_materials (fst Demo.constructed)
                                  [Demo.glass; Demo.wood; Demo.later_wood] in
  exists found,
    FindMaterial "wood" (uninitialized_material []) this []
    = Ok ((true, found), this, []) /\
    diffuseColor found = diffuseColor Demo.wood /\
    specularColor found = specularColor Demo.wood /\
    shininess found = shininess Demo.wood.
Proof.
  intros E this.
  apply (FindMaterial_first_match_wins "wood" [Demo.glass] Demo.wood
           [Demo.later_wood] (uninitialized_material []) this [] eq_refl).
  - intros m [<- | []]. discriminate.
  - reflexivity.
Defined.

(* ------------------------------------------------------------------------- *)
(** ** Properties of the texture registry *)

Section RegistryProperties.
Context {S : Scalar} {G : Glm} {E : Environment}.

Lemma loads_false_iff f :
  loads f = false <->
  (stbi_load f = None \/
   exists image, stbi_load f = Some image /\
                 colorChannels image <> 3 /\ colorChannels image <> 4).
Proof.
  unfold loads. destruct (stbi_load f) as [image |].
  - rewrite orb_false_iff, !Z.eqb_neq. split.
    + intros [H3 H4]. right. exists image. auto.
    + intros [H | (image' & [= <-] & H3 & H4)]; [discriminate | auto].
  - split; auto.
Qed.

(** C5. If [CreateGLTexture] fails - the image cannot be decoded, or its
    channel count is neither 3 nor 4 - it returns false and the object,
    hence the entry array and [m_loadedTextures], is unchanged. *)
Theorem CreateGLTexture_failure_keeps_registry filename t this log :
  (stbi_load filename = None \/
   exists image, stbi_load filename = Some image /\
                 colorChannels image <> 3 /\ colorChannels image <> 4) ->
  exists this' log',
    CreateGLTexture filename t this log = Ok (false, this', log') /\
    m_textureIDs this' = m_textureIDs this /\
    m_loadedTextures this' = m_loadedTextures this /\
    this' = this.
Proof.
  intros H. apply loads_false_iff in H.
  destruct (CreateGLTexture_failure filename t this log H) as (log' & Hrun).
  exists this, log'. repeat split. exact Hrun.
Qed.

Lemma scan_registered this t :
  registered this t ->
  exists i, first_registered_at this t i.
Proof.
  intros (j & Hj & Ht).
  destruct (scan this t (Z.to_nat (m_loadedTextures this)) 0) as [i |] eqn:Hs.
  - exists i. apply scan_some in Hs. destruct Hs as (Hi & Hti & Hfirst).
    repeat split; try lia; try assumption.
  - exfalso. apply (scan_none _ _ _ _ Hs j); [lia | assumption].
Qed.

(** With unique tags, the slot that carries a tag is the first to do so. *)
Lemma unique_tag_first this t i :
  registry_invariant this ->
  0 <= i < m_loadedTextures this -> tag (entry this i) = t ->
  first_registered_at this t i.
Proof.
  intros [Hok Hdup] Hi Ht. repeat split; try lia; try assumption.
  intros j Hj Htj.
  assert (Hlen : List.length (occupied this) = Z.to_nat (m_loadedTextures this)).
  { unfold occupied. rewrite length_firstn.
    destruct Hok as [Hl Hc]. unfold TEXTURE_SLOTS in *. lia. }
  assert (Heq : Z.to_nat j = Z.to_nat i).
  { apply (proj1 (NoDup_nth (map tag (occupied this)) "") Hdup);
      try (rewrite length_map; lia).
    change "" with (tag blank_TEXTURE_INFO).
    rewrite !map_nth.
    rewrite (entry_occupied this j Hok), (entry_occupied this i Hok) by lia.
    congruence. }
  lia.
Qed.

Lemma to_int_minus_one u :
  to_int u = -1 <-> u mod UINT32_MOD = 4294967295.
Proof.
  unfold to_int, UINT32_MOD.
  change (2 ^ 32) with 4294967296. change (2 ^ 31) with 2147483648.
  pose proof (Z.mod_pos_bound u 4294967296 eq_refl) as Hrange.
  destruct (u mod 4294967296 <? 2147483648) eqn:Hlt.
  - apply Z.ltb_lt in Hlt. lia.
  - apply Z.ltb_ge in Hlt. lia.
Qed.

(** C8, as the code has it.  For a tag of the registry, [FindTextureSlot]
    returns the 0-based index of the slot it was registered in (the first
    such slot, which with unique tags is the only one), leaves the object
    and the log alone, so that a repeated lookup gives the same index, and
    [BindGLTextures] binds the texture of every occupied slot [i] to
    texture unit [i]; for a tag that is not registered [FindTextureSlot]
    and [FindTextureID] return -1.  That -1 is no index of a slot: a
    registered tag is always answered an index of an occupied slot.  It
    can be the answer for a real handle, though: for a registered tag
    [FindTextureID] returns the stored unsigned handle converted to [int],
    which is -1 exactly for the handle 0xFFFFFFFF. *)
Theorem texture_unit_is_registration_index this log t :
  array_ok this ->
  (forall i, first_registered_at this t i ->
             FindTextureSlot t this log = Ok (i, this, log) /\
             (FindTextureSlot t ;; FindTextureSlot t) this log
             = Ok (i, this, log)) /\
  (registry_invariant this ->
   forall i, 0 <= i < m_loadedTextures this -> tag (entry this i) = t ->
             FindTextureSlot t this log = Ok (i, this, log)) /\
  BindGLTextures this log
  = Ok (tt, this,
        log ++ flat_map (fun i => [GL (glActiveTexture (GL_TEXTURE0 + i));
                                   GL (glBindTexture GL_TEXTURE_2D
                                                     (ID (entry this i)))])
                        (indices (m_loadedTextures this))) /\
  (~ registered this t ->
   FindTextureSlot t this log = Ok (-1, this, log) /\
   FindTextureID t this log = Ok (-1, this, log)) /\
  (registered this t ->
   exists i, 0 <= i < m_loadedTextures this /\
             FindTextureSlot t this log = Ok (i, this, log)) /\
  (forall i, first_registered_at this t i ->
             FindTextureID t this log
             = Ok (to_int (ID (entry this i)), this, log) /\
             (FindTextureID t this log = Ok (-1, this, log)
              <-> ID (entry this i) mod UINT32_MOD = 4294967295)).
Proof.
  intros Hok. pose proof (proj2 Hok) as Hc.
  assert (Hfirst : forall i, first_registered_at this t i ->
                             forall log0,
                               FindTextureSlot t this log0 = Ok (i, this, log0)).
  { intros i Hi log0. rewrite FindTextureSlot_scan by assumption.
    rewrite (scan_first this t i Hi). reflexivity. }
  split; [| split; [| split; [| split; [| split]]]].
  - intros i Hi. split; [apply Hfirst; assumption |].
    rewrite (bind_ok _ _ _ _ _ _ _ (Hfirst i Hi log)).
    apply Hfirst. assumption.
  - intros Hinv i Hi Ht. apply Hfirst. apply unique_tag_first; assumption.
  - apply BindGLTextures_emits. assumption.
  - intros Hno.
    rewrite FindTextureSlot_scan, FindTextureID_scan by assumption.
    rewrite (scan_unregistered this t Hno). split; reflexivity.
  - intros Hreg. destruct (scan_registered this t Hreg) as (i & Hi).
    exists i. split; [apply Hi | apply Hfirst; assumption].
  - intros i Hi.
    assert (Hid : FindTextureID t this log
                  = Ok (to_int (ID (entry this i)), this, log)).
    { rewrite FindTextureID_scan by assumption.
      rewrite (scan_first this t i Hi). reflexivity. }
    split; [exact Hid |]. rewrite Hid. split.
    + intros [= H]. apply to_int_minus_one. exact H.
    + intros H. apply to_int_minus_one in H. rewrite H. reflexivity.
Qed.
End RegistryProperties.

Lemma CreateGLTexture_failure_keeps_registry_witness :
  let E := Demo.environment Demo.few_files in
  let this := fst Demo.two_textures in
  (stbi_load "textures/wall.jpg" = None \/
   exists image, stbi_load "textures/wall.jpg" = Some image /\
                 colorChannels image <> 3 /\ colorChannels image <> 4) /\
  exists this' log',
    CreateGLTexture "textures/wall.jpg" "background" this [] =
    Ok (false, this', log') /\
    m_textureIDs this' = m_textureIDs this /\
    m_loadedTextures this' = m_loadedTextures this /\
    this' = this.
Proof.
  intros E this.
  assert (H : stbi_load "textures/wall.jpg" = None \/
              exists image, stbi_load "textures/wall.jpg" = Some image /\
                            colorChannels image <> 3 /\ colorChannels image <> 4).
  { right. exists Demo.grayscale. repeat split; discriminate. }
  split; [exact H |].
  exact (CreateGLTexture_failure_keeps_registry (E := E)
           "textures/wall.jpg" "background" this [] H).
Defined.

Lemma texture_unit_is_registration_index_witness :
  let this := fst Demo.two_textures in
  array_ok this /\
  FindTextureSlot "black-twine" this [] = Ok (1, this, []) /\
  BindGLTextures this []
  = Ok (tt, this, [GL (glActiveTexture (GL_TEXTURE0 + 0));
                   GL (glBindTexture GL_TEXTURE_2D 1);
                   GL (glActiveTexture (GL_TEXTURE0 + 1));
                   GL (glBindTexture GL_TEXTURE_2D 2)]) /\
  FindTextureSlot "table" this [] = Ok (-1, this, []) /\
  FindTextureID "table" this [] = Ok (-1, this, []) /\
  FindTextureID "black-twine" this [] = Ok (2, this, []).
Proof.
  intros this.
  assert (Hok : array_ok this) by (split; [reflexivity | split; discriminate]).
  split; [exact Hok |].
  pose proof (texture_unit_is_registration_index this [] "black-twine" Hok)
    as (Hfound & _ & Hbind & _ & _ & Hhandle).
  pose proof (texture_unit_is_registration_index this [] "table" Hok)
    as (_ & _ & _ & Hmissing & _).
  assert (Hfirst : first_registered_at this "black-twine" 1).
  { split; [split; [discriminate | reflexivity] |].
    split; [reflexivity |].
    intros j Hj. assert (j = 0) as -> by lia. discriminate. }
  split; [| split; [exact Hbind | split; [| split]]].
  - apply Hfound. exact Hfirst.
  - apply Hmissing. intros (i & Hi & Ht).
    assert (i = 0 \/ i = 1) as [-> | ->]
        by (change (m_loadedTextures this) with 2 in Hi; lia);
      discriminate.
  - apply Hmissing. intros (i & Hi & Ht).
    assert (i = 0 \/ i = 1) as [-> | ->]
        by (change (m_loadedTextures this) with 2 in Hi; lia);
      discriminate.
  - exact (proj1 (Hhandle 1 Hfirst)).
Defined.

(** C8, as stated, fails for the handles.  A driver hands out the texture
    name 0xFFFFFFFF; [CreateGLTexture] registers it under "bottle-cork",
    and the registry invariant holds.  [FindTextureID] then answers -1 for
    the registered "bottle-cork" as it does for "table", which is not
    registered: the value for "not found" is the answer for a real
    handle. *)
Lemma FindTextureID_sentinel_aliases_handle :
  let E := Demo.last_name_environment Demo.few_files in
  let this := fst Demo.last_name_registered in
  CreateGLTexture "textures/cork.jpg" "bottle-cork"
                  (fst Demo.constructed) (snd Demo.constructed)
  = Ok (true, this, snd Demo.last_name_registered) /\
  registry_invariant this /\
  first_registered_at this "bottle-cork" 0 /\
  entry this 0 = {| tag := "bottle-cork"; ID := 4294967295 |} /\
  ~ registered this "table" /\
  FindTextureSlot "bottle-cork" this [] = Ok (0, this, []) /\
  FindTextureID "bottle-cork" this [] = Ok (-1, this, []) /\
  FindTextureID "table" this [] = Ok (-1, this, []).
Proof.
  intros E this.
  split; [vm_compute; reflexivity |].
  split.
  { split; [split; [reflexivity | split; discriminate] |].
    repeat (constructor; [simpl; intuition discriminate |]). constructor. }
  split.
  { split; [split; [discriminate | reflexivity] |].
    split; [reflexivity | intros j Hj; lia]. }
  split; [reflexivity |].
  split.
  { intros (i & Hi & Ht).
    assert (i = 0) as -> by (change (m_loadedTextures this) with 1 in Hi; lia).
    discriminate. }
  split; [reflexivity | split; reflexivity].
Qed.

(** C1 (where the code departs from the specification).  A list that holds "wood"
    and "glass" is asked for "stone": no entry carries the tag, and yet
    [FindMaterial] reports success and [SetShaderMaterial] pushes the three
    uniforms, with the indeterminate contents of its local [material]. *)
Theorem SetShaderMaterial_pushes_for_unknown_tag :
  let E := Demo.environment Demo.all_files in
  let this := Demo.with_materials (fst Demo.constructed)
                                  [Demo.wood; Demo.glass] in
  let log := snd Demo.constructed in
  (forall m, In m (m_objectMaterials this) -> material_tag m <> "stone") /\
  FindMaterial "stone" (uninitialized_material log) this log
  = Ok ((true, uninitialized_material log), this, log) /\
  SetShaderMaterial "stone" this log
  = Ok (tt, this,
        log ++
        [ Shader (setVec3Value "material.diffuseColor"
                               (diffuseColor (uninitialized_material log)));
          Shader (setVec3Value "material.specularColor"
                               (specularColor (uninitialized_material log)));
          Shader (setFloatValue "material.shininess"
                                (shininess (uninitialized_material log))) ]).
Proof.
  intros E this log. split; [| split].
  - intros m [<- | [<- | []]]; discriminate.
  - reflexivity.
  - reflexivity.
Qed.

(** C2 (where the code departs from the specification).  Two textures are
    registered, with the handles 1 and 2.  The destructor deletes the mesh
    object and then, for each registered texture, asks OpenGL for a new
    texture name ([glGenTextures]) and stores it over the registered
    handle: no call releases the handles 1 and 2. *)
Theorem destructor_generates_instead_of_deleting :
  let E := Demo.environment Demo.few_files in
  let this := fst Demo.two_textures in
  let log := snd Demo.two_textures in
  map ID (occupied this) = [1; 2] /\
  exists this',
    SceneManager_dtor this log
    = Ok (tt, this',
          log ++ [ Mesh delete_ShapeMeshes;
                   GL (glGenTextures 1 3); GL (glGenTextures 1 4) ]) /\
    map ID (occupied this') = [3; 4] /\
    filter is_glDeleteTextures
           (log ++ [ Mesh delete_ShapeMeshes;
                     GL (glGenTextures 1 3); GL (glGenTextures 1 4) ]) = [].
Proof.
  intros E this log. split; [reflexivity |].
  eexists. split; [vm_compute; reflexivity | split; reflexivity].
Qed.

(* ------------------------------------------------------------------------- *)
(** ** The scene script *)

Section SceneScript.
Context {S : Scalar} {G : Glm} {E : Environment}.

Lemma quiet_bind (c1 c2 : M unit) this :
  quiet c1 this -> quiet c2 this -> quiet (c1 ;; c2) this.
Proof.
  intros [cs1 H1] [cs2 H2]. exists (cs1 ++ cs2). apply emits_bind; assumption.
Qed.

Lemma quiet_SetTransformations sc rx ry rz pos this :
  quiet (SetTransformations sc rx ry rz pos) this.
Proof. eexists. apply SetTransformations_emits. Qed.

Lemma quiet_SetShaderColor r g b a this : quiet (SetShaderColor r g b a) this.
Proof. eexists. apply SetShaderColor_emits. Qed.

Lemma quiet_SetTextureUVScale u v this : quiet (SetTextureUVScale u v) this.
Proof. eexists. apply SetTextureUVScale_emits. Qed.

Lemma quiet_SetShaderTexture t this :
  prepared this -> quiet (SetShaderTexture t) this.
Proof.
  intros (_ & _ & (_ & Hc) & _). eexists. apply SetShaderTexture_emits.
  exact Hc.
Qed.

Lemma quiet_SetShaderMaterial t this :
  prepared this -> In t script_material_tags ->
  quiet (SetShaderMaterial t) this.
Proof.
  intros (Hp & _ & _ & Hdefined) Ht. eexists.
  apply SetShaderMaterial_emits; [exact Hp | apply Hdefined; exact Ht].
Qed.

Lemma quiet_meshes c this : prepared this -> quiet (meshes c) this.
Proof.
  intros (_ & Hm & _). eexists. apply emits_meshes. exact Hm.
Qed.

(** One instruction of the script after the other. *)
Ltac script :=
  cbv zeta;
  repeat (apply quiet_bind;
          [first [ apply quiet_SetTransformations
                 | apply quiet_SetShaderColor
                 | apply quiet_SetTextureUVScale
                 | apply quiet_SetShaderTexture; assumption
                 | apply quiet_SetShaderMaterial;
                   [assumption | simpl; tauto]
                 | apply quiet_meshes; assumption ] |]);
  apply quiet_meshes; assumption.

Lemma quiet_RenderBackground this : prepared this -> quiet RenderBackground this.
Proof. intros H. unfold RenderBackground. script. Qed.

Lemma quiet_RenderTable this : prepared this -> quiet RenderTable this.
Proof. intros H. unfold RenderTable. script. Qed.

Lemma quiet_RenderDraughtLivingDeath this :
  prepared this -> quiet RenderDraughtLivingDeath this.
Proof. intros H. unfold RenderDraughtLivingDeath. script. Qed.

Lemma quiet_RenderAmortentia this : prepared this -> quiet RenderAmortentia this.
Proof. intros H. unfold RenderAmortentia. script. Qed.

Lemma quiet_RenderThunderbrew this : prepared this -> quiet RenderThunderbrew this.
Proof. intros H. unfold RenderThunderbrew. script. Qed.

Lemma quiet_RenderFelix this : prepared this -> quiet RenderFelix this.
Proof. intros H. unfold RenderFelix. script. Qed.

Lemma quiet_RenderFlooPowder this : prepared this -> quiet RenderFlooPowder this.
Proof. intros H. unfold RenderFlooPowder. script. Qed.

(** C9. In every prepared state - both collaborators there, the registry
    within its array, the materials of the script defined, as
    [PrepareScene] leaves them - [RenderScene] returns, leaves the whole
    object (texture registry, material list, pointers) as it was, and makes
    a sequence of calls that is a function of that state alone: a second
    run, from the state and after the log the first one ends with, makes
    the very same sequence of calls and again leaves the object as it
    was. *)
Theorem RenderScene_repeats_itself this :
  prepared this ->
  exists calls,
    forall log,
      RenderScene this log = Ok (tt, this, log ++ calls) /\
      RenderScene this (log ++ calls) = Ok (tt, this, (log ++ calls) ++ calls) /\
      (RenderScene ;; RenderScene) this log
      = Ok (tt, this, (log ++ calls) ++ calls).
Proof.
  intros H.
  assert (Hq : quiet RenderScene this).
  { unfold RenderScene.
    apply quiet_bind; [apply quiet_RenderBackground; assumption |].
    apply quiet_bind; [apply quiet_RenderTable; assumption |].
    apply quiet_bind; [apply quiet_RenderDraughtLivingDeath; assumption |].
    apply quiet_bind; [apply quiet_RenderAmortentia; assumption |].
    apply quiet_bind; [apply quiet_RenderThunderbrew; assumption |].
    apply quiet_bind; [apply quiet_RenderFelix; assumption |].
    apply quiet_RenderFlooPowder; assumption. }
  destruct Hq as [calls Hcalls]. exists calls. intros log.
  split; [apply Hcalls | split; [apply Hcalls |]].
  rewrite (bind_ok _ _ _ _ _ _ _ (Hcalls log)). apply Hcalls.
Qed.
End SceneScript.

Lemma RenderScene_repeats_itself_witness :
  let E := Demo.environment Demo.all_files in
  let this := fst Demo.prepared_scene in
  prepared this /\
  exists calls,
    forall log,
      RenderScene this log = Ok (tt, this, log ++ calls) /\
      RenderScene this (log ++ calls) = Ok (tt, this, (log ++ calls) ++ calls) /\
      (RenderScene ;; RenderScene) this log
      = Ok (tt, this, (log ++ calls) ++ calls).
Proof.
  intros E this.
  assert (H : prepared this).
  { split; [reflexivity | split; [reflexivity | split]].
    - split; [reflexivity | split; discriminate].
    - intros t Ht. simpl in Ht.
      repeat (destruct Ht as [<- | Ht]; [discriminate |]). destruct Ht. }
  split; [exact H |].
  exact (RenderScene_repeats_itself (E := E) this H).
Defined.

(* ------------------------------------------------------------------------- *)
(** ** Scene preparation *)

Section Preparation.
Context {S : Scalar} {G : Glm} {E : Environment}.

(** What one [CreateGLTexture] does to an object whose array is in order,
    whenever it returns. *)
Lemma CreateGLTexture_step f t this log b this' log' :
  array_ok this ->
  CreateGLTexture f t this log = Ok (b, this', log') ->
  m_pShaderManager this' = m_pShaderManager this /\
  m_basicMeshes this' = m_basicMeshes this /\
  m_objectMaterials this' = m_objectMaterials this /\
  array_ok this' /\
  exists added,
    occupied this' = occupied this ++ added /\
    map tag added = if loads f then [t] else [].
Proof.
  intros Hok Hrun.
  destruct (CreateGLTexture_cases f t this log b this' log' Hok Hrun)
    as (Hb & Hfalse & Htrue).
  rewrite <- Hb. destruct b.
  - destruct (Htrue eq_refl) as (Hfree & id & ->).
    split; [reflexivity | split; [reflexivity | split; [reflexivity | split]]].
    + apply array_ok_with_new_texture; assumption.
    + exists [{| tag := t; ID := id |}].
      split; [apply occupied_with_new_texture; assumption | reflexivity].
  - rewrite (Hfalse eq_refl).
    split; [reflexivity | split; [reflexivity | split; [reflexivity | split]]].
    + exact Hok.
    + exists []. rewrite app_nil_r. split; reflexivity.
Qed.

Lemma load_all_effect table :
  forall this log this' log',
    array_ok this ->
    load_all table this log = Ok (tt, this', log') ->
    m_pShaderManager this' = m_pShaderManager this /\
    m_basicMeshes this' = m_basicMeshes this /\
    m_objectMaterials this' = m_objectMaterials this /\
    array_ok this' /\
    exists added,
      occupied this' = occupied this ++ added /\
      map tag added = loaded_tags table.
Proof.
  induction table as [| [f t] table IH]; intros this log this' log' Hok Hrun.
  - injection Hrun as <- <-.
    split; [reflexivity | split; [reflexivity | split; [reflexivity | split]]].
    + exact Hok.
    + exists []. rewrite app_nil_r. split; reflexivity.
  - simpl in Hrun. apply bind_inv in Hrun.
    destruct Hrun as (b & this1 & log1 & Hfirst & Hrest).
    destruct (CreateGLTexture_step f t this log b this1 log1 Hok Hfirst)
      as (Hp & Hm & Hmat & Hok1 & added1 & Hocc1 & Htags1).
    destruct (IH this1 log1 this' log' Hok1 Hrest)
      as (Hp' & Hm' & Hmat' & Hok' & added & Hocc & Htags).
    split; [congruence | split; [congruence | split; [congruence | split]]].
    + exact Hok'.
    + exists (added1 ++ added). split.
      * rewrite Hocc, Hocc1, <- app_assoc. reflexivity.
      * rewrite map_app, Htags1, Htags. reflexivity.
Qed.

(** [LoadSceneTextures] is [load_all] on its table, then
    [BindGLTextures]. *)
Lemma LoadSceneTextures_load_all this log :
  LoadSceneTextures this log
  = (load_all scene_textures ;; BindGLTextures) this log.
Proof.
  unfold LoadSceneTextures, scene_textures, load_all. cbv zeta.
  unfold bind.
  repeat match goal with
         | |- context [CreateGLTexture ?f ?t ?s ?l] =>
             destruct (CreateGLTexture f t s l) as [[[? ?] ?] | ? | ];
             try reflexivity
         end.
Qed.

Lemma occupied_length this :
  array_ok this ->
  List.length (occupied this) = Z.to_nat (m_loadedTextures this).
Proof.
  intros [Hlen Hc]. unfold occupied. rewrite length_firstn.
  unfold TEXTURE_SLOTS in *. lia.
Qed.

Lemma LoadSceneTextures_effect this log this' log' :
  array_ok this ->
  LoadSceneTextures this log = Ok (tt, this', log') ->
  m_pShaderManager this' = m_pShaderManager this /\
  m_basicMeshes this' = m_basicMeshes this /\
  m_objectMaterials this' = m_objectMaterials this /\
  array_ok this' /\
  exists added,
    occupied this' = occupied this ++ added /\
    map tag added = loaded_tags scene_textures.
Proof.
  intros Hok Hrun. rewrite LoadSceneTextures_load_all in Hrun.
  apply bind_inv in Hrun. destruct Hrun as ([] & this1 & log1 & Hload & Hbind).
  destruct (load_all_effect _ _ _ _ _ Hok Hload) as (Hp & Hm & Hmat & Hok1 & Hadd).
  rewrite (BindGLTextures_emits this1 Hok1 log1) in Hbind.
  injection Hbind as <- <-.
  split; [exact Hp | split; [exact Hm | split; [exact Hmat | split]]];
    assumption.
Qed.

Lemma DefineObjectMaterials_ok this log :
  DefineObjectMaterials this log
  = Ok (tt, Build_SceneManager (m_pShaderManager this) (m_basicMeshes this)
              (m_textureIDs this) (m_loadedTextures this)
              (m_objectMaterials this ++ scene_materials), log).
Proof.
  unfold DefineObjectMaterials, scene_materials, push_back_material, bind,
    get_this, set_this.
  cbn [m_pShaderManager m_basicMeshes m_textureIDs m_loadedTextures
       m_objectMaterials raw_SceneManager app].
  rewrite <- !app_assoc. reflexivity.
Qed.

Lemma SetupSceneLights_NULL this log :
  m_pShaderManager this = NULL ->
  (SetupSceneLights ;; meshes LoadPlaneMesh ;; meshes LoadCylinderMesh ;;
   meshes LoadTaperedCylinderMesh ;; meshes LoadTorusMesh ;;
   meshes LoadSphereMesh ;; meshes LoadBoxMesh) this log
  = Undefined NullPointerDereference.
Proof.
  intros H. unfold SetupSceneLights, shader, bind, get_this.
  rewrite H. reflexivity.
Qed.

Lemma quiet_shader c this : m_pShaderManager this = object -> quiet (shader c) this.
Proof. intros H. eexists. apply emits_shader. exact H. Qed.

Lemma quiet_SetupSceneLights this :
  m_pShaderManager this = object -> quiet SetupSceneLights this.
Proof.
  intros H. unfold SetupSceneLights.
  repeat (apply quiet_bind; [apply quiet_shader; assumption |]).
  apply quiet_shader. assumption.
Qed.

Lemma meshes_NULL c (k : M unit) this log :
  m_basicMeshes this = NULL ->
  (meshes c ;; k) this log = Undefined NullPointerDereference.
Proof.
  intros H. unfold meshes, bind, get_this. rewrite H. reflexivity.
Qed.

(** Behind whatever list, the scene materials define every tag of the
    script. *)
Lemma scene_materials_defined l t :
  In t script_material_tags ->
  first_material t (l ++ scene_materials) <> None.
Proof.
  intros Ht. destruct (first_material t l) as [m |] eqn:Hl.
  - rewrite (first_material_app_left t l scene_materials m Hl). discriminate.
  - rewrite (first_material_app_right t l scene_materials Hl).
    simpl in Ht.
    repeat (destruct Ht as [<- | Ht]; [discriminate |]). destruct Ht.
Qed.

(** What a run of [PrepareScene] that returns has done: both
    collaborators were there, the seven scene materials are appended, and
    the tags of the textures that load are registered behind the occupied
    slots. *)
Lemma PrepareScene_effect this log this' log' :
  array_ok this ->
  PrepareScene this log = Ok (tt, this', log') ->
  m_pShaderManager this = object /\ m_basicMeshes this = object /\
  prepared this' /\
  m_objectMaterials this' = m_objectMaterials this ++ scene_materials /\
  exists added,
    occupied this' = occupied this ++ added /\
    map tag added = loaded_tags scene_textures.
Proof.
  intros Hok Hrun. unfold PrepareScene in Hrun.
  apply bind_inv in Hrun. destruct Hrun as ([] & this1 & log1 & Hload & Hrun).
  destruct (LoadSceneTextures_effect _ _ _ _ Hok Hload)
    as (Hp & Hm & Hmat & Hok1 & Htags).
  rewrite (bind_ok _ _ _ _ _ _ _ (DefineObjectMaterials_ok this1 log1)) in Hrun.
  set (this2 := Build_SceneManager _ _ _ _ _) in Hrun.
  destruct (m_pShaderManager this) eqn:Hshader.
  { rewrite SetupSceneLights_NULL in Hrun by (simpl; congruence).
    discriminate. }
  assert (Hp2 : m_pShaderManager this2 = object) by (simpl; congruence).
  destruct (quiet_SetupSceneLights this2 Hp2) as [lights Hlights].
  rewrite (bind_ok _ _ _ _ _ _ _ (Hlights log1)) in Hrun.
  destruct (m_basicMeshes this) eqn:Hmeshes.
  { rewrite meshes_NULL in Hrun by (simpl; congruence). discriminate. }
  assert (Hm2 : m_basicMeshes this2 = object) by (simpl; congruence).
  assert (Hrest : emits (meshes LoadPlaneMesh ;; meshes LoadCylinderMesh ;;
                         meshes LoadTaperedCylinderMesh ;; meshes LoadTorusMesh ;;
                         meshes LoadSphereMesh ;; meshes LoadBoxMesh) this2
                        [Mesh LoadPlaneMesh; Mesh LoadCylinderMesh;
                         Mesh LoadTaperedCylinderMesh; Mesh LoadTorusMesh;
                         Mesh LoadSphereMesh; Mesh LoadBoxMesh]).
  { repeat (apply (emits_bind _ _ _ [_]); [apply emits_meshes; exact Hm2 |]).
    apply emits_meshes. exact Hm2. }
  rewrite Hrest in Hrun. injection Hrun as <- <-.
  assert (Hmat2 : m_objectMaterials this2
                  = m_objectMaterials this ++ scene_materials)
    by (simpl; rewrite Hmat; reflexivity).
  split; [reflexivity | split; [reflexivity | split; [| split]]].
  - split; [exact Hp2 | split; [exact Hm2 | split; [exact Hok1 |]]].
    intros t Ht. rewrite Hmat2. apply scene_materials_defined. exact Ht.
  - exact Hmat2.
  - exact Htags.
Qed.
End Preparation.

(* ------------------------------------------------------------------------- *)
(** ** The registry invariant and repeated preparation *)

Section Invariant.
Context {S : Scalar} {G : Glm} {E : Environment}.

(** C4, as the code has it.  The registry invariant - tags unique among the
    occupied slots, occupied count at most 16, all within the sixteen-entry
    array - is kept by [CreateGLTexture] whenever a slot is free
    ([m_loadedTextures < 16]) and the tag is not registered yet: the call
    returns, a successful one adds one occupied slot, a failed one changes
    nothing.  The lookups and [BindGLTextures] leave the object as it is,
    and [DestroyGLTextures] keeps the invariant. *)
Theorem registry_invariant_preserved this log :
  registry_invariant this ->
  (forall f t,
      m_loadedTextures this < TEXTURE_SLOTS -> ~ registered this t ->
      exists b this' log',
        CreateGLTexture f t this log = Ok (b, this', log') /\
        registry_invariant this' /\
        m_loadedTextures this' = m_loadedTextures this + int_of_bool b /\
        (b = false -> this' = this)) /\
  (forall t, exists r, FindTextureID t this log = Ok (r, this, log)) /\
  (forall t, exists r, FindTextureSlot t this log = Ok (r, this, log)) /\
  (exists calls, BindGLTextures this log = Ok (tt, this, log ++ calls)) /\
  (exists this' log',
      DestroyGLTextures this log = Ok (tt, this', log') /\
      registry_invariant this').
Proof.
  intros Hinv. pose proof (proj1 Hinv) as Hok. pose proof (proj2 Hok) as Hc.
  split; [| split; [| split; [| split]]].
  - intros f t Hfree Hfresh. destruct (loads f) eqn:Hl.
    + destruct (CreateGLTexture_success f t this log Hl Hok Hfree)
        as (id & log' & Hrun).
      exists true, (with_new_texture this {| tag := t; ID := id |}), log'.
      repeat split; try discriminate; try exact Hrun.
      * apply array_ok_with_new_texture; assumption.
      * apply array_ok_with_new_texture; assumption.
      * apply array_ok_with_new_texture; assumption.
      * apply registry_invariant_with_new_texture; assumption.
    + destruct (CreateGLTexture_failure f t this log Hl) as (log' & Hrun).
      exists false, this, log'.
      repeat split; try apply Hinv; try exact Hrun. simpl. lia.
  - intros t. eexists. apply FindTextureID_scan. exact Hc.
  - intros t. eexists. apply FindTextureSlot_scan. exact Hc.
  - eexists. apply BindGLTextures_emits. exact Hok.
  - destruct (DestroyGLTextures_spec this log Hok)
      as (this' & names & Hrun & _ & Hsame).
    exists this'. eexists. split; [exact Hrun |].
    apply (registry_invariant_same_but_handles this this' Hsame Hinv).
Qed.
End Invariant.

Lemma two_textures_invariant : registry_invariant (fst Demo.two_textures).
Proof.
  split; [split; [reflexivity | split; discriminate] |].
  repeat (constructor; [simpl; intuition discriminate |]). constructor.
Qed.

Lemma registry_invariant_preserved_witness :
  let E := Demo.environment Demo.few_files in
  let this := fst Demo.two_textures in
  registry_invariant this /\
  m_loadedTextures this < TEXTURE_SLOTS /\
  ~ registered this "lucky-potion" /\
  exists b this' log',
    CreateGLTexture "textures/felix.jpg" "lucky-potion" this [] =
    Ok (b, this', log') /\
    registry_invariant this' /\
    m_loadedTextures this' = m_loadedTextures this + int_of_bool b /\
    (b = false -> this' = this).
Proof.
  intros E this.
  assert (Hfresh : ~ registered this "lucky-potion").
  { intros (i & Hi & Ht).
    assert (i = 0 \/ i = 1) as [-> | ->]
        by (change (m_loadedTextures this) with 2 in Hi; lia);
      discriminate. }
  split; [exact two_textures_invariant |].
  split; [reflexivity |].
  split; [exact Hfresh |].
  exact (proj1 (registry_invariant_preserved (E := E) this []
                  two_textures_invariant)
               "textures/felix.jpg" "lucky-potion" eq_refl Hfresh).
Defined.

(** C4, as stated, fails twice over.  With all sixteen slots occupied (and
    the invariant in force) a [CreateGLTexture] whose file loads writes
    [m_textureIDs[16]], outside the array; and a successful
    [CreateGLTexture] under a tag that is registered already leaves two
    occupied slots with the same tag. *)
Lemma registry_invariant_not_preserved :
  let E := Demo.environment Demo.few_files in
  (registry_invariant Demo.full_registry /\
   CreateGLTexture "textures/cork.jpg" "cork" Demo.full_registry []
   = Undefined ArrayIndexOutOfBounds) /\
  (registry_invariant (fst Demo.two_textures) /\
   exists this' log',
     CreateGLTexture "textures/cork.jpg" "bottle-cork" (fst Demo.two_textures) []
     = Ok (true, this', log') /\
     map tag (occupied this') = ["bottle-cork"; "black-twine"; "bottle-cork"] /\
     ~ registry_invariant this').
Proof.
  intros E. split; split.
  - split; [split; [reflexivity | split; discriminate] |].
    repeat (constructor; [simpl; intuition discriminate |]). constructor.
  - reflexivity.
  - exact two_textures_invariant.
  - eexists. eexists. split; [vm_compute; reflexivity |].
    split; [reflexivity |].
    intros [_ Hdup]. inversion Hdup as [| x l Hnotin _]. subst.
    apply Hnotin. right. left. reflexivity.
Qed.

Section Repetition.
Context {S : Scalar} {G : Glm} {E : Environment}.

(** The constructor returns, with both collaborators set, every slot
    blanked ("/0", handle -1 as an unsigned integer), no texture counted
    and no material. *)
Lemma SceneManager_ctor_ok pShaderManager log :
  SceneManager_ctor pShaderManager raw_SceneManager log
  = Ok (tt,
        Build_SceneManager pShaderManager object
          (repeat {| tag := "/0"; ID := 4294967295 |} 16) 0 [],
        log ++ [Mesh new_ShapeMeshes]).
Proof. reflexivity. Qed.

(** The scan of the array is the search of the list of occupied tags. *)
Lemma scan_tags this t :
  forall tags k,
    (forall j, (j < List.length tags)%nat ->
               tag (entry this (k + Z.of_nat j)) = nth j tags "") ->
    scan this t (List.length tags) k = index_of t tags k.
Proof.
  induction tags as [| t' tags IH]; intros k Hk; simpl; [reflexivity |].
  pose proof (Hk O ltac:(simpl; lia)) as H0. simpl in H0.
  rewrite Z.add_0_r in H0. rewrite H0.
  destruct (t' =? t)%string; [reflexivity |].
  apply IH. intros j Hj.
  replace (k + 1 + Z.of_nat j) with (k + Z.of_nat (Datatypes.S j)) by lia.
  apply (Hk (Datatypes.S j)). simpl. lia.
Qed.

Lemma scan_occupied this t :
  array_ok this ->
  scan this t (Z.to_nat (m_loadedTextures this)) 0
  = index_of t (map tag (occupied this)) 0.
Proof.
  intros Hok.
  rewrite <- (occupied_length this Hok), <- (length_map tag).
  apply scan_tags. intros j Hj. rewrite length_map in Hj.
  rewrite (occupied_length this Hok) in Hj.
  change "" with (tag blank_TEXTURE_INFO). rewrite map_nth.
  pose proof (entry_occupied this (Z.of_nat j) Hok ltac:(lia)) as He.
  rewrite Nat2Z.id in He. rewrite He, Z.add_0_l. reflexivity.
Qed.

Lemma index_of_none_shift t tags k k' :
  index_of t tags k = None -> index_of t tags k' = None.
Proof.
  revert k k'. induction tags as [| t' tags IH]; intros k k'; simpl;
    [reflexivity |].
  destruct (t' =? t)%string; [discriminate | apply IH].
Qed.

Lemma index_of_app t tags tags' k :
  index_of t (tags ++ tags') k =
  match index_of t tags k with
  | Some i => Some i
  | None => index_of t tags' (k + Z.of_nat (List.length tags))
  end.
Proof.
  revert k. induction tags as [| t' tags IH]; intros k; simpl.
  - rewrite Z.add_0_r. reflexivity.
  - destruct (t' =? t)%string; [reflexivity |].
    rewrite IH. destruct (index_of t tags (k + 1)); [reflexivity |].
    f_equal. lia.
Qed.

Lemma index_of_twice t tags k :
  index_of t (tags ++ tags) k = index_of t tags k.
Proof.
  rewrite index_of_app. destruct (index_of t tags k) eqn:H; [reflexivity |].
  apply (index_of_none_shift _ _ _ _ H).
Qed.

Lemma index_of_bound t tags :
  forall k i, index_of t tags k = Some i ->
              k <= i < k + Z.of_nat (List.length tags).
Proof.
  induction tags as [| t' tags IH]; intros k i; simpl; [discriminate |].
  destruct (t' =? t)%string.
  - intros [= <-]. lia.
  - intros H. apply IH in H. lia.
Qed.

(** Slots that stay occupied by the same entries hold the same entries. *)
Lemma entry_kept this this' added i :
  array_ok this -> array_ok this' ->
  occupied this' = occupied this ++ added ->
  0 <= i < m_loadedTextures this ->
  entry this' i = entry this i.
Proof.
  intros Hok Hok' Hocc Hi.
  assert (Hlen : List.length (occupied this') =
                 (List.length (occupied this) + List.length added)%nat)
    by (rewrite Hocc; apply length_app).
  rewrite !occupied_length in Hlen by assumption.
  rewrite <- (entry_occupied this' i Hok') by lia.
  rewrite <- (entry_occupied this i Hok) by lia.
  rewrite Hocc. apply app_nth1. rewrite occupied_length by assumption. lia.
Qed.

(** C3, as the code has it.  [PrepareScene] is not idempotent.  From the
    state the constructor leaves, a second run that returns has appended
    the seven scene materials once more and registered once more every
    texture that loads: the material list and the occupied tags are those
    of the first run twice over, and [m_loadedTextures] has doubled.  What
    the second run leaves as it was are the answers of the lookups:
    [FindMaterial], [FindTextureSlot] and [FindTextureID] return for every
    tag what they returned after the first run. *)
Theorem PrepareScene_twice pShaderManager log0 this log this1 log1 this2 log2 :
  SceneManager_ctor pShaderManager raw_SceneManager log0 = Ok (tt, this, log) ->
  PrepareScene this log = Ok (tt, this1, log1) ->
  PrepareScene this1 log1 = Ok (tt, this2, log2) ->
  m_objectMaterials this1 = scene_materials /\
  m_objectMaterials this2 = scene_materials ++ scene_materials /\
  List.length (m_objectMaterials this1) = 7%nat /\
  List.length (m_objectMaterials this2) = 14%nat /\
  map tag (occupied this1) = loaded_tags scene_textures /\
  map tag (occupied this2)
  = loaded_tags scene_textures ++ loaded_tags scene_textures /\
  m_loadedTextures this2 = 2 * m_loadedTextures this1 /\
  (forall t material log',
      exists r, FindMaterial t material this1 log' = Ok (r, this1, log') /\
                FindMaterial t material this2 log' = Ok (r, this2, log')) /\
  (forall t log',
      exists r, FindTextureSlot t this1 log' = Ok (r, this1, log') /\
                FindTextureSlot t this2 log' = Ok (r, this2, log')) /\
  (forall t log',
      exists r, FindTextureID t this1 log' = Ok (r, this1, log') /\
                FindTextureID t this2 log' = Ok (r, this2, log')).
Proof.
  rewrite SceneManager_ctor_ok. intros [= <- <-] Hrun1 Hrun2.
  match type of Hrun1 with
  | PrepareScene ?s _ = _ =>
      assert (Hok : array_ok s) by (split; [reflexivity | split; discriminate])
  end.
  destruct (PrepareScene_effect _ _ _ _ Hok Hrun1)
    as (_ & _ & Hprep1 & Hmat1 & added1 & Hocc1 & Hadded1).
  pose proof (proj1 (proj2 (proj2 Hprep1))) as Hok1.
  destruct (PrepareScene_effect _ _ _ _ Hok1 Hrun2)
    as (_ & _ & Hprep2 & Hmat2 & added2 & Hocc2 & Hadded2).
  pose proof (proj1 (proj2 (proj2 Hprep2))) as Hok2.
  set (L := loaded_tags scene_textures) in *.
  set (M7 := scene_materials) in *.
  simpl in Hmat1, Hocc1. rewrite Hmat1 in Hmat2.
  assert (Htags1 : map tag (occupied this1) = L) by (rewrite Hocc1; exact Hadded1).
  assert (Htags2 : map tag (occupied this2) = L ++ L)
    by (rewrite Hocc2, map_app, Htags1, Hadded2; reflexivity).
  assert (Hcount : forall s, array_ok s ->
                             m_loadedTextures s
                             = Z.of_nat (List.length (map tag (occupied s)))).
  { intros s Hs. rewrite length_map, occupied_length by assumption.
    destruct Hs as [_ Hs]. lia. }
  split; [exact Hmat1 |].
  split; [exact Hmat2 |].
  split; [rewrite Hmat1; reflexivity |].
  split; [rewrite Hmat2; reflexivity |].
  split; [exact Htags1 |].
  split; [exact Htags2 |].
  split; [| split; [| split]].
  - rewrite (Hcount this2 Hok2), (Hcount this1 Hok1), Htags2, Htags1.
    rewrite length_app. lia.
  - intros t material log'. rewrite !FindMaterial_spec, Hmat1, Hmat2.
    rewrite first_material_twice. eexists. split; reflexivity.
  - intros t log'.
    rewrite !FindTextureSlot_scan by (apply Hok1 || apply Hok2).
    rewrite (scan_occupied this1 t Hok1), (scan_occupied this2 t Hok2).
    rewrite Htags1, Htags2, index_of_twice. eexists. split; reflexivity.
  - intros t log'.
    rewrite !FindTextureID_scan by (apply Hok1 || apply Hok2).
    rewrite (scan_occupied this1 t Hok1), (scan_occupied this2 t Hok2).
    rewrite Htags1, Htags2, index_of_twice.
    destruct (index_of t L 0) as [i |] eqn:Hi;
      [| eexists; split; reflexivity].
    apply index_of_bound in Hi.
    rewrite (entry_kept this1 this2 added2 i Hok1 Hok2 Hocc2)
      by (rewrite (Hcount this1 Hok1), Htags1; lia).
    eexists. split; reflexivity.
Qed.
End Repetition.

Lemma PrepareScene_twice_witness :
  let E := Demo.environment Demo.few_files in
  let this1 := fst Demo.prepared_once in
  let this2 := fst Demo.prepared_twice in
  SceneManager_ctor object raw_SceneManager []
  = Ok (tt, fst Demo.constructed, snd Demo.constructed) /\
  PrepareScene (fst Demo.constructed) (snd Demo.constructed)
  = Ok (tt, this1, snd Demo.prepared_once) /\
  PrepareScene this1 (snd Demo.prepared_once)
  = Ok (tt, this2, snd Demo.prepared_twice) /\
  List.length (m_objectMaterials this2) = 14%nat /\
  m_loadedTextures this2 = 2 * m_loadedTextures this1 /\
  (forall t log',
      exists r, FindTextureSlot t this1 log' = Ok (r, this1, log') /\
                FindTextureSlot t this2 log' = Ok (r, this2, log')).
Proof.
  intros E this1 this2.
  assert (H0 : SceneManager_ctor object raw_SceneManager []
               = Ok (tt, fst Demo.constructed, snd Demo.constructed))
    by reflexivity.
  assert (H1 : PrepareScene (fst Demo.constructed) (snd Demo.constructed)
               = Ok (tt, this1, snd Demo.prepared_once))
    by (vm_compute; reflexivity).
  assert (H2 : PrepareScene this1 (snd Demo.prepared_once)
               = Ok (tt, this2, snd Demo.prepared_twice))
    by (vm_compute; reflexivity).
  pose proof (PrepareScene_twice (E := E) object [] _ _ _ _ _ _ H0 H1 H2)
    as (_ & _ & _ & Hlen & _ & _ & Hcount & _ & Hslot & _).
  repeat split; assumption.
Defined.

(** C3, as stated, fails.  With three of the textures on disk, a second
    [PrepareScene] leaves six occupied slots where the first left three and
    fourteen materials where it left seven; with all nine on disk the
    second run registers its eighth texture in [m_textureIDs[16]], outside
    the array. *)
Lemma PrepareScene_not_idempotent :
  (let E := Demo.environment Demo.few_files in
   exists this1 log1 this2 log2,
     PrepareScene (fst Demo.constructed) (snd Demo.constructed)
     = Ok (tt, this1, log1) /\
     (PrepareScene ;; PrepareScene) (fst Demo.constructed) (snd Demo.constructed)
     = Ok (tt, this2, log2) /\
     m_loadedTextures this1 = 3 /\ m_loadedTextures this2 = 6 /\
     List.length (m_objectMaterials this1) = 7%nat /\
     List.length (m_objectMaterials this2) = 14%nat /\
     this2 <> this1) /\
  (let E := Demo.environment Demo.all_files in
   (PrepareScene ;; PrepareScene) (fst Demo.constructed) (snd Demo.constructed)
   = Undefined ArrayIndexOutOfBounds).
Proof.
  split.
  - intros E.
    exists (fst Demo.prepared_once), (snd Demo.prepared_once),
           (fst Demo.prepared_twice), (snd Demo.prepared_twice).
    split; [vm_compute; reflexivity |].
    split; [vm_compute; reflexivity |].
    repeat split. intros H.
    apply (f_equal m_loadedTextures) in H. discriminate H.
  - vm_compute. reflexivity.
Qed.

(* ------------------------------------------------------------------------- *)
(** ** Further properties: registering and looking up textures *)

Section RegistrationProperties.
Context {S : Scalar} {G : Glm} {E : Environment}.

Lemma FindTextureSlot_tags this log t :
  array_ok this ->
  FindTextureSlot t this log =
  Ok (match index_of t (map tag (occupied this)) 0 with
      | Some i => i
      | None => -1
      end, this, log).
Proof.
  intros Hok. rewrite FindTextureSlot_scan by apply Hok.
  rewrite (scan_occupied this t Hok). reflexivity.
Qed.

Lemma FindTextureID_tags this log t :
  array_ok this ->
  FindTextureID t this log =
  Ok (match index_of t (map tag (occupied this)) 0 with
      | Some i => to_int (ID (entry this i))
      | None => -1
      end, this, log).
Proof.
  intros Hok. rewrite FindTextureID_scan by apply Hok.
  rewrite (scan_occupied this t Hok). reflexivity.
Qed.


Lemma index_of_first this t i :
  array_ok this -> first_registered_at this t i ->
  index_of t (map tag (occupied this)) 0 = Some i.
Proof.
  intros Hok Hi. rewrite <- (scan_occupied this t Hok).
  apply scan_first. exact Hi.
Qed.



Lemma entry_new_texture this e :
  array_ok this -> m_loadedTextures this < TEXTURE_SLOTS ->
  entry (with_new_texture this e) (m_loadedTextures this) = e.
Proof.
  intros [Hlen Hc] Hfree. unfold entry, with_new_texture.
  cbn [m_textureIDs]. apply nth_list_set_eq.
  unfold TEXTURE_SLOTS in *. lia.
Qed.

(** A successful [CreateGLTexture], call by call. *)
Lemma CreateGLTexture_success_calls f t this log image :
  stbi_load f = Some image -> loads f = true ->
  array_ok this -> m_loadedTextures this < TEXTURE_SLOTS ->
  CreateGLTexture f t this log =
  Ok (true,
      with_new_texture this {| tag := t; ID := generated_name f image log |},
      log ++ upload_prefix f image (generated_name f image log)
          ++ [ GL (glTexImage2D GL_TEXTURE_2D 0
                     (if colorChannels image =? 3 then GL_RGB8 else GL_RGBA8)
                     (width image) (height image) 0
                     (if colorChannels image =? 3 then GL_RGB else GL_RGBA)
                     GL_UNSIGNED_BYTE image);
               GL (glGenerateMipmap GL_TEXTURE_2D);
               Stbi (stbi_image_free image);
               GL (glBindTexture GL_TEXTURE_2D 0) ]).
Proof.
  intros Himg Hl Hok Hfree. unfold loads in Hl. rewrite Himg in Hl.
  unfold CreateGLTexture.
  cbv [bind call ret get_log stbi_load_ glGenTextures_1].
  rewrite Himg. cbv zeta.
  destruct (colorChannels image =? 3).
  - etransitivity; [refine (register_ok _ _ _ _ Hok Hfree) |].
    unfold generated_name, upload_prefix.
    rewrite <- !app_assoc. reflexivity.
  - simpl in Hl. rewrite Hl.
    etransitivity; [refine (register_ok _ _ _ _ Hok Hfree) |].
    unfold generated_name, upload_prefix.
    rewrite <- !app_assoc. reflexivity.
Qed.


(** X3. A tag registered again stays shadowed.  When the tag is registered
    already, a successful [CreateGLTexture] under that tag occupies one
    more slot, which carries the tag and the new name, and yet both
    lookups keep answering the slot and the handle of the first
    registration. *)
Theorem CreateGLTexture_duplicate_is_shadowed f t image this log i :
  array_ok this -> m_loadedTextures this < TEXTURE_SLOTS ->
  stbi_load f = Some image -> loads f = true ->
  first_registered_at this t i ->
  exists this' log',
    CreateGLTexture f t this log = Ok (true, this', log') /\
    m_loadedTextures this' = m_loadedTextures this + 1 /\
    entry this' (m_loadedTextures this)
    = {| tag := t; ID := generated_name f image log |} /\
    forall log2,
      FindTextureSlot t this' log2 = Ok (i, this', log2) /\
      FindTextureID t this' log2 = Ok (to_int (ID (entry this i)), this', log2).
Proof.
  intros Hok Hfree Himg Hl Hfirst.
  set (e := {| tag := t; ID := generated_name f image log |}).
  pose proof (array_ok_with_new_texture this e Hok Hfree) as Hok'.
  pose proof (occupied_with_new_texture this e Hok Hfree) as Hocc.
  eexists. eexists.
  split; [apply (CreateGLTexture_success_calls f t this log image); assumption |].
  fold e. split; [reflexivity | split].
  - apply entry_new_texture; assumption.
  - intros log2.
    rewrite FindTextureSlot_tags, FindTextureID_tags by assumption.
    rewrite Hocc, map_app, index_of_app.
    rewrite (index_of_first this t i Hok Hfirst).
    rewrite (entry_kept this (with_new_texture this e) [e] i Hok Hok' Hocc)
      by apply Hfirst.
    split; reflexivity.
Qed.

(** X4. The capacity is not checked.  With the registry within its array,
    [CreateGLTexture] returns normally exactly when the file does not load
    or a slot is free; with all sixteen slots occupied, a file that loads
    makes it write outside the array. *)
Theorem CreateGLTexture_defined_iff_room f t this log :
  array_ok this ->
  ((exists b this' log', CreateGLTexture f t this log = Ok (b, this', log'))
   <-> (loads f = false \/ m_loadedTextures this < TEXTURE_SLOTS)) /\
  (loads f = true -> m_loadedTextures this = TEXTURE_SLOTS ->
   CreateGLTexture f t this log = Undefined ArrayIndexOutOfBounds).
Proof.
  intros Hok. split; [split |].
  - intros (b & this' & log' & Hrun).
    destruct (loads f) eqn:Hl; [right | left; reflexivity].
    destruct (CreateGLTexture_cases f t this log b this' log' Hok Hrun)
      as (Hb & _ & Htrue).
    apply Htrue. congruence.
  - intros [Hl | Hfree].
    + destruct (CreateGLTexture_failure f t this log Hl) as (log' & Hrun).
      eexists. eexists. eexists. exact Hrun.
    + destruct (loads f) eqn:Hl.
      * destruct (CreateGLTexture_success f t this log Hl Hok Hfree)
          as (id & log' & Hrun).
        eexists. eexists. eexists. exact Hrun.
      * destruct (CreateGLTexture_failure f t this log Hl) as (log' & Hrun).
        eexists. eexists. eexists. exact Hrun.
  - intros Hl Hfull. apply CreateGLTexture_overflow; [exact Hl | lia].
Qed.

(** X5. What a failed load costs.  A file that does not decode costs no
    OpenGL call at all.  A file that decodes with a channel count other
    than 3 or 4 has by then been given a texture name, which is bound and
    configured: the function returns false without registering that name,
    without binding texture 0 again and without freeing the pixel
    buffer. *)
Theorem CreateGLTexture_failure_calls f t this log :
  (stbi_load f = None ->
   CreateGLTexture f t this log =
   Ok (false, this,
       log ++ [ Stbi (stbi_set_flip_vertically_on_load true);
                Stbi (stbi_load_file f);
                Cout (cout_could_not_load f) ])) /\
  (forall image,
      stbi_load f = Some image ->
      colorChannels image <> 3 -> colorChannels image <> 4 ->
      CreateGLTexture f t this log =
      Ok (false, this,
          log ++ upload_prefix f image (generated_name f image log)
              ++ [ Cout (cout_not_implemented (colorChannels image)) ])).
Proof.
  split.
  - intros Himg. unfold CreateGLTexture.
    cbv [bind call ret get_log stbi_load_ glGenTextures_1].
    rewrite Himg. rewrite <- !app_assoc. reflexivity.
  - intros image Himg H3 H4. unfold CreateGLTexture.
    cbv [bind call ret get_log stbi_load_ glGenTextures_1].
    rewrite Himg. cbv zeta.
    apply Z.eqb_neq in H3. apply Z.eqb_neq in H4. rewrite H3, H4.
    unfold generated_name, upload_prefix. rewrite <- !app_assoc. reflexivity.
Qed.
End RegistrationProperties.


Lemma CreateGLTexture_duplicate_is_shadowed_witness :
  let E := Demo.environment Demo.few_files in
  let this := fst Demo.two_textures in
  let log := snd Demo.two_textures in
  (array_ok this /\ m_loadedTextures this < TEXTURE_SLOTS /\
   stbi_load "textures/cork.jpg" = Some Demo.rgb /\
   loads "textures/cork.jpg" = true /\
   first_registered_at this "bottle-cork" 0) /\
  exists this' log',
    CreateGLTexture "textures/cork.jpg" "bottle-cork" this log
    = Ok (true, this', log') /\
    entry this' 2 = {| tag := "bottle-cork"; ID := 3 |} /\
    FindTextureSlot "bottle-cork" this' [] = Ok (0, this', []) /\
    FindTextureID "bottle-cork" this' [] = Ok (1, this', []).
Proof.
  intros E this log.
  assert (Hok : array_ok this) by (split; [reflexivity | split; discriminate]).
  assert (Hfirst : first_registered_at this "bottle-cork" 0).
  { split; [split; [discriminate | reflexivity] |].
    split; [reflexivity | intros j Hj; lia]. }
  split; [repeat split; try reflexivity; try discriminate; apply Hfirst |].
  destruct (CreateGLTexture_duplicate_is_shadowed (E := E) "textures/cork.jpg"
              "bottle-cork" Demo.rgb this log 0 Hok eq_refl eq_refl eq_refl
              Hfirst)
    as (this' & log' & Hrun & _ & Hentry & Hlookup).
  exists this', log'. split; [exact Hrun |].
  split; [exact Hentry |].
  destruct (Hlookup []) as [Hslot Hid]. split; [exact Hslot | exact Hid].
Defined.

Lemma CreateGLTexture_defined_iff_room_witness :
  let E := Demo.environment Demo.few_files in
  array_ok Demo.full_registry /\
  loads "textures/cork.jpg" = true /\
  m_loadedTextures Demo.full_registry = TEXTURE_SLOTS /\
  CreateGLTexture "textures/cork.jpg" "cork" Demo.full_registry []
  = Undefined ArrayIndexOutOfBounds.
Proof.
  intros E.
  assert (Hok : array_ok Demo.full_registry)
    by (split; [reflexivity | split; discriminate]).
  split; [exact Hok | split; [reflexivity | split; [reflexivity |]]].
  exact (proj2 (CreateGLTexture_defined_iff_room (E := E) "textures/cork.jpg"
                  "cork" Demo.full_registry [] Hok) eq_refl eq_refl).
Defined.

Lemma CreateGLTexture_failure_calls_witness :
  let E := Demo.environment Demo.few_files in
  let this := fst Demo.two_textures in
  (stbi_load "textures/table.jpg" = None /\
   filter is_GL
     (snd (Demo.final (CreateGLTexture "textures/table.jpg" "table" this [])))
   = []) /\
  (stbi_load "textures/wall.jpg" = Some Demo.grayscale /\
   CreateGLTexture "textures/wall.jpg" "background" this []
   = Ok (false, this,
         upload_prefix "textures/wall.jpg" Demo.grayscale 1
           ++ [Cout (cout_not_implemented 1)])).
Proof.
  intros E this.
  pose proof (CreateGLTexture_failure_calls (E := E) "textures/table.jpg"
                "table" this []) as [Hnone _].
  pose proof (CreateGLTexture_failure_calls (E := E) "textures/wall.jpg"
                "background" this []) as [_ Hgray].
  split; split.
  - reflexivity.
  - rewrite (Hnone eq_refl). reflexivity.
  - reflexivity.
  - apply (Hgray Demo.grayscale eq_refl); discriminate.
Defined.

(* ------------------------------------------------------------------------- *)
(** ** Further properties: construction, teardown, lookups and dispatch *)

Section ObjectProperties.
Context {S : Scalar} {G : Glm} {E : Environment}.

(** X1. The constructor, whatever shader manager it is given (NULL
    included), builds the mesh provider and an empty registry: the
    invariant holds, no texture is counted, no material is defined, every
    slot holds the tag "/0" with the handle 0xFFFFFFFF, and every lookup -
    also of the tag "/0" itself - answers -1. *)
Theorem constructor_builds_empty_registry pShaderManager log :
  exists this,
    SceneManager_ctor pShaderManager raw_SceneManager log
    = Ok (tt, this, log ++ [Mesh new_ShapeMeshes]) /\
    m_pShaderManager this = pShaderManager /\
    m_basicMeshes this = object /\
    registry_invariant this /\
    m_loadedTextures this = 0 /\
    m_objectMaterials this = [] /\
    (forall i, 0 <= i < TEXTURE_SLOTS ->
               entry this i = {| tag := "/0"; ID := 4294967295 |}) /\
    (forall t log',
        FindTextureSlot t this log' = Ok (-1, this, log') /\
        FindTextureID t this log' = Ok (-1, this, log')).
Proof.
  eexists. split; [apply SceneManager_ctor_ok |].
  split; [reflexivity | split; [reflexivity | split; [| split; [| split]]]].
  - split; [split; [reflexivity | split; discriminate] | constructor].
  - reflexivity.
  - reflexivity.
  - split.
    + intros i Hi. unfold entry. cbn [m_textureIDs].
      rewrite (nth_indep _ blank_TEXTURE_INFO {| tag := "/0"; ID := 4294967295 |})
        by (rewrite repeat_length; unfold TEXTURE_SLOTS in Hi; lia).
      apply nth_repeat.
    + intros t log'.
      rewrite FindTextureSlot_scan, FindTextureID_scan
        by (cbn [m_loadedTextures]; unfold TEXTURE_SLOTS; lia).
      split; reflexivity.
Qed.




Lemma consecutive_split a b :
  forall lo,
    consecutive lo (a + Datatypes.S b) =
    consecutive lo a ++ (lo + Z.of_nat a)
                :: consecutive (lo + Z.of_nat a + 1) b.
Proof.
  induction a as [| a IH]; intros lo.
  - simpl. rewrite Z.add_0_r. reflexivity.
  - change (Datatypes.S a + Datatypes.S b)%nat
      with (Datatypes.S (a + Datatypes.S b)).
    cbn [consecutive app]. rewrite IH, Nat2Z.inj_succ.
    replace (lo + 1 + Z.of_nat a) with (lo + Z.succ (Z.of_nat a)) by lia.
    reflexivity.
Qed.

Lemma to_int_small u : 0 <= u < 2 ^ 31 -> to_int u = u.
Proof.
  intros H. unfold to_int, UINT32_MOD.
  rewrite Z.mod_small by lia.
  destruct (u <? 2 ^ 31) eqn:Hlt; [reflexivity |].
  apply Z.ltb_ge in Hlt. lia.
Qed.

Lemma to_int_sentinel u :
  0 <= u < 2 ^ 32 -> (to_int u = -1 <-> u = 4294967295).
Proof.
  intros H. unfold to_int, UINT32_MOD.
  rewrite Z.mod_small by lia.
  destruct (u <? 2 ^ 31) eqn:Hlt.
  - apply Z.ltb_lt in Hlt. lia.
  - apply Z.ltb_ge in Hlt. lia.
Qed.

(** X7. The two lookups and the binding agree.  For a registered tag,
    [FindTextureID] answers the handle stored in the very slot
    [FindTextureSlot] answers, and [BindGLTextures] binds that handle to
    the texture unit of that index.  [FindTextureID] converts the unsigned
    handle to [int]: a handle below 2^31 is answered as it is, and the
    answer is -1, the value for "not found", exactly for the handle
    0xFFFFFFFF. *)
Theorem lookups_agree_with_binding this log t i :
  array_ok this -> first_registered_at this t i ->
  FindTextureSlot t this log = Ok (i, this, log) /\
  FindTextureID t this log = Ok (to_int (ID (entry this i)), this, log) /\
  (exists before after,
      BindGLTextures this log
      = Ok (tt, this,
            log ++ before
                ++ [ GL (glActiveTexture (GL_TEXTURE0 + i));
                     GL (glBindTexture GL_TEXTURE_2D (ID (entry this i))) ]
                ++ after)) /\
  (0 <= ID (entry this i) < 2 ^ 31 ->
   FindTextureID t this log = Ok (ID (entry this i), this, log)) /\
  (0 <= ID (entry this i) < 2 ^ 32 ->
   (FindTextureID t this log = Ok (-1, this, log)
    <-> ID (entry this i) = 4294967295)).
Proof.
  intros Hok Hfirst. pose proof (proj2 Hok) as Hc.
  assert (Hid : FindTextureID t this log
                = Ok (to_int (ID (entry this i)), this, log)).
  { rewrite FindTextureID_scan by exact Hc.
    rewrite (scan_first this t i Hfirst). reflexivity. }
  split; [| split; [exact Hid | split; [| split]]].
  - rewrite FindTextureSlot_scan by exact Hc.
    rewrite (scan_first this t i Hfirst). reflexivity.
  - destruct Hfirst as (Hi & _).
    rewrite (BindGLTextures_emits this Hok log). unfold indices.
    replace (Z.to_nat (m_loadedTextures this))
      with (Z.to_nat i + Datatypes.S (Z.to_nat (m_loadedTextures this - i - 1)))%nat
      by lia.
    rewrite consecutive_split, flat_map_app. cbn [flat_map].
    rewrite Z.add_0_l, Z2Nat.id by lia.
    eexists. eexists. unfold bind_to_unit at 2. reflexivity.
  - intros Hsmall. rewrite Hid, to_int_small by exact Hsmall. reflexivity.
  - intros Hrange. rewrite Hid. split.
    + intros [= H]. apply to_int_sentinel; assumption.
    + intros H. apply (to_int_sentinel _ Hrange) in H. rewrite H. reflexivity.
Qed.

(** X8. What [FindMaterial] reports.  It always returns; its result is
    true exactly when the list is not empty, whether or not an entry
    carries the tag; it never changes the tag of [material]; and when no
    entry carries the tag it leaves [material] as it was. *)
Theorem FindMaterial_reports_nonempty_list t material this log :
  exists found,
    FindMaterial t material this log
    = Ok ((match m_objectMaterials this with [] => false | _ :: _ => true end,
           found), this, log) /\
    material_tag found = material_tag material /\
    ((forall m, In m (m_objectMaterials this) -> material_tag m <> t) ->
     found = material).
Proof.
  rewrite FindMaterial_spec.
  destruct (m_objectMaterials this) as [| m0 l0] eqn:Hl.
  - exists material. repeat split.
  - destruct (first_material t (m0 :: l0)) as [m |] eqn:Hfound.
    + exists (copy_material m material). repeat split.
      intros Hnone. apply first_material_none in Hnone. congruence.
    + exists material. repeat split.
Qed.

(** X9. What [SetShaderMaterial] pushes.  With an empty list it makes no
    call and does not touch the shader manager, NULL or not; with a shader
    manager and an entry for the tag it pushes exactly the diffuse colour,
    the specular colour and the shininess of the first such entry, in this
    order. *)
Theorem SetShaderMaterial_pushes_first_match t this log :
  (m_objectMaterials this = [] ->
   SetShaderMaterial t this log = Ok (tt, this, log)) /\
  (forall l1 m l2,
      m_pShaderManager this = object ->
      m_objectMaterials this = l1 ++ m :: l2 ->
      (forall m', In m' l1 -> material_tag m' <> t) ->
      material_tag m = t ->
      SetShaderMaterial t this log
      = Ok (tt, this,
            log ++ [ Shader (setVec3Value "material.diffuseColor"
                                          (diffuseColor m));
                     Shader (setVec3Value "material.specularColor"
                                          (specularColor m));
                     Shader (setFloatValue "material.shininess"
                                           (shininess m)) ])).
Proof.
  split.
  - intros Hl. rewrite SetShaderMaterial_spec, Hl. reflexivity.
  - intros l1 m l2 Hp Hl Hl1 Hm.
    rewrite SetShaderMaterial_spec, Hp, Hl.
    rewrite (first_material_first t l1 m l2 Hl1 Hm).
    destruct l1; reflexivity.
Qed.

(** X10. What [SetShaderTexture] sends.  With a shader manager it switches
    texture sampling on and sends the sampler the index of the first slot
    that carries the tag - or, for a tag that is not registered, the value
    -1 of [FindTextureSlot], unchecked. *)
Theorem SetShaderTexture_sends_slot_or_sentinel t this log :
  m_pShaderManager this = object -> array_ok this ->
  (forall i,
      first_registered_at this t i ->
      SetShaderTexture t this log
      = Ok (tt, this,
            log ++ [ Shader (setIntValue "bUseTexture" 1);
                     Shader (setSampler2DValue "objectTexture" i) ])) /\
  (~ registered this t ->
   SetShaderTexture t this log
   = Ok (tt, this,
         log ++ [ Shader (setIntValue "bUseTexture" 1);
                  Shader (setSampler2DValue "objectTexture" (-1)) ])).
Proof.
  intros Hp Hok.
  pose proof (SetShaderTexture_emits t this (proj2 Hok) log) as Hrun.
  rewrite Hp in Hrun. split.
  - intros i Hi. rewrite Hrun, (scan_first this t i Hi). reflexivity.
  - intros Hno. rewrite Hrun, (scan_unregistered this t Hno). reflexivity.
Qed.

Lemma shading_mode_app log cs :
  shading_mode (log ++ cs) =
  match shading_mode cs with
  | Some mode => Some mode
  | None => shading_mode log
  end.
Proof.
  induction log as [| c log IH]; simpl.
  - destruct (shading_mode cs); reflexivity.
  - rewrite IH. destruct (shading_mode cs); reflexivity.
Qed.

(** X11. The shading mode is the one of the last setter.  Whatever was sent
    before, after [SetShaderColor] the mode in force is 0 (flat colour)
    and after [SetShaderTexture] it is 1 (sampled texture): in a draw block
    that calls both, the later one decides.  [SetTextureUVScale],
    [SetTransformations] and [SetShaderMaterial] leave the mode as it
    is. *)
Theorem shading_mode_of_last_setter this log :
  m_pShaderManager this = object -> array_ok this ->
  (forall r g b a,
      exists log', SetShaderColor r g b a this log = Ok (tt, this, log') /\
                   shading_mode log' = Some 0) /\
  (forall t,
      exists log', SetShaderTexture t this log = Ok (tt, this, log') /\
                   shading_mode log' = Some 1) /\
  (forall r g b a t,
      exists log', (SetShaderColor r g b a ;; SetShaderTexture t) this log
                   = Ok (tt, this, log') /\
                   shading_mode log' = Some 1) /\
  (forall u v,
      exists log', SetTextureUVScale u v this log = Ok (tt, this, log') /\
                   shading_mode log' = shading_mode log) /\
  (forall sc rx ry rz pos,
      exists log', SetTransformations sc rx ry rz pos this log
                   = Ok (tt, this, log') /\
                   shading_mode log' = shading_mode log) /\
  (forall t,
      exists log', SetShaderMaterial t this log = Ok (tt, this, log') /\
                   shading_mode log' = shading_mode log).
Proof.
  intros Hp Hok.
  assert (Hcolor : forall r g b a log0,
             SetShaderColor r g b a this log0
             = Ok (tt, this,
                   log0 ++ [Shader (setIntValue g_UseTextureName 0);
                            Shader (setVec4Value g_ColorValueName
                                                 (glm_vec4 r g b a))])).
  { intros r g b a log0.
    pose proof (SetShaderColor_emits r g b a this log0) as H.
    rewrite Hp in H. exact H. }
  assert (Htexture : forall t log0,
             exists slot,
               SetShaderTexture t this log0
               = Ok (tt, this,
                     log0 ++ [Shader (setIntValue g_UseTextureName 1);
                              Shader (setSampler2DValue g_TextureValueName
                                                        slot)])).
  { intros t log0.
    pose proof (SetShaderTexture_emits t this (proj2 Hok) log0) as H.
    rewrite Hp in H. eexists. exact H. }
  split; [| split; [| split; [| split; [| split]]]].
  - intros r g b a. eexists. split; [apply Hcolor |].
    rewrite shading_mode_app. reflexivity.
  - intros t. destruct (Htexture t log) as [slot H].
    eexists. split; [exact H |]. rewrite shading_mode_app. reflexivity.
  - intros r g b a t.
    rewrite (bind_ok _ _ _ _ _ _ _ (Hcolor r g b a log)).
    destruct (Htexture t (log ++ [Shader (setIntValue g_UseTextureName 0);
                                  Shader (setVec4Value g_ColorValueName
                                                       (glm_vec4 r g b a))]))
      as [slot H].
    eexists. split; [exact H |]. rewrite shading_mode_app. reflexivity.
  - intros u v. pose proof (SetTextureUVScale_emits u v this log) as H.
    rewrite Hp in H. eexists. split; [exact H |].
    rewrite shading_mode_app. reflexivity.
  - intros sc rx ry rz pos.
    pose proof (SetTransformations_emits sc rx ry rz pos this log) as H.
    rewrite Hp in H. eexists. split; [exact H |].
    rewrite shading_mode_app. reflexivity.
  - intros t. rewrite SetShaderMaterial_spec, Hp.
    destruct (m_objectMaterials this).
    + eexists. split; reflexivity.
    + eexists. split; [reflexivity |]. rewrite shading_mode_app. reflexivity.
Qed.
End ObjectProperties.

(* ------------------------------------------------------------------------- *)
(** ** Further properties: preparing and rendering the scene *)

Section SceneProperties.
Context {S : Scalar} {G : Glm} {E : Environment}.


(** With room for the whole table, [load_all] returns. *)
Lemma load_all_returns table :
  forall this log,
    array_ok this ->
    m_loadedTextures this + Z.of_nat (List.length table) <= TEXTURE_SLOTS ->
    exists this' log', load_all table this log = Ok (tt, this', log').
Proof.
  induction table as [| [f t] table IH]; intros this log Hok Hroom.
  - eexists. eexists. reflexivity.
  - simpl List.length in Hroom. simpl load_all.
    destruct (loads f) eqn:Hl.
    + assert (Hfree : m_loadedTextures this < TEXTURE_SLOTS) by lia.
      destruct (CreateGLTexture_success f t this log Hl Hok Hfree)
        as (id & log1 & Hrun).
      rewrite (bind_ok _ _ _ _ _ _ _ Hrun).
      apply IH.
      * apply array_ok_with_new_texture; assumption.
      * cbn [with_new_texture m_loadedTextures]. lia.
    + destruct (CreateGLTexture_failure f t this log Hl) as (log1 & Hrun).
      rewrite (bind_ok _ _ _ _ _ _ _ Hrun).
      apply IH; [exact Hok | lia].
Qed.


Lemma In_loaded_tags table t :
  In t (loaded_tags table) -> In t (map snd table).
Proof.
  induction table as [| [f t'] table IH]; simpl; [tauto |].
  unfold loaded_tags in *. simpl. intros H. apply in_app_or in H.
  destruct H as [H | H]; [| right; apply IH; exact H].
  destruct (loads f); [destruct H as [H | []]; left; exact H | destruct H].
Qed.

Lemma NoDup_loaded_tags table :
  NoDup (map snd table) -> NoDup (loaded_tags table).
Proof.
  induction table as [| [f t] table IH]; intros Hdup.
  - constructor.
  - simpl in Hdup. inversion Hdup as [| x l Hnotin Hrest]. subst.
    change (loaded_tags ((f, t) :: table))
      with ((if loads f then [t] else []) ++ loaded_tags table).
    destruct (loads f); simpl; [| apply IH; exact Hrest].
    constructor; [| apply IH; exact Hrest].
    intros Hin. apply Hnotin. apply In_loaded_tags. exact Hin.
Qed.

Lemma loaded_tags_all table :
  (forall entry, In entry table -> loads (fst entry) = true) ->
  loaded_tags table = map snd table.
Proof.
  induction table as [| [f t] table IH]; intros Hall; [reflexivity |].
  change (loaded_tags ((f, t) :: table))
    with ((if loads f then [t] else []) ++ loaded_tags table).
  pose proof (Hall (f, t) (or_introl eq_refl)) as Hf. simpl in Hf. rewrite Hf.
  simpl. f_equal. apply IH. intros entry Hin. apply Hall. right. exact Hin.
Qed.

Lemma length_loaded_tags table :
  (List.length (loaded_tags table) <= List.length table)%nat.
Proof.
  induction table as [| [f t] table IH]; [apply le_n |].
  change (loaded_tags ((f, t) :: table))
    with ((if loads f then [t] else []) ++ loaded_tags table).
  rewrite length_app. destruct (loads f); simpl; lia.
Qed.

Lemma LoadSceneTextures_returns this log :
  array_ok this -> m_loadedTextures this + 9 <= TEXTURE_SLOTS ->
  exists this' log1,
    LoadSceneTextures this log
    = Ok (tt, this',
          log1 ++ flat_map (bind_to_unit this')
                           (indices (m_loadedTextures this'))).
Proof.
  intros Hok Hroom. rewrite LoadSceneTextures_load_all.
  destruct (load_all_returns scene_textures this log Hok Hroom)
    as (this1 & log1 & Hload).
  rewrite (bind_ok _ _ _ _ _ _ _ Hload).
  destruct (load_all_effect _ _ _ _ _ Hok Hload) as (_ & _ & _ & Hok1 & _).
  exists this1, log1. apply BindGLTextures_emits. exact Hok1.
Qed.

(** X12. With nine free slots [LoadSceneTextures] returns normally, whatever
    files are on disk.  It registers, behind the slots occupied before
    and in the order of its calls, the tags whose files load - a file that
    does not load shifts the tags after it one unit down - and ends by
    binding every occupied slot to its texture unit; pointers and
    materials are left alone. *)
Theorem LoadSceneTextures_registers_what_loads this log :
  array_ok this -> m_loadedTextures this + 9 <= TEXTURE_SLOTS ->
  exists this' log1 added,
    LoadSceneTextures this log
    = Ok (tt, this',
          log1 ++ flat_map (bind_to_unit this')
                           (indices (m_loadedTextures this'))) /\
    occupied this' = occupied this ++ added /\
    map tag added = loaded_tags scene_textures /\
    m_loadedTextures this'
    = m_loadedTextures this + Z.of_nat (List.length (loaded_tags scene_textures)) /\
    m_loadedTextures this' <= m_loadedTextures this + 9 /\
    array_ok this' /\
    m_pShaderManager this' = m_pShaderManager this /\
    m_basicMeshes this' = m_basicMeshes this /\
    m_objectMaterials this' = m_objectMaterials this.
Proof.
  intros Hok Hroom.
  destruct (LoadSceneTextures_returns this log Hok Hroom)
    as (this' & log1 & Hrun).
  destruct (LoadSceneTextures_effect _ _ _ _ Hok Hrun)
    as (Hp & Hm & Hmat & Hok' & added & Hocc & Htags).
  assert (Hcount : m_loadedTextures this'
                   = m_loadedTextures this
                     + Z.of_nat (List.length (loaded_tags scene_textures))).
  { pose proof (occupied_length this' Hok') as H'.
    pose proof (occupied_length this Hok) as H.
    rewrite Hocc, length_app, H in H'.
    rewrite <- Htags, length_map.
    destruct Hok as [_ Hc]. destruct Hok' as [_ Hc']. lia. }
  exists this', log1, added.
  split; [exact Hrun | split; [exact Hocc | split; [exact Htags |]]].
  split; [exact Hcount |].
  split; [| split; [exact Hok' | split; [exact Hp | split; [exact Hm | exact Hmat]]]].
  rewrite Hcount. pose proof (length_loaded_tags scene_textures) as Hle.
  change (List.length scene_textures) with 9%nat in Hle. lia.
Qed.

Lemma PrepareScene_returns this log :
  array_ok this -> m_loadedTextures this + 9 <= TEXTURE_SLOTS ->
  m_pShaderManager this = object -> m_basicMeshes this = object ->
  exists this' log', PrepareScene this log = Ok (tt, this', log').
Proof.
  intros Hok Hroom Hp Hm. unfold PrepareScene.
  destruct (LoadSceneTextures_returns this log Hok Hroom)
    as (this1 & log1 & Hrun).
  destruct (LoadSceneTextures_effect _ _ _ _ Hok Hrun)
    as (Hp1 & Hm1 & _ & _ & _).
  rewrite (bind_ok _ _ _ _ _ _ _ Hrun).
  rewrite (bind_ok _ _ _ _ _ _ _ (DefineObjectMaterials_ok this1 _)).
  set (this2 := Build_SceneManager _ _ _ _ _).
  assert (Hp2 : m_pShaderManager this2 = object) by (simpl; congruence).
  assert (Hm2 : m_basicMeshes this2 = object) by (simpl; congruence).
  destruct (quiet_SetupSceneLights this2 Hp2) as [lights Hlights].
  rewrite (bind_ok _ _ _ _ _ _ _ (Hlights _)).
  assert (Hrest : quiet (meshes LoadPlaneMesh ;; meshes LoadCylinderMesh ;;
                         meshes LoadTaperedCylinderMesh ;; meshes LoadTorusMesh ;;
                         meshes LoadSphereMesh ;; meshes LoadBoxMesh) this2).
  { repeat (apply quiet_bind; [eexists; apply emits_meshes; exact Hm2 |]).
    eexists. apply emits_meshes. exact Hm2. }
  destruct Hrest as [loads_ Hrest]. eexists. eexists. apply Hrest.
Qed.

Lemma script_textures_registered this :
  array_ok this ->
  map tag (occupied this) = map snd scene_textures ->
  forall t, In t script_texture_tags -> registered this t.
Proof.
  intros Hok Hnine t Ht.
  assert (Hin : In t (map tag (occupied this))).
  { rewrite Hnine. simpl in Ht |- *. tauto. }
  apply in_map_iff in Hin. destruct Hin as (e & He & Hin).
  destruct (in_occupied this e Hok Hin) as (i & Hi & Hentry).
  exists i. split; [exact Hi | congruence].
Qed.

(** X13. The first preparation is safe.  Given a shader manager, the
    constructor followed by [PrepareScene] returns normally whatever files
    are on disk, in a state in which the scene can be rendered: the
    registry invariant holds, the material list is the seven scene
    materials, the occupied tags are those whose files load.  If all nine
    files load, every texture tag the scene script asks for is
    registered, in the order of the calls of [LoadSceneTextures]. *)
Theorem PrepareScene_after_constructor log0 :
  exists this0 log this1 log1,
    SceneManager_ctor object raw_SceneManager log0 = Ok (tt, this0, log) /\
    PrepareScene this0 log = Ok (tt, this1, log1) /\
    prepared this1 /\
    registry_invariant this1 /\
    m_objectMaterials this1 = scene_materials /\
    map tag (occupied this1) = loaded_tags scene_textures /\
    ((forall entry, In entry scene_textures -> loads (fst entry) = true) ->
     map tag (occupied this1) = map snd scene_textures /\
     m_loadedTextures this1 = 9 /\
     forall t, In t script_texture_tags -> registered this1 t).
Proof.
  eexists. eexists.
  match goal with
  | |- exists this1 log1, SceneManager_ctor _ _ _ = Ok (tt, ?s, ?l) /\ _ =>
      assert (Hctor : SceneManager_ctor object raw_SceneManager log0
                      = Ok (tt, s, l)) by apply SceneManager_ctor_ok
  end.
  match type of Hctor with
  | _ = Ok (tt, ?s, ?l) =>
      assert (Hok : array_ok s) by (split; [reflexivity | split; discriminate]);
      destruct (PrepareScene_returns s l Hok) as (this1 & log1 & Hrun);
      [cbn [m_loadedTextures]; unfold TEXTURE_SLOTS; lia
      | reflexivity | reflexivity |]
  end.
  destruct (PrepareScene_effect _ _ _ _ Hok Hrun)
    as (_ & _ & Hprep & Hmat & added & Hocc & Htags).
  simpl in Hmat, Hocc.
  assert (Htags1 : map tag (occupied this1) = loaded_tags scene_textures)
    by (rewrite Hocc; exact Htags).
  pose proof (proj1 (proj2 (proj2 Hprep))) as Hok1.
  exists this1, log1.
  split; [exact Hctor | split; [exact Hrun | split; [exact Hprep |]]].
  split; [| split; [exact Hmat | split; [exact Htags1 |]]].
  - split; [exact Hok1 |]. rewrite Htags1. apply NoDup_loaded_tags.
    repeat (constructor; [simpl; intuition discriminate |]). constructor.
  - intros Hall.
    assert (Hnine : map tag (occupied this1) = map snd scene_textures)
      by (rewrite Htags1; apply loaded_tags_all; exact Hall).
    split; [exact Hnine | split].
    + pose proof (occupied_length this1 Hok1) as Hlen.
      rewrite <- (length_map tag), Hnine in Hlen.
      change (List.length (map snd scene_textures)) with 9%nat in Hlen.
      destruct Hok1 as [_ Hc]. lia.
    + apply script_textures_registered; assumption.
Qed.



(** X17. [DefineObjectMaterials] only appends.  Whatever the state, it
    returns without a call to any collaborator and appends seven
    materials, under seven different tags, behind the entries already
    there; nothing else of the object changes.  Every material tag the
    scene script asks for is among the seven, and a tag that was defined
    before keeps the values of its earlier entry. *)
Theorem DefineObjectMaterials_appends this log :
  exists this',
    DefineObjectMaterials this log = Ok (tt, this', log) /\
    m_objectMaterials this' = m_objectMaterials this ++ scene_materials /\
    map material_tag scene_materials
    = ["wood"; "glass"; "wall"; "twine"; "liquid"; "felixGlow"; "loveGlow"] /\
    NoDup (map material_tag scene_materials) /\
    (forall t, In t script_material_tags ->
               In t (map material_tag scene_materials)) /\
    m_pShaderManager this' = m_pShaderManager this /\
    m_basicMeshes this' = m_basicMeshes this /\
    m_textureIDs this' = m_textureIDs this /\
    m_loadedTextures this' = m_loadedTextures this /\
    (forall t m material log2,
        first_material t (m_objectMaterials this) = Some m ->
        FindMaterial t material this' log2
        = Ok ((true, copy_material m material), this', log2)).
Proof.
  eexists. split; [apply DefineObjectMaterials_ok |].
  cbn [m_objectMaterials m_pShaderManager m_basicMeshes m_textureIDs
       m_loadedTextures].
  split; [reflexivity | split; [reflexivity | split; [| split]]].
  - repeat (constructor; [simpl; intuition discriminate |]). constructor.
  - intros t Ht. simpl in Ht |- *. tauto.
  - repeat split.
    intros t m material log2 Hfound. rewrite FindMaterial_spec.
    cbn [m_objectMaterials].
    rewrite (first_material_app_left t _ scene_materials m Hfound).
    destruct (m_objectMaterials this); [discriminate | reflexivity].
Qed.
End SceneProperties.

Section RenderProperties.
Context {S : Scalar} {G : Glm} {E : Environment}.

Lemma emits_only_bind allowed (c1 c2 : M unit) this :
  emits_only allowed c1 this -> emits_only allowed c2 this ->
  emits_only allowed (c1 ;; c2) this.
Proof.
  intros (cs1 & H1 & A1) (cs2 & H2 & A2). exists (cs1 ++ cs2).
  split; [apply emits_bind; assumption |].
  rewrite forallb_app, A1, A2. reflexivity.
Qed.

Lemma sink_SetTransformations sc rx ry rz pos this :
  emits_only (sink_or_mesh_call this) (SetTransformations sc rx ry rz pos) this.
Proof.
  eexists. split; [apply SetTransformations_emits |].
  destruct (m_pShaderManager this); reflexivity.
Qed.

Lemma sink_SetShaderColor r g b a this :
  emits_only (sink_or_mesh_call this) (SetShaderColor r g b a) this.
Proof.
  eexists. split; [apply SetShaderColor_emits |].
  destruct (m_pShaderManager this); reflexivity.
Qed.

Lemma sink_SetTextureUVScale u v this :
  emits_only (sink_or_mesh_call this) (SetTextureUVScale u v) this.
Proof.
  eexists. split; [apply SetTextureUVScale_emits |].
  destruct (m_pShaderManager this); reflexivity.
Qed.

Lemma sink_SetShaderTexture t this :
  prepared this -> registered this t ->
  emits_only (sink_or_mesh_call this) (SetShaderTexture t) this.
Proof.
  intros (Hp & _ & Hok & _) Hreg.
  eexists. split; [apply SetShaderTexture_emits; apply Hok |].
  rewrite Hp. destruct (scan_registered this t Hreg) as (i & Hi).
  rewrite (scan_first this t i Hi). destruct Hi as (Hrange & _).
  cbn [forallb sink_or_mesh_call].
  replace (0 <=? i) with true by (symmetry; apply Z.leb_le; lia).
  replace (i <? m_loadedTextures this) with true
    by (symmetry; apply Z.ltb_lt; lia).
  reflexivity.
Qed.

Lemma sink_SetShaderMaterial t this :
  prepared this -> In t script_material_tags ->
  emits_only (sink_or_mesh_call this) (SetShaderMaterial t) this.
Proof.
  intros (Hp & _ & _ & Hdefined) Ht.
  eexists. split;
    [apply SetShaderMaterial_emits; [exact Hp | apply Hdefined; exact Ht] |].
  destruct (first_material t (m_objectMaterials this)); reflexivity.
Qed.

Lemma sink_meshes c this :
  prepared this -> emits_only (sink_or_mesh_call this) (meshes c) this.
Proof.
  intros (_ & Hm & _). eexists. split; [apply emits_meshes; exact Hm |].
  reflexivity.
Qed.

(** One instruction of the script after the other, each a call to the sink
    or to the mesh provider. *)
Ltac sink_script Htextures :=
  cbv zeta;
  repeat (apply emits_only_bind;
          [first [ apply sink_SetTransformations
                 | apply sink_SetShaderColor
                 | apply sink_SetTextureUVScale
                 | apply sink_SetShaderTexture;
                   [assumption | apply Htextures; simpl; tauto]
                 | apply sink_SetShaderMaterial;
                   [assumption | simpl; tauto]
                 | apply sink_meshes; assumption ] |]);
  apply sink_meshes; assumption.

Lemma RenderScene_emits_only this :
  prepared this ->
  (forall t, In t script_texture_tags -> registered this t) ->
  emits_only (sink_or_mesh_call this) RenderScene this.
Proof.
  intros H Htextures. unfold RenderScene.
  apply emits_only_bind; [unfold RenderBackground; sink_script Htextures |].
  apply emits_only_bind; [unfold RenderTable; sink_script Htextures |].
  apply emits_only_bind;
    [unfold RenderDraughtLivingDeath; sink_script Htextures |].
  apply emits_only_bind; [unfold RenderAmortentia; sink_script Htextures |].
  apply emits_only_bind; [unfold RenderThunderbrew; sink_script Htextures |].
  apply emits_only_bind; [unfold RenderFelix; sink_script Htextures |].
  unfold RenderFlooPowder; sink_script Htextures.
Qed.

(** X15. Rendering talks to the sink and to the mesh provider only.  In a
    prepared state in which the texture tags of the script are registered,
    [RenderScene] leaves the object alone and makes no OpenGL, stb_image
    or console call: every call goes to the shader manager or to the mesh
    provider, and every sampler it sets is given the index of an occupied
    slot, never the -1 of a failed lookup. *)
Theorem RenderScene_calls_sink_and_meshes_only this :
  prepared this ->
  (forall t, In t script_texture_tags -> registered this t) ->
  exists calls,
    (forall log, RenderScene this log = Ok (tt, this, log ++ calls)) /\
    forallb (sink_or_mesh_call this) calls = true.
Proof.
  intros H Htextures.
  destruct (RenderScene_emits_only this H Htextures)
    as (calls & Hcalls & Hallowed).
  exists calls. split; [exact Hcalls | exact Hallowed].
Qed.

(** X18. From construction to the rendered frame.  When the nine texture
    files load, the constructor (given a shader manager), [PrepareScene]
    and [RenderScene] in sequence all return normally, whatever was logged
    before; rendering leaves the prepared object as it is, sends every
    sampler the index of an occupied slot, and a second frame repeats the
    calls of the first. *)
Theorem construct_prepare_render log0 :
  (forall entry, In entry scene_textures -> loads (fst entry) = true) ->
  exists this log1 calls,
    (SceneManager_ctor object ;; PrepareScene) raw_SceneManager log0
    = Ok (tt, this, log1) /\
    m_loadedTextures this = 9 /\
    (SceneManager_ctor object ;; PrepareScene ;; RenderScene)
      raw_SceneManager log0
    = Ok (tt, this, log1 ++ calls) /\
    (SceneManager_ctor object ;; PrepareScene ;; RenderScene ;; RenderScene)
      raw_SceneManager log0
    = Ok (tt, this, (log1 ++ calls) ++ calls) /\
    forallb (sink_or_mesh_call this) calls = true.
Proof.
  intros Hall.
  pose proof (SceneManager_ctor_ok object log0) as Hctor.
  match type of Hctor with
  | _ = Ok (tt, ?s, ?l) =>
      assert (Hok : array_ok s) by (split; [reflexivity | split; discriminate]);
      destruct (PrepareScene_returns s l Hok) as (this & log1 & Hrun);
      [cbn [m_loadedTextures]; unfold TEXTURE_SLOTS; lia
      | reflexivity | reflexivity |]
  end.
  destruct (PrepareScene_effect _ _ _ _ Hok Hrun)
    as (_ & _ & Hprep & _ & added & Hocc & Htags).
  simpl in Hocc.
  pose proof (proj1 (proj2 (proj2 Hprep))) as Hok1.
  assert (Hnine : map tag (occupied this) = map snd scene_textures)
    by (rewrite Hocc, Htags; apply loaded_tags_all; exact Hall).
  assert (Hcount : m_loadedTextures this = 9).
  { pose proof (occupied_length this Hok1) as Hlen.
    rewrite <- (length_map tag), Hnine in Hlen.
    change (List.length (map snd scene_textures)) with 9%nat in Hlen.
    destruct Hok1 as [_ Hc]. lia. }
  destruct (RenderScene_emits_only this Hprep
              (script_textures_registered this Hok1 Hnine))
    as (calls & Hcalls & Hallowed).
  exists this, log1, calls.
  split; [rewrite (bind_ok _ _ _ _ _ _ _ Hctor); exact Hrun |].
  split; [exact Hcount |].
  split; [| split; [| exact Hallowed]].
  - rewrite (bind_ok _ _ _ _ _ _ _ Hctor), (bind_ok _ _ _ _ _ _ _ Hrun).
    apply Hcalls.
  - rewrite (bind_ok _ _ _ _ _ _ _ Hctor), (bind_ok _ _ _ _ _ _ _ Hrun).
    rewrite (bind_ok _ _ _ _ _ _ _ (Hcalls log1)). apply Hcalls.
Qed.

End RenderProperties.


Lemma lookups_agree_with_binding_witness :
  let this := fst Demo.two_textures in
  (array_ok this /\ first_registered_at this "black-twine" 1) /\
  FindTextureSlot "black-twine" this [] = Ok (1, this, []) /\
  FindTextureID "black-twine" this [] = Ok (2, this, []).
Proof.
  intros this.
  assert (Hok : array_ok this) by (split; [reflexivity | split; discriminate]).
  assert (Hfirst : first_registered_at this "black-twine" 1).
  { split; [split; [discriminate | reflexivity] |].
    split; [reflexivity |].
    intros j Hj. assert (j = 0) as -> by lia. discriminate. }
  split; [split; assumption |].
  destruct (lookups_agree_with_binding this [] "black-twine" 1 Hok Hfirst)
    as (Hslot & _ & _ & Hsmall & _).
  split; [exact Hslot |].
  apply Hsmall. split; [discriminate | reflexivity].
Defined.

Lemma SetShaderMaterial_pushes_first_match_witness :
  let E := Demo.environment Demo.all_files in
  let this := Demo.with_materials (fst Demo.constructed)
                                  [Demo.glass; Demo.wood; Demo.later_wood] in
  let bare := fst Demo.constructed_without_shader in
  (m_objectMaterials bare = [] /\
   SetShaderMaterial "wood" bare [] = Ok (tt, bare, [])) /\
  (m_pShaderManager this = object /\
   SetShaderMaterial "wood" this []
   = Ok (tt, this,
         [ Shader (setVec3Value "material.diffuseColor"
                                (diffuseColor Demo.wood));
           Shader (setVec3Value "material.specularColor"
                                (specularColor Demo.wood));
           Shader (setFloatValue "material.shininess"
                                 (shininess Demo.wood)) ])).
Proof.
  intros E this bare.
  split; split; [reflexivity | | reflexivity |].
  - exact (proj1 (SetShaderMaterial_pushes_first_match (E := E) "wood" bare [])
                 eq_refl).
  - apply (proj2 (SetShaderMaterial_pushes_first_match (E := E) "wood" this [])
                 [Demo.glass] Demo.wood [Demo.later_wood] eq_refl eq_refl).
    + intros m [<- | []]. discriminate.
    + reflexivity.
Defined.

Lemma SetShaderTexture_sends_slot_or_sentinel_witness :
  let this := fst Demo.two_textures in
  (m_pShaderManager this = object /\ array_ok this) /\
  SetShaderTexture "black-twine" this []
  = Ok (tt, this, [ Shader (setIntValue "bUseTexture" 1);
                    Shader (setSampler2DValue "objectTexture" 1) ]) /\
  SetShaderTexture "table" this []
  = Ok (tt, this, [ Shader (setIntValue "bUseTexture" 1);
                    Shader (setSampler2DValue "objectTexture" (-1)) ]).
Proof.
  intros this.
  assert (Hok : array_ok this) by (split; [reflexivity | split; discriminate]).
  split; [split; [reflexivity | exact Hok] |].
  pose proof (SetShaderTexture_sends_slot_or_sentinel "black-twine" this []
                eq_refl Hok) as [Hfound _].
  pose proof (SetShaderTexture_sends_slot_or_sentinel "table" this []
                eq_refl Hok) as [_ Hmissing].
  split.
  - apply Hfound. split; [split; [discriminate | reflexivity] |].
    split; [reflexivity |].
    intros j Hj. assert (j = 0) as -> by lia. discriminate.
  - apply Hmissing. intros (i & Hi & Ht).
    assert (i = 0 \/ i = 1) as [-> | ->]
        by (change (m_loadedTextures this) with 2 in Hi; lia);
      discriminate.
Defined.

Lemma shading_mode_of_last_setter_witness :
  let E := Demo.environment Demo.few_files in
  let this := fst Demo.two_textures in
  let log := snd Demo.two_textures in
  (m_pShaderManager this = object /\ array_ok this) /\
  exists log',
    (SetShaderColor 0.929%Q 0.835%Q 0.784%Q 1%Q ;; SetShaderTexture "background")
      this log
    = Ok (tt, this, log') /\
    shading_mode log' = Some 1.
Proof.
  intros E this log.
  assert (Hok : array_ok this) by (split; [reflexivity | split; discriminate]).
  split; [split; [reflexivity | exact Hok] |].
  destruct (shading_mode_of_last_setter (E := E) this log eq_refl Hok)
    as (_ & _ & Hboth & _).
  apply Hboth.
Defined.

Lemma LoadSceneTextures_registers_what_loads_witness :
  let E := Demo.environment Demo.few_files in
  let this := fst Demo.constructed in
  let log := snd Demo.constructed in
  (array_ok this /\ m_loadedTextures this + 9 <= TEXTURE_SLOTS) /\
  exists this' log',
    LoadSceneTextures this log = Ok (tt, this', log') /\
    map tag (occupied this') = ["bottle-cork"; "black-twine"; "lucky-potion"] /\
    m_loadedTextures this' = 3.
Proof.
  intros E this log.
  assert (Hok : array_ok this) by (split; [reflexivity | split; discriminate]).
  assert (Hroom : m_loadedTextures this + 9 <= TEXTURE_SLOTS) by discriminate.
  split; [split; assumption |].
  destruct (LoadSceneTextures_registers_what_loads (E := E) this log Hok Hroom)
    as (this' & log1 & added & Hrun & Hocc & Htags & Hcount & _).
  exists this'. eexists. split; [exact Hrun |].
  split; [rewrite Hocc; exact Htags | exact Hcount].
Defined.


Lemma RenderScene_calls_sink_and_meshes_only_witness :
  let E := Demo.environment Demo.all_files in
  let this := fst Demo.prepared_scene in
  (prepared this /\
   forall t, In t script_texture_tags -> registered this t) /\
  exists calls,
    (forall log, RenderScene this log = Ok (tt, this, log ++ calls)) /\
    forallb (sink_or_mesh_call this) calls = true.
Proof.
  intros E this.
  assert (H : prepared this).
  { split; [reflexivity | split; [reflexivity | split]].
    - split; [reflexivity | split; discriminate].
    - intros t Ht. simpl in Ht.
      repeat (destruct Ht as [<- | Ht]; [discriminate |]). destruct Ht. }
  assert (Htextures : forall t, In t script_texture_tags -> registered this t).
  { intros t Ht. simpl in Ht.
    repeat (destruct Ht as [<- | Ht];
            [first [ exists 0; split; [split; [discriminate | reflexivity] | reflexivity]
                   | exists 1; split; [split; [discriminate | reflexivity] | reflexivity]
                   | exists 2; split; [split; [discriminate | reflexivity] | reflexivity]
                   | exists 3; split; [split; [discriminate | reflexivity] | reflexivity]
                   | exists 4; split; [split; [discriminate | reflexivity] | reflexivity]
                   | exists 5; split; [split; [discriminate | reflexivity] | reflexivity]
                   | exists 6; split; [split; [discriminate | reflexivity] | reflexivity]
                   | exists 7; split; [split; [discriminate | reflexivity] | reflexivity]
                   | exists 8; split; [split; [discriminate | reflexivity] | reflexivity] ]
            |]).
    destruct Ht. }
  split; [split; assumption |].
  exact (RenderScene_calls_sink_and_meshes_only (E := E) this H Htextures).
Defined.


Lemma construct_prepare_render_witness :
  let E := Demo.environment Demo.all_files in
  (forall entry, In entry scene_textures -> loads (fst entry) = true) /\
  exists this log1 calls,
    (SceneManager_ctor object ;; PrepareScene) raw_SceneManager []
    = Ok (tt, this, log1) /\
    m_loadedTextures this = 9 /\
    (SceneManager_ctor object ;; PrepareScene ;; RenderScene ;; RenderScene)
      raw_SceneManager []
    = Ok (tt, this, (log1 ++ calls) ++ calls).
Proof.
  intros E.
  assert (Hall : forall entry, In entry scene_textures ->
                               loads (fst entry) = true).
  { intros entry Hin. simpl in Hin.
    repeat (destruct Hin as [<- | Hin]; [reflexivity |]). destruct Hin. }
  split; [exact Hall |].
  destruct (construct_prepare_render (E := E) [] Hall)
    as (this & log1 & calls & Hprep & Hcount & _ & Htwice & _).
  exists this, log1, calls. repeat split; assumption.
Defined.
